(** * Unified Code Scanner: a shallow embedding of [scripts/unified_scanner.py]

    The development follows the layout of the Python module: the data
    class [ProjectConfig], then [ProjectDetector], [ConfigLoader],
    [GitignoreParser], [UnifiedScanner] and the driver [main].  The
    definitions come first, the theorems about them afterwards.

    Modelling conventions.
    - A Python [str] is a [string]; non-ASCII text is held in its UTF-8
      encoding.  What the source does per character ([strip], [lower],
      [startswith], the [?] and [[...]] of [fnmatch]) is done per byte,
      which is exact on ASCII text.
    - A [Set[str]] is a [gset string]; where the source iterates over a
      set the model iterates over [elements].
    - A Python [int] is a [Z].
    - The file system is a finite tree ([node]) without symbolic links;
      what a system call can answer besides the data (a failing [stat],
      [open] or [read], a directory that cannot be listed) is recorded in
      the tree, and looking up a path ([exists], [is_dir]) answers without
      raising.
    - An exception is a value ([exn]); what is printed to [sys.stderr] by
      the functions that the properties are about is a list of lines.
    - The platform is POSIX: the path separator is [/] and
      [os.path.normcase] is the identity. *)

From Stdlib Require Import ZArith QArith Qabs String Ascii List.
From Stdlib.Strings Require Import Byte.
From stdpp Require Import base gmap sets list strings sorting pretty.

Local Open Scope string_scope.
Local Open Scope list_scope.

(** ** Python strings *)

Module Py.

(** [s.startswith(p)] *)
Definition startswith (s p : string) : bool := String.prefix p s.

(** [c in s] for a one-character [c] *)
Fixpoint contains_char (c : ascii) (s : string) : bool :=
  match s with
  | EmptyString => false
  | String a s' => Ascii.eqb a c || contains_char c s'
  end.

(** ASCII white space, as [str.isspace] has it: TAB..CR, FS..US, SPACE. *)
Definition is_space (c : ascii) : bool :=
  let n := nat_of_ascii c in
  ((9 <=? n)%nat && (n <=? 13)%nat) || ((28 <=? n)%nat && (n <=? 32)%nat).

Fixpoint lstrip (s : string) : string :=
  match s with
  | EmptyString => EmptyString
  | String a s' => if is_space a then lstrip s' else s
  end.

Fixpoint rstrip (s : string) : string :=
  match s with
  | EmptyString => EmptyString
  | String a s' =>
      match rstrip s' with
      | EmptyString => if is_space a then EmptyString else String a EmptyString
      | r => String a r
      end
  end.

(** [s.strip()] *)
Definition strip (s : string) : string := rstrip (lstrip s).

Definition lower_char (c : ascii) : ascii :=
  let n := nat_of_ascii c in
  if (65 <=? n)%nat && (n <=? 90)%nat then ascii_of_nat (n + 32) else c.

(** [s.lower()] *)
Fixpoint lower (s : string) : string :=
  match s with
  | EmptyString => EmptyString
  | String a s' => String (lower_char a) (lower s')
  end.

(** [s.rfind(c)], with [None] for Python's [-1] *)
Fixpoint rfind (c : ascii) (s : string) : option nat :=
  match s with
  | EmptyString => None
  | String a s' =>
      match rfind c s' with
      | Some i => Some (S i)
      | None => if Ascii.eqb a c then Some 0 else None
      end
  end.

(** [s[i:]] *)
Fixpoint drop_str (i : nat) (s : string) : string :=
  match i, s with
  | O, _ => s
  | S i', String _ s' => drop_str i' s'
  | S _, EmptyString => EmptyString
  end.

(** [sep.join(l)] *)
Fixpoint join (sep : string) (l : list string) : string :=
  match l with
  | [] => ""
  | [x] => x
  | x :: l' => x +:+ sep +:+ join sep l'
  end.

(** The line feed, [\n] *)
Definition nl : string := String (ascii_of_nat 10) "".

(** [s * n] *)
Fixpoint repeat_str (s : string) (n : nat) : string :=
  match n with
  | O => ""
  | S n' => s +:+ repeat_str s n'
  end.

(** [s.endswith(p)] *)
Definition endswith (s p : string) : bool :=
  let n := String.length s in
  let m := String.length p in
  (m <=? n)%nat && String.eqb (drop_str (n - m) s) p.

(** [s.split(c)] for a one-character separator *)
Fixpoint split_on (c : ascii) (s : string) : list string :=
  match s with
  | EmptyString => [""]
  | String a s' =>
      if Ascii.eqb a c then "" :: split_on c s'
      else match split_on c s' with
           | [] => [String a ""]
           | w :: ws => String a w :: ws
           end
  end.

(** [os.path.basename(p)]: what follows the last [/]. *)
Definition basename (p : string) : string :=
  match rfind "/" p with
  | Some i => drop_str (S i) p
  | None => p
  end.

(** [PurePath.suffix] of a final path component: the text from the last
    dot on, when that dot is neither the first nor the last character. *)
Definition suffix (name : string) : string :=
  match rfind "." name with
  | Some i =>
      if (0 <? i)%nat && (i <? String.length name - 1)%nat
      then drop_str i name else ""
  | None => ""
  end.

End Py.

(** ** [fnmatch.fnmatch] on POSIX

    [fnmatch] lower-cases nothing on POSIX, turns the pattern into a regular
    expression with [translate] and asks for a full match.  The embedding
    keeps the shape of [translate]: the pattern is cut into tokens, a
    bracket expression is cut into hyphen-separated chunks, chunks whose
    range is empty are merged away, and the tokens are matched against the
    whole name. *)

Module Fnmatch.

Inductive tok :=
| Star                                  (* [*]  : any run of characters *)
| AnyChar                               (* [?]  : one character *)
| Lit (c : ascii)                       (* a character standing for itself *)
| Never                                 (* an empty set: [(?!)] *)
| CharSet (negated : bool) (chunks : list (list ascii)).

Definition ch_eqb (a b : ascii) : bool := Ascii.eqb a b.
Definition ch_leb (a b : ascii) : bool := (nat_of_ascii a <=? nat_of_ascii b)%nat.

(** The bracket expression that starts at [l] (just after the [[]): the
    text up to the closing bracket and what follows it.  A [!] and then a
    []] directly after the [[] do not close it. *)
Fixpoint until_close (l : list ascii) : option (list ascii * list ascii) :=
  match l with
  | [] => None
  | c :: l' =>
      if ch_eqb c "]" then Some ([], l')
      else match until_close l' with
           | Some (s, r) => Some (c :: s, r)
           | None => None
           end
  end.

Definition find_close (l : list ascii) : option (list ascii * list ascii) :=
  let '(p1, l1) := match l with
                   | c :: l' => if ch_eqb c "!" then ([c], l') else ([], l)
                   | [] => ([], l)
                   end in
  let '(p2, l2) := match l1 with
                   | c :: l' => if ch_eqb c "]" then ([c], l') else ([], l1)
                   | [] => ([], l1)
                   end in
  match until_close l2 with
  | Some (s, r) => Some (p1 ++ p2 ++ s, r)
  | None => None
  end.

(** The [while True] loop that cuts [stuff] at its hyphens: a hyphen is
    looked for only after [skip] more characters ([k = k+3] in the source
    skips the two characters after the previous hyphen). *)
Fixpoint split_chunks (skip : nat) (cur : list ascii) (s : list ascii)
  : list (list ascii) :=
  match s with
  | [] => [cur]
  | c :: s' =>
      match skip with
      | O => if ch_eqb c "-" then cur :: split_chunks 2 [] s'
             else split_chunks 0 (cur ++ [c]) s'
      | S k => split_chunks k (cur ++ [c]) s'
      end
  end.

(** [if chunk: chunks.append(chunk) else: chunks[-1] += '-'] *)
Fixpoint close_chunks (cs : list (list ascii)) : list (list ascii) :=
  match cs with
  | [] => []
  | [c] => [c]
  | [c; []] => [c ++ ["-"%char]]
  | c :: cs' => c :: close_chunks cs'
  end.

(** The [for k in range(len(chunks)-1, 0, -1)] loop that removes empty
    ranges: from the right, a chunk whose last character is above the
    first character of the next one loses it, the next one loses its
    first, and the two are glued. *)
Fixpoint merge_empty_ranges (cs : list (list ascii)) : list (list ascii) :=
  match cs with
  | [] => []
  | c :: cs' =>
      match merge_empty_ranges cs' with
      | [] => [c]
      | d :: ds =>
          match last c, d with
          | Some a, b :: d' =>
              if negb (ch_leb a b) then (removelast c ++ d') :: ds
              else c :: d :: ds
          | _, _ => c :: d :: ds
          end
      end
  end.

Definition chunks_of (stuff : list ascii) : list (list ascii) :=
  if existsb (ch_eqb "-") stuff then
    let skip := match stuff with
                | c :: _ => if ch_eqb c "!" then 2 else 1
                | [] => 1
                end in
    merge_empty_ranges (close_chunks (split_chunks skip [] stuff))
  else [stuff].

(** The token of a bracket expression, from its chunks. *)
Definition set_tok (cs : list (list ascii)) : tok :=
  match cs with
  | [] | [[]] => Never
  | (c :: rest) :: cs' =>
      if ch_eqb c "!" then
        match rest, cs' with
        | [], [] => AnyChar
        | _, _ => CharSet true (rest :: cs')
        end
      else CharSet false cs
  | [] :: _ => CharSet false cs
  end.

(** [translate]: [fuel] bounds the number of tokens, one character at
    least is consumed for each. *)
Fixpoint translate_aux (fuel : nat) (pat : list ascii) : list tok :=
  match fuel with
  | O => []
  | S fuel' =>
      match pat with
      | [] => []
      | c :: rest =>
          if ch_eqb c "*" then Star :: translate_aux fuel' rest
          else if ch_eqb c "?" then AnyChar :: translate_aux fuel' rest
          else if ch_eqb c "[" then
            match find_close rest with
            | None => Lit c :: translate_aux fuel' rest
            | Some (stuff, rest') =>
                set_tok (chunks_of stuff) :: translate_aux fuel' rest'
            end
          else Lit c :: translate_aux fuel' rest
      end
  end.

Definition translate (pat : string) : list tok :=
  let p := list_ascii_of_string pat in
  translate_aux (length p) p.

(** Membership of [ch] in the set that the chunks [d :: ds], joined by
    hyphens, denote: the last character of a chunk and the first of the
    next are the ends of a range, every other character stands for
    itself. *)
Fixpoint in_chain (ch : ascii) (d : list ascii) (ds : list (list ascii)) : bool :=
  match ds with
  | [] => existsb (ch_eqb ch) d
  | e :: ds' =>
      match last d, e with
      | Some lo, hi :: e' =>
          existsb (ch_eqb ch) (removelast d)
          || (ch_leb lo ch && ch_leb ch hi)
          || in_chain ch e' ds'
      | _, _ => existsb (ch_eqb ch) d || in_chain ch e ds'
      end
  end.

Definition in_chunks (ch : ascii) (cs : list (list ascii)) : bool :=
  match cs with
  | [] => false
  | d :: ds => in_chain ch d ds
  end.

Definition tok_match (t : tok) (ch : ascii) : bool :=
  match t with
  | Star => true
  | AnyChar => true
  | Lit c => ch_eqb c ch
  | Never => false
  | CharSet neg cs => xorb neg (in_chunks ch cs)
  end.

(** A full match of the tokens against the name. *)
Fixpoint match_toks (ts : list tok) (s : list ascii) : bool :=
  match ts with
  | [] => match s with [] => true | _ => false end
  | Star :: ts' =>
      (fix star (s : list ascii) : bool :=
         match_toks ts' s
         || match s with
            | [] => false
            | _ :: s' => star s'
            end) s
  | t :: ts' =>
      match s with
      | [] => false
      | c :: s' => tok_match t c && match_toks ts' s'
      end
  end.

Definition fnmatchcase (name pat : string) : bool :=
  match_toks (translate pat) (list_ascii_of_string name).

(** [fnmatch.fnmatch(name, pat)]; [os.path.normcase] changes nothing. *)
Definition fnmatch (name pat : string) : bool := fnmatchcase name pat.

End Fnmatch.

(** ** The configuration record *)

(** [DEFAULT_MAX_FILE_SIZE] *)
Definition DEFAULT_MAX_FILE_SIZE : Z := 1 * 1024 * 1024.

(** The data class [ProjectConfig]; [new_config] gives the field defaults. *)
Record ProjectConfig := {
  name : string;
  project_type : string;
  code_extensions : gset string;
  config_files : gset string;
  ignore_dirs : gset string;
  ignore_files : gset string;
  ignore_extensions : gset string;
  ignore_patterns : list string;
  target_subdirs : gset string;
  max_file_size : Z;
  include_hidden : bool
}.

Definition new_config (project_name : string) : ProjectConfig :=
  {| name := project_name;
     project_type := "generic";
     code_extensions := ∅;
     config_files := ∅;
     ignore_dirs := ∅;
     ignore_files := ∅;
     ignore_extensions := ∅;
     ignore_patterns := [];
     target_subdirs := ∅;
     max_file_size := DEFAULT_MAX_FILE_SIZE;
     include_hidden := false |}.

Definition set_project_type (v : string) (c : ProjectConfig) : ProjectConfig :=
  {| name := name c; project_type := v;
     code_extensions := code_extensions c; config_files := config_files c;
     ignore_dirs := ignore_dirs c; ignore_files := ignore_files c;
     ignore_extensions := ignore_extensions c;
     ignore_patterns := ignore_patterns c; target_subdirs := target_subdirs c;
     max_file_size := max_file_size c; include_hidden := include_hidden c |}.

Definition set_code_extensions (v : gset string) (c : ProjectConfig) : ProjectConfig :=
  {| name := name c; project_type := project_type c;
     code_extensions := v; config_files := config_files c;
     ignore_dirs := ignore_dirs c; ignore_files := ignore_files c;
     ignore_extensions := ignore_extensions c;
     ignore_patterns := ignore_patterns c; target_subdirs := target_subdirs c;
     max_file_size := max_file_size c; include_hidden := include_hidden c |}.

Definition set_config_files (v : gset string) (c : ProjectConfig) : ProjectConfig :=
  {| name := name c; project_type := project_type c;
     code_extensions := code_extensions c; config_files := v;
     ignore_dirs := ignore_dirs c; ignore_files := ignore_files c;
     ignore_extensions := ignore_extensions c;
     ignore_patterns := ignore_patterns c; target_subdirs := target_subdirs c;
     max_file_size := max_file_size c; include_hidden := include_hidden c |}.

Definition set_ignore_dirs (v : gset string) (c : ProjectConfig) : ProjectConfig :=
  {| name := name c; project_type := project_type c;
     code_extensions := code_extensions c; config_files := config_files c;
     ignore_dirs := v; ignore_files := ignore_files c;
     ignore_extensions := ignore_extensions c;
     ignore_patterns := ignore_patterns c; target_subdirs := target_subdirs c;
     max_file_size := max_file_size c; include_hidden := include_hidden c |}.

Definition set_ignore_files (v : gset string) (c : ProjectConfig) : ProjectConfig :=
  {| name := name c; project_type := project_type c;
     code_extensions := code_extensions c; config_files := config_files c;
     ignore_dirs := ignore_dirs c; ignore_files := v;
     ignore_extensions := ignore_extensions c;
     ignore_patterns := ignore_patterns c; target_subdirs := target_subdirs c;
     max_file_size := max_file_size c; include_hidden := include_hidden c |}.

Definition set_ignore_extensions (v : gset string) (c : ProjectConfig) : ProjectConfig :=
  {| name := name c; project_type := project_type c;
     code_extensions := code_extensions c; config_files := config_files c;
     ignore_dirs := ignore_dirs c; ignore_files := ignore_files c;
     ignore_extensions := v;
     ignore_patterns := ignore_patterns c; target_subdirs := target_subdirs c;
     max_file_size := max_file_size c; include_hidden := include_hidden c |}.

Definition set_target_subdirs (v : gset string) (c : ProjectConfig) : ProjectConfig :=
  {| name := name c; project_type := project_type c;
     code_extensions := code_extensions c; config_files := config_files c;
     ignore_dirs := ignore_dirs c; ignore_files := ignore_files c;
     ignore_extensions := ignore_extensions c;
     ignore_patterns := ignore_patterns c; target_subdirs := v;
     max_file_size := max_file_size c; include_hidden := include_hidden c |}.

Definition set_max_file_size (v : Z) (c : ProjectConfig) : ProjectConfig :=
  {| name := name c; project_type := project_type c;
     code_extensions := code_extensions c; config_files := config_files c;
     ignore_dirs := ignore_dirs c; ignore_files := ignore_files c;
     ignore_extensions := ignore_extensions c;
     ignore_patterns := ignore_patterns c; target_subdirs := target_subdirs c;
     max_file_size := v; include_hidden := include_hidden c |}.

Definition set_include_hidden (v : bool) (c : ProjectConfig) : ProjectConfig :=
  {| name := name c; project_type := project_type c;
     code_extensions := code_extensions c; config_files := config_files c;
     ignore_dirs := ignore_dirs c; ignore_files := ignore_files c;
     ignore_extensions := ignore_extensions c;
     ignore_patterns := ignore_patterns c; target_subdirs := target_subdirs c;
     max_file_size := max_file_size c; include_hidden := v |}.

(** [x in l] for a list of strings *)
Definition in_list (x : string) (l : list string) : bool :=
  existsb (String.eqb x) l.

(** [x in s] for a set of strings *)
Definition in_set (x : string) (s : gset string) : bool :=
  bool_decide (x ∈ s).

(** ** The file system *)

(** What reading a file does: it works, [open] raises, or [open] and the
    first [read(1024)] work and reading the whole file raises. *)
Inductive io_status :=
| Readable
| Unopenable
| Faulty (msg : string).

Record file := {
  f_name : string;
  f_data : list byte;
  f_stat_fails : bool;      (* [stat] raises [OSError] *)
  f_io : io_status
}.

(** A directory holds its entries in the order the operating system lists
    them; [listable = false] is a directory whose listing raises
    [OSError]. *)
#[warnings="-register-all"]
Inductive node :=
| File (f : file)
| Dir (dirname : string) (listable : bool) (entries : list node).

Definition node_name (n : node) : string :=
  match n with
  | File f => f_name f
  | Dir d _ _ => d
  end.

(** [Path.is_dir()] *)
Definition is_dir (n : node) : bool :=
  match n with
  | File _ => false
  | Dir _ _ _ => true
  end.

(** What listing [n] yields: nothing when [n] is a file or cannot be
    listed. *)
Definition listing (n : node) : list node :=
  match n with
  | File _ => []
  | Dir _ true es => es
  | Dir _ false _ => []
  end.

(** The entry called [x] of a directory, listable or not. *)
Definition child (n : node) (x : string) : option node :=
  match n with
  | File _ => None
  | Dir _ _ es => find (fun e => String.eqb (node_name e) x) es
  end.

(** The node a relative path leads to. *)
Fixpoint resolve (parts : list string) (n : node) : option node :=
  match parts with
  | [] => Some n
  | p :: ps =>
      match child n p with
      | Some c => resolve ps c
      | None => None
      end
  end.

(** ** [ProjectDetector] *)

Module ProjectDetector.

(** The dict [DETECTION_PATTERNS], in its order of insertion. *)
Definition DETECTION_PATTERNS : list (string * list string) :=
  [ ("nodejs", ["package.json"; "node_modules"]);
    ("python", ["requirements.txt"; "setup.py"; "pyproject.toml"; "Pipfile"; "__pycache__"]);
    ("django", ["manage.py"; "settings.py"; "wsgi.py"]);
    ("react", ["package.json"; "src/App.jsx"; "src/App.tsx"; "public/index.html"]);
    ("nextjs", ["next.config.js"; "next.config.mjs"; "pages"; "app"]);
    ("vue", ["package.json"; "vue.config.js"; "src/App.vue"]);
    ("angular", ["package.json"; "angular.json"; "src/app"]);
    ("java", ["pom.xml"; "build.gradle"; "gradlew"; "src/main/java"]);
    ("maven", ["pom.xml"; "mvnw"]);
    ("gradle", ["build.gradle"; "settings.gradle"; "gradlew"]);
    ("spring", ["pom.xml"; "application.properties"; "application.yml"]);
    ("rust", ["Cargo.toml"; "Cargo.lock"; "src/main.rs"]);
    ("go", ["go.mod"; "go.sum"; "main.go"]);
    ("dotnet", [".csproj"; ".sln"; ".fsproj"; ".vbproj"]);
    ("php", ["composer.json"; "index.php"; "artisan"]);
    ("laravel", ["composer.json"; "artisan"; "app/Http"]);
    ("ruby", ["Gemfile"; "Rakefile"; ".rb"]);
    ("rails", ["Gemfile"; "Rakefile"; "config/application.rb"]);
    ("flutter", ["pubspec.yaml"; "lib/main.dart"; "android"; "ios"]);
    ("docker", ["Dockerfile"; "docker-compose.yml"]) ].

(** [(project_dir / pattern).exists()]; [project_dir] is [None] when
    nothing is at that path. *)
Definition exists_ (project_dir : option node) (pattern : string) : bool :=
  match project_dir with
  | None => false
  | Some d =>
      match resolve (Py.split_on "/" pattern) d with
      | Some _ => true
      | None => false
      end
  end.

(** The pattern, component by component, against the entries below [n]. *)
Fixpoint glob_from (parts : list string) (n : node) : bool :=
  match parts with
  | [] => true
  | p :: ps =>
      existsb (fun c => Fnmatch.fnmatch (node_name c) p && glob_from ps c)
              (listing n)
  end.

(** [list(project_dir.rglob(pattern))] is not empty: the pattern matches
    from the directory or from a directory below it. *)
Fixpoint rglob_any (parts : list string) (n : node) : bool :=
  glob_from parts n
  || match n with
     | File _ => false
     | Dir _ l es => l && existsb (fun c => is_dir c && rglob_any parts c) es
     end.

Definition rglob (project_dir : option node) (pattern : string) : bool :=
  match project_dir with
  | None => false
  | Some d => rglob_any (Py.split_on "/" pattern) d
  end.

(** The inner loop: [matches] after the patterns of one type. *)
Definition count_matches (project_dir : option node) (patterns : list string) : Z :=
  fold_left
    (fun matches pattern =>
       if exists_ project_dir pattern then (matches + 1)%Z
       else if Py.contains_char "*" pattern then
              if rglob project_dir pattern then (matches + 1)%Z else matches
            else matches)
    patterns 0%Z.

Definition detect_project_types (project_dir : option node) : list string :=
  let detected_types :=
    fold_left
      (fun detected_types '(project_type, patterns) =>
         if (count_matches project_dir patterns >? 0)%Z
         then detected_types ++ [project_type]
         else detected_types)
      DETECTION_PATTERNS [] in
  match detected_types with
  | [] => ["generic"]
  | _ => detected_types
  end.

End ProjectDetector.

(** ** Exceptions and the diagnostic stream *)

(** An exception: its class and [str(e)]. *)
Record exn := { exn_class : string; exn_text : string }.

Definition TypeError (msg : string) : exn :=
  {| exn_class := "TypeError"; exn_text := msg |}.

(** What is printed to [sys.stderr], line by line. *)
Definition diagnostics := list string.

(** ** [ConfigLoader] *)

(** What [json.load] returns.  An object is the [dict] built from it, one
    binding for each key. *)
#[warnings="-register-all"]
Inductive json :=
| JNull
| JBool (b : bool)
| JInt (z : Z)
| JFloat (literal : string)
| JStr (s : string)
| JArr (items : list json)
| JObj (members : list (string * json)).

(** What [open] and [json.load] do with the configuration file. *)
Inductive config_source :=
| OpenFails (e : exn)          (* I/O failure *)
| Malformed (e : exn)          (* [json.JSONDecodeError], [UnicodeDecodeError] *)
| Parsed (data : json).

Module ConfigLoader.

(** The configuration before the detected types are looked at. *)
Definition baseline (project_name : string) : ProjectConfig :=
  let config := new_config project_name in
  (* Base extensions common to many projects *)
  let config := set_code_extensions
    (list_to_set
       [ ".py"; ".js"; ".jsx"; ".ts"; ".tsx"; ".java"; ".kt"; ".kts";
         ".rs"; ".go"; ".c"; ".cpp"; ".h"; ".hpp"; ".cs"; ".rb";
         ".php"; ".swift"; ".dart"; ".html"; ".css"; ".scss"; ".sass";
         ".md"; ".json"; ".yaml"; ".yml"; ".xml"; ".toml"; ".sh"; ".bash" ])
    config in
  (* Base config files *)
  let config := set_config_files
    (list_to_set
       [ "package.json"; "tsconfig.json"; "webpack.config.js";
         "vite.config.js"; "next.config.js"; ".eslintrc.js";
         "requirements.txt"; "setup.py"; "pyproject.toml"; "Pipfile";
         "pom.xml"; "build.gradle"; "settings.gradle";
         "Cargo.toml"; "go.mod"; "composer.json"; "Gemfile";
         "pubspec.yaml"; "Dockerfile"; "docker-compose.yml";
         "README.md"; "LICENSE"; ".gitignore" ])
    config in
  (* Base ignore directories *)
  let config := set_ignore_dirs
    (list_to_set
       [ "node_modules"; "dist"; "build"; "target"; "__pycache__";
         ".git"; ".svn"; ".hg"; ".vscode"; ".idea"; ".DS_Store";
         "venv"; "env"; ".env"; "virtualenv"; ".tox";
         "coverage"; "htmlcov"; ".pytest_cache"; ".mypy_cache";
         ".gradle"; ".mvn"; "out"; "bin"; "obj";
         ".next"; ".nuxt"; ".cache"; ".parcel-cache";
         "Pods"; "DerivedData"; ".dart_tool"; ".pub-cache" ])
    config in
  (* Base ignore files *)
  let config := set_ignore_files
    (list_to_set
       [ ".DS_Store"; "Thumbs.db"; "desktop.ini";
         "*.log"; "*.pid"; "*.seed"; "*.lock";
         "package-lock.json"; "yarn.lock"; "pnpm-lock.yaml";
         "Pipfile.lock"; "Cargo.lock"; "go.sum";
         ".env"; ".env.local"; ".env.production" ])
    config in
  (* Base ignore extensions *)
  set_ignore_extensions
    (list_to_set
       [ ".pyc"; ".pyo"; ".pyd"; ".so"; ".dll"; ".dylib";
         ".class"; ".jar"; ".exe"; ".bin"; ".obj"; ".o";
         ".png"; ".jpg"; ".jpeg"; ".gif"; ".ico"; ".svg";
         ".woff"; ".woff2"; ".ttf"; ".otf"; ".eot";
         ".mp3"; ".mp4"; ".avi"; ".mov"; ".zip"; ".tar"; ".gz" ])
    config.

(** The type-specific adjustments, one for each [if]. *)
Definition adjust_python (project_types : list string) (config : ProjectConfig)
  : ProjectConfig :=
  if in_list "python" project_types || in_list "django" project_types then
    set_code_extensions (code_extensions config ∪ list_to_set [".pyx"; ".pyi"])
      (set_target_subdirs (list_to_set ["src"; "app"; "backend"; "back"]) config)
  else config.

Definition adjust_nodejs (project_types : list string) (config : ProjectConfig)
  : ProjectConfig :=
  if in_list "nodejs" project_types || in_list "react" project_types
     || in_list "vue" project_types then
    set_code_extensions (code_extensions config ∪ list_to_set [".mjs"; ".cjs"; ".vue"])
      (set_target_subdirs (list_to_set ["src"; "lib"; "components"; "pages"]) config)
  else config.

Definition adjust_java (project_types : list string) (config : ProjectConfig)
  : ProjectConfig :=
  if in_list "java" project_types || in_list "spring" project_types then
    set_ignore_dirs (ignore_dirs config ∪ list_to_set ["target"; ".gradle"; ".mvn"])
      (set_target_subdirs
         (list_to_set ["src/main/java"; "src/main/resources"; "src"]) config)
  else config.

Definition adjust_rust (project_types : list string) (config : ProjectConfig)
  : ProjectConfig :=
  if in_list "rust" project_types then
    set_ignore_dirs (ignore_dirs config ∪ {["target"]})
      (set_target_subdirs (list_to_set ["src"]) config)
  else config.

Definition adjust_go (project_types : list string) (config : ProjectConfig)
  : ProjectConfig :=
  if in_list "go" project_types then
    set_target_subdirs (list_to_set ["pkg"; "cmd"; "internal"]) config
  else config.

Definition adjust_flutter (project_types : list string) (config : ProjectConfig)
  : ProjectConfig :=
  if in_list "flutter" project_types then
    set_ignore_dirs
      (ignore_dirs config ∪ list_to_set [".dart_tool"; "build"; "android"; "ios"])
      (set_target_subdirs (list_to_set ["lib"]) config)
  else config.

Definition load_default_config (project_name : string) (project_types : list string)
  : ProjectConfig :=
  let config := baseline project_name in
  (* Adjust config based on detected types *)
  let primary_type := match project_types with
                      | t :: _ => t
                      | [] => "generic"
                      end in
  let config := set_project_type primary_type config in
  (* Type-specific adjustments *)
  let config := adjust_python project_types config in
  let config := adjust_nodejs project_types config in
  let config := adjust_java project_types config in
  let config := adjust_rust project_types config in
  let config := adjust_go project_types config in
  let config := adjust_flutter project_types config in
  config.

(** The body of the [try] block runs on the configuration object it
    changes in place: it ends normally, or raises with the object as it
    is by then, or reaches a value that the declared type of the field
    cannot hold (a member that is no string in a [Set[str]], an
    [int] or [bool] field given something else), where the embedding
    stops. *)
Inductive res (A : Type) :=
| Done (a : A) (config : ProjectConfig)
| Raised (e : exn) (config : ProjectConfig)
| Untyped.
Arguments Done {A} a config.
Arguments Raised {A} e config.
Arguments Untyped {A}.

Definition M (A : Type) := ProjectConfig -> res A.

Definition ret {A} (a : A) : M A := fun c => Done a c.
Definition raise {A} (e : exn) : M A := fun c => Raised e c.
Definition untyped {A} : M A := fun _ => Untyped.
Definition bind {A B} (m : M A) (k : A -> M B) : M B :=
  fun c => match m c with
           | Done a c' => k a c'
           | Raised e c' => Raised e c'
           | Untyped => Untyped
           end.
Definition modify (f : ProjectConfig -> ProjectConfig) : M unit :=
  fun c => Done tt (f c).

#[local] Instance M_ret : MRet M := @ret.
#[local] Instance M_bind : MBind M := fun A B k m => bind m k.

(** [sub in s] for strings *)
Fixpoint contains (sub s : string) : bool :=
  String.prefix sub s
  || match s with
     | EmptyString => false
     | String _ s' => contains sub s'
     end.

Definition type_name (v : json) : string :=
  match v with
  | JNull => "NoneType"
  | JBool _ => "bool"
  | JInt _ => "int"
  | JFloat _ => "float"
  | JStr _ => "str"
  | JArr _ => "list"
  | JObj _ => "dict"
  end.

Definition is_str (key : string) (v : json) : bool :=
  match v with
  | JStr s => String.eqb s key
  | _ => false
  end.

(** [key in data] *)
Definition has_key (key : string) (data : json) : M bool :=
  match data with
  | JObj members => ret (existsb (fun kv => String.eqb (fst kv) key) members)
  | JArr items => ret (existsb (is_str key) items)
  | JStr s => ret (contains key s)
  | _ => raise (TypeError ("argument of type '" +:+ type_name data
                           +:+ "' is not iterable"))
  end.

(** [data[key]], after [key in data] *)
Definition get_item (key : string) (data : json) : M json :=
  match data with
  | JObj members =>
      match find (fun kv => String.eqb (fst kv) key) members with
      | Some kv => ret (snd kv)
      | None => raise {| exn_class := "KeyError"; exn_text := "'" +:+ key +:+ "'" |}
      end
  | JArr _ => raise (TypeError "list indices must be integers or slices, not str")
  | JStr _ => raise (TypeError "string indices must be integers")
  | _ => raise (TypeError ("'" +:+ type_name data +:+ "' object is not subscriptable"))
  end.

Definition is_container (v : json) : bool :=
  match v with
  | JArr _ | JObj _ => true
  | _ => false
  end.

Definition str_of (v : json) : option string :=
  match v with
  | JStr s => Some s
  | _ => None
  end.

Fixpoint chars (s : string) : list string :=
  match s with
  | EmptyString => []
  | String a s' => String a "" :: chars s'
  end.

(** [set(v)]: the members of a list (which must be hashable), the keys
    of a dict, the characters of a string; anything else is not
    iterable. *)
Definition to_set (v : json) : M (gset string) :=
  match v with
  | JArr items =>
      match find is_container items with
      | Some u => raise (TypeError ("unhashable type: '" +:+ type_name u +:+ "'"))
      | None =>
          match mapM str_of items with
          | Some l => ret (list_to_set l)
          | None => untyped
          end
      end
  | JObj members => ret (list_to_set (map fst members))
  | JStr s => ret (list_to_set (chars s))
  | _ => raise (TypeError ("'" +:+ type_name v +:+ "' object is not iterable"))
  end.

(** [if key in data: base_config.<field>.update(set(data[key]))] *)
Definition merge_set (key : string) (data : json)
    (get : ProjectConfig -> gset string)
    (set : gset string -> ProjectConfig -> ProjectConfig) : M unit :=
  b ← has_key key data;
  if b : bool then
    v ← get_item key data;
    s ← to_set v;
    modify (fun c => set (get c ∪ s) c)
  else ret tt.

(** [if key in data: base_config.<field> = set(data[key])] *)
Definition replace_set (key : string) (data : json)
    (set : gset string -> ProjectConfig -> ProjectConfig) : M unit :=
  b ← has_key key data;
  if b : bool then
    v ← get_item key data;
    s ← to_set v;
    modify (set s)
  else ret tt.

(** [if key in data: base_config.<field> = data[key]], for a field
    declared [int] or [bool] *)
Definition replace_field {A} (key : string) (data : json)
    (typed : json -> option A)
    (set : A -> ProjectConfig -> ProjectConfig) : M unit :=
  b ← has_key key data;
  if b : bool then
    v ← get_item key data;
    match typed v with
    | Some a => modify (set a)
    | None => untyped
    end
  else ret tt.

Definition int_of (v : json) : option Z :=
  match v with
  | JInt z => Some z
  | _ => None
  end.

Definition bool_of (v : json) : option bool :=
  match v with
  | JBool b => Some b
  | _ => None
  end.

(** The statements between [json.load] and [return base_config]. *)
Definition merge (data : json) : M unit :=
  merge_set "code_extensions" data code_extensions set_code_extensions;;
  merge_set "ignore_dirs" data ignore_dirs set_ignore_dirs;;
  merge_set "ignore_files" data ignore_files set_ignore_files;;
  merge_set "ignore_extensions" data ignore_extensions set_ignore_extensions;;
  replace_set "target_subdirs" data set_target_subdirs;;
  replace_field "max_file_size" data int_of set_max_file_size;;
  replace_field "include_hidden" data bool_of set_include_hidden.

Definition warning (config_file : string) (e : exn) : string :=
  "Warning: Could not load config file " +:+ config_file +:+ ": " +:+ exn_text e.

(** [load_from_file]: the configuration returned and what was printed
    to [sys.stderr], or [None] where the document leaves the declared
    field types. *)
Definition load_from_file (config_file : string) (source : config_source)
    (base_config : ProjectConfig) : option (ProjectConfig * diagnostics) :=
  let body : M unit :=
    match source with
    | OpenFails e => raise e
    | Malformed e => raise e
    | Parsed data => merge data
    end in
  match body base_config with
  | Done _ config => Some (config, [])
  | Raised e config => Some (config, [warning config_file e])
  | Untyped => None
  end.

End ConfigLoader.

(** ** Orders: how Python compares strings, paths and sort keys *)

Section Lex.
Context {A : Type} (cmp : A -> A -> comparison).

(** The lexicographic order of sequences, as Python compares [str] and
    [list]: the first difference decides, a proper prefix comes first. *)
Fixpoint lex_compare (l1 l2 : list A) : comparison :=
  match l1, l2 with
  | [], [] => Eq
  | [], _ :: _ => Lt
  | _ :: _, [] => Gt
  | x :: l1', y :: l2' =>
      match cmp x y with
      | Eq => lex_compare l1' l2'
      | c => c
      end
  end.
End Lex.

Definition char_compare (a b : ascii) : comparison :=
  Nat.compare (nat_of_ascii a) (nat_of_ascii b).

(** [str] against [str]: by code point. *)
Definition str_compare (s1 s2 : string) : comparison :=
  lex_compare char_compare (list_ascii_of_string s1) (list_ascii_of_string s2).

(** [Path] against [Path]: by the sequence of path components. *)
Definition path_compare (p1 p2 : list string) : comparison :=
  lex_compare str_compare p1 p2.

Definition bool_compare (a b : bool) : comparison :=
  match a, b with
  | false, true => Lt
  | true, false => Gt
  | _, _ => Eq
  end.

(** [x <= y], that is [not (y < x)] *)
Definition leb_of {A} (cmp : A -> A -> comparison) (x y : A) : bool :=
  match cmp x y with
  | Gt => false
  | _ => true
  end.

(** [sorted] and [list.sort] are stable: an element is put before the
    elements it is not greater than. *)
Section Sort.
Context {A : Type} (le : A -> A -> bool).

Fixpoint insert_sorted (x : A) (l : list A) : list A :=
  match l with
  | [] => [x]
  | y :: l' => if le x y then x :: l else y :: insert_sorted x l'
  end.

Fixpoint py_sorted (l : list A) : list A :=
  match l with
  | [] => []
  | x :: l' => insert_sorted x (py_sorted l')
  end.
End Sort.

(** ** Reading a file as text *)

Module Codec.

Definition cont (b : nat) : bool := (128 <=? b)%nat && (b <=? 191)%nat.
Definition within (lo hi b : nat) : bool := (lo <=? b)%nat && (b <=? hi)%nat.

(** The range of the second byte after the lead byte [b0]. *)
Definition second_ok (b0 b1 : nat) : bool :=
  if (b0 =? 224)%nat then within 160 191 b1
  else if (b0 =? 237)%nat then within 128 159 b1
  else if (b0 =? 240)%nat then within 144 191 b1
  else if (b0 =? 244)%nat then within 128 143 b1
  else cont b1.

(** [bytes.decode('utf-8', errors='ignore')], the text kept in UTF-8:
    a byte sequence that is no UTF-8 is dropped, as far as it is the
    start of a well-formed sequence. *)
Fixpoint decode_ignore (bs : list nat) : list nat :=
  match bs with
  | [] => []
  | b0 :: r0 =>
      if (b0 <? 128)%nat then b0 :: decode_ignore r0
      else if within 194 223 b0 then
        match r0 with
        | b1 :: r1 =>
            if cont b1 then b0 :: b1 :: decode_ignore r1 else decode_ignore r0
        | [] => []
        end
      else if within 224 239 b0 then
        match r0 with
        | b1 :: r1 =>
            if second_ok b0 b1 then
              match r1 with
              | b2 :: r2 =>
                  if cont b2 then b0 :: b1 :: b2 :: decode_ignore r2
                  else decode_ignore r1
              | [] => []
              end
            else decode_ignore r0
        | [] => []
        end
      else if within 240 244 b0 then
        match r0 with
        | b1 :: r1 =>
            if second_ok b0 b1 then
              match r1 with
              | b2 :: r2 =>
                  if cont b2 then
                    match r2 with
                    | b3 :: r3 =>
                        if cont b3 then b0 :: b1 :: b2 :: b3 :: decode_ignore r3
                        else decode_ignore r2
                    | [] => []
                    end
                  else decode_ignore r1
              | [] => []
              end
            else decode_ignore r0
        | [] => []
        end
      else decode_ignore r0
  end.

(** Universal newlines: [\r\n] and [\r] are read as [\n]. *)
Fixpoint newlines (bs : list nat) : list nat :=
  match bs with
  | [] => []
  | b :: r =>
      if (b =? 13)%nat then
        match r with
        | b' :: r' => if (b' =? 10)%nat then 10 :: newlines r' else 10 :: newlines r
        | [] => [10]
        end
      else b :: newlines r
  end.

Definition to_string (bs : list nat) : string :=
  string_of_list_ascii (map ascii_of_nat bs).

(** [open(path, 'r', encoding='utf-8', errors='ignore').read()] *)
Definition read_text (data : list byte) : string :=
  to_string (newlines (decode_ignore (map Byte.to_nat data))).

(** [len(s)]: the code points of [s], the bytes that continue none. *)
Fixpoint len (s : string) : Z :=
  match s with
  | EmptyString => 0
  | String a s' => (if cont (nat_of_ascii a) then 0 else 1) + len s'
  end%Z.

End Codec.

(** ** [GitignoreParser] *)

(** The [.gitignore] of a project: absent, or the lines that iterating
    over the open file yields before it ends or raises ([open] raising is
    no line and a failure). *)
Inductive gitignore_file :=
| GiAbsent
| GiLines (lines : list string) (failure : option exn).

Module GitignoreParser.

(** [self.patterns]: [(pattern, is_negation)] *)
Definition patterns_t := list (string * bool).

(** The body of [for line in f] *)
Definition load_line (patterns : patterns_t) (line : string) : patterns_t :=
  let line := Py.strip line in
  (* Skip empty lines and comments *)
  if String.eqb line "" || Py.startswith line "#" then patterns
  else
    (* Check for negation pattern *)
    let is_negation := Py.startswith line "!" in
    let line := if is_negation then Py.drop_str 1 line else line in
    patterns ++ [(line, is_negation)].

Definition load (lines : list string) (failure : option exn)
    (patterns : patterns_t) : patterns_t * diagnostics :=
  (fold_left load_line lines patterns,
   match failure with
   | Some e => ["Warning: Could not load .gitignore: " +:+ exn_text e]
   | None => []
   end).

(** [__init__] *)
Definition init (gitignore : gitignore_file) : patterns_t * diagnostics :=
  match gitignore with
  | GiAbsent => ([], [])
  | GiLines lines failure => load lines failure []
  end.

Definition should_ignore (patterns : patterns_t) (path : string) : bool :=
  match patterns with
  | [] => false
  | _ =>
      fold_left
        (fun ignored '(pattern, is_negation) =>
           if Fnmatch.fnmatch path pattern
              || Fnmatch.fnmatch (Py.basename path) pattern
           then negb is_negation
           else ignored)
        patterns false
  end.

End GitignoreParser.

(** ** [UnifiedScanner] *)

(** The counters of [self.stats] *)
Record ScanStats := {
  files_processed : Z;
  files_skipped : Z;
  total_size : Z;
  errors : Z
}.

Definition no_stats : ScanStats :=
  {| files_processed := 0; files_skipped := 0; total_size := 0; errors := 0 |}.

(** A path below the project directory: its components. *)
Definition rel_path := list string.

Module UnifiedScanner.

Definition nl : string := Py.nl.

(** The object: [project_dir] is the text of the path, [root] what is
    there, [gitignore] the patterns of [self.gitignore]. *)
Record scanner := {
  config : ProjectConfig;
  project_dir : string;
  root : node;
  gitignore : GitignoreParser.patterns_t;
  stats : ScanStats
}.

(** [__init__] *)
Definition init (config : ProjectConfig) (project_dir : string) (root : node)
    (gitignore : gitignore_file) : scanner * diagnostics :=
  let '(patterns, warnings) := GitignoreParser.init gitignore in
  ({| config := config; project_dir := project_dir; root := root;
      gitignore := patterns; stats := no_stats |}, warnings).

(** [str(path.relative_to(self.project_dir))] *)
Definition rel_str (p : rel_path) : string := Py.join "/" p.

(** [st_size] *)
Definition size_of (f : file) : Z := Z.of_nat (length (f_data f)).

(** [should_ignore_file]: the file [f] of the directory [dir]. *)
Definition should_ignore_file (sc : scanner) (dir : rel_path) (f : file)
  : bool * string :=
  let rel := rel_str (dir ++ [f_name f]) in
  let filename := f_name f in
  let ext := Py.lower (Py.suffix filename) in
  (* Check if hidden file (and not including hidden) *)
  if negb (include_hidden (config sc)) && Py.startswith filename "." then
    (true, "hidden file")
  (* Check against gitignore *)
  else if GitignoreParser.should_ignore (gitignore sc) rel then
    (true, "in .gitignore")
  else
    (* Check ignore files patterns *)
    match find (fun pattern => Fnmatch.fnmatch filename pattern)
               (elements (ignore_files (config sc))) with
    | Some pattern => (true, "matches ignore pattern: " +:+ pattern)
    | None =>
        (* Check ignore extensions *)
        if in_set ext (ignore_extensions (config sc)) then
          (true, "ignored extension: " +:+ ext)
        (* Check file size *)
        else if f_stat_fails f then (true, "cannot stat file")
        else if (size_of f >? max_file_size (config sc))%Z then
          (true, "file too large (>" +:+ pretty (max_file_size (config sc))
                 +:+ " bytes)")
        else (false, "")
    end.

(** [should_ignore_dir]: the subdirectory [dirname] of the directory
    [dir]. *)
Definition should_ignore_dir (sc : scanner) (dir : rel_path) (dirname : string)
  : bool * string :=
  let rel := rel_str (dir ++ [dirname]) in
  (* Check if hidden directory *)
  if negb (include_hidden (config sc)) && Py.startswith dirname "." then
    (true, "hidden directory")
  (* Check against gitignore *)
  else if GitignoreParser.should_ignore (gitignore sc) rel then
    (true, "in .gitignore")
  (* Check ignore directories *)
  else if in_set dirname (ignore_dirs (config sc)) then
    (true, "in ignore list: " +:+ dirname)
  else (false, "").

Definition should_include_file (sc : scanner) (f : file) : bool :=
  let filename := f_name f in
  let ext := Py.lower (Py.suffix filename) in
  (* Check if it's a config file *)
  if in_set filename (config_files (config sc)) then true
  (* Check if extension matches *)
  else if in_set ext (code_extensions (config sc)) then true
  (* Check for files without extension (like Makefile, Dockerfile) *)
  else if String.eqb ext "" && negb (Py.startswith filename ".") then true
  else false.

(** *** The walk *)

(** [files_to_process] and the counter the walk changes. *)
Record walk_state := {
  files_to_process : list (rel_path * file);
  skipped : Z
}.

(** The body of [for filename in files] *)
Definition visit_file (sc : scanner) (dir : rel_path) (st : walk_state) (f : file)
  : walk_state :=
  if fst (should_ignore_file sc dir f) then
    {| files_to_process := files_to_process st; skipped := skipped st + 1 |}
  else if should_include_file sc f then
    {| files_to_process := files_to_process st ++ [(dir ++ [f_name f], f)];
       skipped := skipped st |}
  else st.

(** [os.walk], top down, with the body of the loop: at a directory that
    can be listed the files are visited, then the walk goes on in the
    subdirectories that were not removed from [dirs], in their order. *)
Fixpoint walk (sc : scanner) (dir : rel_path) (n : node) (st : walk_state)
  : walk_state :=
  match n with
  | File _ => st
  | Dir _ false _ => st
  | Dir _ true es =>
      let st :=
        fold_left (fun st e => match e with
                               | File f => visit_file sc dir st f
                               | Dir _ _ _ => st
                               end) es st in
      fold_left (fun st e => match e with
                             | File _ => st
                             | Dir d _ _ =>
                                 if fst (should_ignore_dir sc dir d) then st
                                 else walk sc (dir ++ [d]) e st
                             end) es st
  end.

(** *** The tree *)

(** The key of [sorted]: [(not x.is_dir(), x.name)] *)
Definition item_key (n : node) : bool * string := (negb (is_dir n), node_name n).

Definition key_compare (k1 k2 : bool * string) : comparison :=
  match bool_compare (fst k1) (fst k2) with
  | Eq => str_compare (snd k1) (snd k2)
  | c => c
  end.

Definition item_le {B} (x y : node * B) : bool :=
  leb_of key_compare (item_key (fst x)) (item_key (fst y)).

Definition concat_str (l : list string) : string := fold_right String.append "" l.

(** What the body of [for i, item in enumerate(items)] writes; [below]
    is what [_write_tree] writes for the item, given the prefix. *)
Definition write_item (sc : scanner) (dir : rel_path) (prefix : string)
    (count : nat) (i : nat) (item : node) (below : string -> bool -> string)
  : string :=
  let is_last_item := (i =? count - 1)%nat in
  let should_ignore :=
    match item with
    | Dir d _ _ => fst (should_ignore_dir sc dir d)
    | File f => fst (should_ignore_file sc dir f)
    end in
  if should_ignore then ""
  else
    let connector := if is_last_item then "└── " else "├── " in
    prefix +:+ connector +:+ node_name item
    +:+ (if is_dir item then "/" else "") +:+ nl
    +:+ (if is_dir item then
           let extension := if is_last_item then "    " else "│   " in
           below (prefix +:+ extension) is_last_item
         else "").

(** [_write_tree]: what is written for the directory [n] at [dir].  Each
    entry is paired with what the recursive call writes for it before
    the entries are sorted, so that the recursion is on the entries of
    [n]. *)
Fixpoint _write_tree (sc : scanner) (dir : rel_path) (n : node)
    (prefix : string) (is_last : bool) {struct n} : string :=
  match n with
  | File _ => ""
  | Dir _ false _ => ""
  | Dir _ true es =>
      let items :=
        py_sorted item_le
          (map (fun x => (x, _write_tree sc (dir ++ [node_name x]) x)) es) in
      concat_str
        (imap (fun i it => write_item sc dir prefix (length items) i (fst it) (snd it))
              items)
  end.

(** *** The contents *)

Definition is_nul (b : byte) : bool := Byte.eqb b x00.

(** [_is_binary] *)
Definition _is_binary (f : file) : bool :=
  match f_io f with
  | Unopenable => true
  | _ => existsb is_nul (take 1024 (f_data f))
  end.

(** [_format_size].  The numbers are exact: a size below [2^53] is a
    binary64 number, and so is each of its quotients by 1024; [:.2f]
    rounds the exact value to hundredths, a tie to the even one. *)
Definition round_half_even (q : Q) : Z :=
  let n := Qnum q in
  let d := Z.pos (Qden q) in
  let f := (n / d)%Z in
  let r := (n mod d)%Z in
  if (2 * r <? d)%Z then f
  else if (d <? 2 * r)%Z then (f + 1)%Z
  else if Z.even f then f else (f + 1)%Z.

Definition digit (z : Z) : ascii := ascii_of_nat (48 + Z.to_nat z).

(** [f"{x:.2f}"]: the hundredths nearest to [x], written with the two
    digits after the point. *)
Definition format_2f (x : Q) : string :=
  let h := round_half_even (Qabs x * 100)%Q in
  (if (Qnum x <? 0)%Z then "-" else "")
  +:+ pretty (h / 100)%Z +:+ "."
  +:+ String (digit (h mod 100 / 10)) (String (digit (h mod 10)) "").

Definition _format_size (size_bytes : Z) : string :=
  let fix ladder (units : list string) (size_bytes : Q) : string :=
    match units with
    | unit :: units' =>
        if negb (Qle_bool 1024%Q size_bytes)
        then format_2f size_bytes +:+ " " +:+ unit
        else ladder units' (size_bytes / 1024)%Q
    | [] => format_2f size_bytes +:+ " TB"
    end in
  ladder ["B"; "KB"; "MB"; "GB"] (inject_Z size_bytes).

(** The body of [for file_path in files_to_process]: what it writes and
    the counters after it. *)
Definition dump_file (acc : string * ScanStats) (item : rel_path * file)
  : string * ScanStats :=
  let '(out, st) := acc in
  let '(p, f) := item in
  let rel := rel_str p in
  (* Check if binary *)
  if _is_binary f then
    (out +:+ "--- " +:+ rel +:+ " (BINARY - SKIPPED) ---" +:+ nl +:+ nl,
     {| files_processed := files_processed st;
        files_skipped := files_skipped st + 1;
        total_size := total_size st;
        errors := errors st |})
  else
    match f_io f with
    | Faulty msg =>
        (out +:+ "--- " +:+ rel +:+ " (ERROR) ---" +:+ nl
             +:+ "Error reading file: " +:+ msg +:+ nl +:+ nl,
         {| files_processed := files_processed st;
            files_skipped := files_skipped st;
            total_size := total_size st;
            errors := errors st + 1 |})
    | _ =>
        (* Read and write content *)
        let content := Codec.read_text (f_data f) in
        (out +:+ "--- " +:+ rel +:+ " ---" +:+ nl +:+ nl
             +:+ content
             +:+ (if Py.endswith content nl then "" else nl)
             +:+ nl +:+ Py.repeat_str "=" 40 +:+ " End of " +:+ rel +:+ " "
             +:+ Py.repeat_str "=" 40 +:+ nl +:+ nl,
         {| files_processed := files_processed st + 1;
            files_skipped := files_skipped st;
            total_size := total_size st + Codec.len content;
            errors := errors st |})
    end.

Definition path_le (x y : rel_path * file) : bool :=
  leb_of path_compare (fst x) (fst y).

(** The state after [for root, dirs, files in os.walk(self.project_dir)] *)
Definition walked (sc : scanner) : walk_state :=
  walk sc [] (root sc)
       {| files_to_process := []; skipped := files_skipped (stats sc) |}.

(** [files_to_process] after [files_to_process.sort()] *)
Definition queue (sc : scanner) : list (rel_path * file) :=
  py_sorted path_le (files_to_process (walked sc)).

Definition rule : string := Py.repeat_str "=" 80 +:+ nl.

(** [scan_directory]: what is written to [output_file], and
    [self.stats] at the end. *)
Definition scan_directory (sc : scanner) : string * ScanStats :=
  (* Sort files for consistent output *)
  let files := queue sc in
  let st := {| files_processed := files_processed (stats sc);
               files_skipped := skipped (walked sc);
               total_size := total_size (stats sc);
               errors := errors (stats sc) |} in
  let out :=
    (* Write header *)
    rule
    +:+ " Project: " +:+ name (config sc) +:+ nl
    +:+ " Type: " +:+ project_type (config sc) +:+ nl
    +:+ " Path: " +:+ project_dir sc +:+ nl
    +:+ " Files to process: " +:+ pretty (length files) +:+ nl
    +:+ rule +:+ nl
    (* Write directory structure *)
    +:+ rule +:+ " Project Structure" +:+ nl +:+ rule +:+ nl
    +:+ _write_tree sc [] (root sc) "" true
    +:+ nl +:+ nl
    (* Write file contents *)
    +:+ rule +:+ " File Contents" +:+ nl +:+ rule +:+ nl in
  let '(out, st) := fold_left dump_file files (out, st) in
  (* Write summary *)
  (out +:+ nl +:+ rule +:+ " Summary" +:+ nl +:+ rule
       +:+ "Files processed: " +:+ pretty (files_processed st) +:+ nl
       +:+ "Files skipped: " +:+ pretty (files_skipped st) +:+ nl
       +:+ "Total size: " +:+ _format_size (total_size st) +:+ nl
       +:+ "Errors: " +:+ pretty (errors st) +:+ nl
       +:+ rule,
   st).

End UnifiedScanner.

(** ** The driver *)

(** A project directory as a run finds it: the tree, the [.gitignore],
    the [.scanner-config.json] when there is one, and whether the output
    file can be opened for writing. *)
Record project := {
  p_root : node;
  p_gitignore : gitignore_file;
  p_config_file : option config_source;
  p_output_fails : option exn
}.

Definition p_name (p : project) : string := node_name (p_root p).

(** An entry of the input directory. *)
Inductive entry :=
| Other (entry_name : string)         (* [is_dir()] is false *)
| Project (p : project).

Inductive input_state :=
| Missing
| NotADirectory
| Listing (entries : list entry).

(** The run: the two paths, what is at the input path, and whether the
    output directory can be created.  Creating a missing input directory
    is taken to work. *)
Record world := {
  input_dir : string;
  output_dir : string;
  input : input_state;
  output_mkdir_fails : option exn
}.


Module Driver.




(** The configuration of a project: the default one for the detected
    types, then the custom file when it exists. *)
Definition configure (w : world) (p : project) : option ProjectConfig :=
  let project_path := input_dir w +:+ "/" +:+ p_name p in
  let project_types := ProjectDetector.detect_project_types (Some (p_root p)) in
  let config := ConfigLoader.load_default_config (p_name p) project_types in
  match p_config_file p with
  | Some source =>
      match ConfigLoader.load_from_file
              (project_path +:+ "/.scanner-config.json") source config with
      | Some (config, _) => Some config
      | None => None
      end
  | None => Some config
  end.






End Driver.

(** ** Definitions that the statements use *)

(** A pattern of the ignore list matches the path or its base name. *)
Definition pattern_matches (path : string) (entry : string * bool) : bool :=
  Fnmatch.fnmatch path (fst entry) || Fnmatch.fnmatch (Py.basename path) (fst entry).

(** The last pattern of the list that matches. *)
Definition last_match (path : string) (patterns : GitignoreParser.patterns_t)
  : option (string * bool) :=
  last (List.filter (pattern_matches path) patterns).



(** The counters after a file was skipped as binary. *)
Definition skip_one (st : ScanStats) : ScanStats :=
  {| files_processed := files_processed st;
     files_skipped := files_skipped st + 1;
     total_size := total_size st;
     errors := errors st |}.


(** ** Inputs that the examples use *)

Definition plain_file (filename : string) (data : list byte) : file :=
  {| f_name := filename; f_data := data; f_stat_fails := false; f_io := Readable |}.

(** A custom configuration with a list of extensions and then a number
    where a list of directories belongs. *)
Definition half_good_json : json :=
  JObj [("code_extensions", JArr [JStr ".foo"]); ("ignore_dirs", JInt 5)].

Definition base_config : ProjectConfig :=
  ConfigLoader.load_default_config "demo" [].

(** The scan of a project ends: its output file can be opened. *)
Definition scan_ok (p : project) : bool :=
  match p_output_fails p with
  | None => true
  | Some _ => false
  end.





(** *** What the walk reaches *)

(** The file [f] of the directory [dir] is queued. *)
Definition queued (sc : UnifiedScanner.scanner) (dir : rel_path) (f : file) : bool :=
  negb (fst (UnifiedScanner.should_ignore_file sc dir f))
  && UnifiedScanner.should_include_file sc f.

(** The files that the walk of [n], found at [dir], adds to
    [files_to_process], in the order of the walk. *)
Fixpoint collected (sc : UnifiedScanner.scanner) (dir : rel_path) (n : node)
  : list (rel_path * file) :=
  match n with
  | File _ => []
  | Dir _ false _ => []
  | Dir _ true es =>
      flat_map (fun e => match e with
                         | File f => if queued sc dir f then [(dir ++ [f_name f], f)] else []
                         | Dir _ _ _ => []
                         end) es
      ++ flat_map (fun e => match e with
                            | File _ => []
                            | Dir d _ _ =>
                                if fst (UnifiedScanner.should_ignore_dir sc dir d) then []
                                else collected sc (dir ++ [d]) e
                            end) es
  end.

Definition sum_Z (l : list Z) : Z := fold_right Z.add 0%Z l.

(** The files that the walk of [n] counts as skipped. *)
Fixpoint skips (sc : UnifiedScanner.scanner) (dir : rel_path) (n : node) : Z :=
  match n with
  | File _ => 0
  | Dir _ false _ => 0
  | Dir _ true es =>
      (sum_Z (map (fun e => match e with
                            | File f =>
                                if fst (UnifiedScanner.should_ignore_file sc dir f)
                                then 1 else 0
                            | Dir _ _ _ => 0
                            end) es)
       + sum_Z (map (fun e => match e with
                              | File _ => 0
                              | Dir d _ _ =>
                                  if fst (UnifiedScanner.should_ignore_dir sc dir d) then 0
                                  else skips sc (dir ++ [d]) e
                              end) es))%Z
  end.

(** The walk goes from [dir] down through the directories [ds]: none of
    them is removed from [dirs]. *)
Fixpoint kept_below (sc : UnifiedScanner.scanner) (dir : rel_path) (ds : list string)
  : Prop :=
  match ds with
  | [] => True
  | d :: ds' =>
      fst (UnifiedScanner.should_ignore_dir sc dir d) = false
      /\ kept_below sc (dir ++ [d]) ds'
  end.

(** *** The lines of the tree *)

(** A line that [_write_tree] writes: the prefix, whether the entry is
    the last of its directory, its path and whether it is a directory. *)
Record tree_line := {
  tl_prefix : string;
  tl_last : bool;
  tl_path : rel_path;
  tl_is_dir : bool
}.

Definition render_line (l : tree_line) : string :=
  tl_prefix l +:+ (if tl_last l then "└── " else "├── ")
  +:+ default "" (last (tl_path l))
  +:+ (if tl_is_dir l then "/" else "") +:+ Py.nl.

(** The lines for one entry: its own, then those below it. *)
Definition item_lines (sc : UnifiedScanner.scanner) (dir : rel_path) (prefix : string)
    (count : nat) (i : nat) (item : node) (below : string -> list tree_line)
  : list tree_line :=
  let is_last_item := (i =? count - 1)%nat in
  let should_ignore :=
    match item with
    | Dir d _ _ => fst (UnifiedScanner.should_ignore_dir sc dir d)
    | File f => fst (UnifiedScanner.should_ignore_file sc dir f)
    end in
  if should_ignore then []
  else
    {| tl_prefix := prefix; tl_last := is_last_item;
       tl_path := dir ++ [node_name item]; tl_is_dir := is_dir item |}
    :: (if is_dir item
        then below (prefix +:+ (if is_last_item then "    " else "│   "))
        else []).

(** The lines of [_write_tree], in the order they are written. *)
Fixpoint tree_lines (sc : UnifiedScanner.scanner) (dir : rel_path) (n : node)
    (prefix : string) {struct n} : list tree_line :=
  match n with
  | File _ => []
  | Dir _ false _ => []
  | Dir _ true es =>
      let items :=
        py_sorted UnifiedScanner.item_le
          (map (fun x => (x, tree_lines sc (dir ++ [node_name x]) x)) es) in
      concat
        (imap (fun i it => item_lines sc dir prefix (length items) i (fst it) (snd it))
              items)
  end.

(** The directories of a line: those on its path. *)
Definition line_dirs (l : tree_line) : list string :=
  if tl_is_dir l then tl_path l else removelast (tl_path l).


(** Induction on a tree, with the hypothesis for every entry of a
    directory. *)
Fixpoint node_forall_ind (P : node -> Prop)
    (Hfile : forall f, P (File f))
    (Hdir : forall d l es, Forall P es -> P (Dir d l es))
    (n : node) : P n :=
  match n with
  | File f => Hfile f
  | Dir d l es =>
      Hdir d l es
        ((fix go (es : list node) : Forall P es :=
            match es with
            | [] => @List.Forall_nil node P
            | e :: es' => @List.Forall_cons node P e es' (node_forall_ind P Hfile Hdir e) (go es')
            end) es)
  end.


(** The scanner with other patterns in [self.gitignore]. *)
Definition with_gitignore (patterns : GitignoreParser.patterns_t)
    (sc : UnifiedScanner.scanner) : UnifiedScanner.scanner :=
  {| UnifiedScanner.config := UnifiedScanner.config sc;
     UnifiedScanner.project_dir := UnifiedScanner.project_dir sc;
     UnifiedScanner.root := UnifiedScanner.root sc;
     UnifiedScanner.gitignore := patterns;
     UnifiedScanner.stats := UnifiedScanner.stats sc |}.

(** The lower-cased extension of a file. *)
Definition ext_of (f : file) : string := Py.lower (Py.suffix (f_name f)).

(** A project with an image and a build directory, and the scanner for
    it with [.py] also among the ignored extensions. *)
Definition demo_tree : node :=
  Dir "demo" true
    [ File (plain_file "main.py" [x68; x69; x0a]);
      File (plain_file "logo.png" [x89; x50]);
      File (plain_file ".gitignore" [x2a; x0a]);
      Dir "build" true [File (plain_file "gen.py" [x78])];
      Dir "src" true [File (plain_file "util.py" [x79]);
                      Dir "build" true [File (plain_file "deep.py" [x7a])]] ].

Definition demo_scanner : UnifiedScanner.scanner :=
  fst (UnifiedScanner.init (ConfigLoader.load_default_config "demo" ["python"])
         "/repo/input/demo" demo_tree (GiLines ["!.gitignore"] None)).

Definition strict_scanner : UnifiedScanner.scanner :=
  fst (UnifiedScanner.init
         (set_ignore_extensions {[".py"]}
            (ConfigLoader.load_default_config "demo" ["python"]))
         "/repo/input/demo" demo_tree GiAbsent).

(** The order of the entries in the tree: by the key of [sorted]. *)
Definition node_le (x y : node) : bool :=
  leb_of UnifiedScanner.key_compare (UnifiedScanner.item_key x) (UnifiedScanner.item_key y).

(** *** Orders and listings *)

(** A comparison that is a total order. *)
Record total_cmp {A : Type} (cmp : A -> A -> comparison) : Prop := {
  cmp_eq : forall x y, cmp x y = Eq <-> x = y;
  cmp_opp : forall x y, cmp y x = CompOpp (cmp x y);
  cmp_trans : forall x y z, cmp x y = Lt -> cmp y z = Lt -> cmp x z = Lt
}.

(** The tree with every listing put in the order of the tree view: two
    trees with the same [canon] hold the same entries and differ only in
    the order in which the operating system lists them. *)
Fixpoint canon (n : node) : node :=
  match n with
  | File f => File f
  | Dir d l es => Dir d l (py_sorted node_le (map canon es))
  end.

(** No directory holds two entries of the same name. *)
Fixpoint unique_names (n : node) : bool :=
  match n with
  | File _ => true
  | Dir _ _ es => bool_decide (NoDup (map node_name es)) && forallb unique_names es
  end.

(** The scanner for another state of the project directory. *)
Definition with_root (t : node) (sc : UnifiedScanner.scanner) : UnifiedScanner.scanner :=
  {| UnifiedScanner.config := UnifiedScanner.config sc;
     UnifiedScanner.project_dir := UnifiedScanner.project_dir sc;
     UnifiedScanner.root := t;
     UnifiedScanner.gitignore := UnifiedScanner.gitignore sc;
     UnifiedScanner.stats := UnifiedScanner.stats sc |}.

(** [demo_tree] as another listing order gives it. *)
Definition demo_tree_reordered : node :=
  Dir "demo" true
    [ Dir "src" true [Dir "build" true [File (plain_file "deep.py" [x7a])];
                      File (plain_file "util.py" [x79])];
      File (plain_file ".gitignore" [x2a; x0a]);
      File (plain_file "logo.png" [x89; x50]);
      Dir "build" true [File (plain_file "gen.py" [x78])];
      File (plain_file "main.py" [x68; x69; x0a]) ].
(** ** Definitions that the further properties use *)

(** A name that [fnmatch] reads as itself: it has no [*], [?] or [[]. *)
Definition plain (s : string) : bool :=
  negb (Py.contains_char "*" s || Py.contains_char "?" s || Py.contains_char "[" s).

(** The last character of a string. *)
Definition last_char (s : string) : option ascii := last (list_ascii_of_string s).



(** [demo_scanner] with a [.gitignore] that names the directory [src]. *)
Definition src_ignoring_scanner : UnifiedScanner.scanner :=
  with_gitignore [("*.log", false); ("src", false)] demo_scanner.

(** [demo_scanner] with a [.gitignore] that names directories the way
    git does. *)
Definition slash_scanner : UnifiedScanner.scanner :=
  with_gitignore [("src/", false); ("build/", false)] demo_scanner.

(** The walk gets to the file [f] at the path [p] below the directory
    [n], itself found at [dir]: the file is an entry of a directory that
    can be listed, and so can every directory on the way, none of which
    is removed from [dirs]. *)
Inductive reached (sc : UnifiedScanner.scanner)
  : rel_path -> node -> rel_path -> file -> Prop :=
| reached_here dir d es f :
    File f ∈ es ->
    reached sc dir (Dir d true es) (dir ++ [f_name f]) f
| reached_below dir d es d' l' es' p f :
    Dir d' l' es' ∈ es ->
    fst (UnifiedScanner.should_ignore_dir sc dir d') = false ->
    reached sc (dir ++ [d']) (Dir d' l' es') p f ->
    reached sc dir (Dir d true es) p f.

(** The scanner with another configuration. *)
Definition with_config (c : ProjectConfig) (sc : UnifiedScanner.scanner)
  : UnifiedScanner.scanner :=
  {| UnifiedScanner.config := c;
     UnifiedScanner.project_dir := UnifiedScanner.project_dir sc;
     UnifiedScanner.root := UnifiedScanner.root sc;
     UnifiedScanner.gitignore := UnifiedScanner.gitignore sc;
     UnifiedScanner.stats := UnifiedScanner.stats sc |}.

(** What becomes of a queued file that is not skipped as binary: its
    text is dumped, or reading it fails. *)
Definition is_dumped (f : file) : bool :=
  negb (UnifiedScanner._is_binary f)
  && match f_io f with Faulty _ => false | _ => true end.

Definition is_error (f : file) : bool :=
  negb (UnifiedScanner._is_binary f)
  && match f_io f with Faulty _ => true | _ => false end.

(** The number of characters that the dump reads from a file. *)
Definition text_size (f : file) : Z := Codec.len (Codec.read_text (f_data f)).

(** Bytes of ASCII text that is read as it is: no zero byte, no
    carriage return, nothing above 127. *)
Definition ascii_text (data : list byte) : bool :=
  forallb (fun b => let n := Byte.to_nat b in
                    (0 <? n)%nat && (n <? 128)%nat && negb (n =? 13)%nat) data.

(** A small project, scanned with the field defaults of
    [ProjectConfig]. *)
Definition tiny_scanner : UnifiedScanner.scanner :=
  fst (UnifiedScanner.init (new_config "tiny") "/repo/input/tiny"
         (Dir "tiny" true [File (plain_file "Makefile" [x61; x0a])]) GiAbsent).

(** The number of queued files of a kind. *)
Definition count_where (P : file -> bool) (files : list (rel_path * file)) : Z :=
  Z.of_nat (length (List.filter (fun x => P (snd x)) files)).

(** The keys that [load_from_file] looks up in the document. *)
Definition CONFIG_KEYS : list string :=
  [ "code_extensions"; "ignore_dirs"; "ignore_files"; "ignore_extensions";
    "target_subdirs"; "max_file_size"; "include_hidden" ].

(** The document binds the key. *)
Definition has_member (members : list (string * json)) (key : string) : bool :=
  existsb (fun kv => String.eqb (fst kv) key) members.

Definition is_object (data : json) : bool :=
  match data with
  | JObj _ => true
  | _ => false
  end.



(** A computation that leaves the configuration as it is. *)
Definition keeping (m : ConfigLoader.M unit) : Prop :=
  forall c, m c = ConfigLoader.Done tt c \/ exists e, m c = ConfigLoader.Raised e c.

(** The type-specific adjustments of [load_default_config], one after
    the other. *)
Definition adjusted (project_types : list string) (config : ProjectConfig)
  : ProjectConfig :=
  ConfigLoader.adjust_flutter project_types
    (ConfigLoader.adjust_go project_types
       (ConfigLoader.adjust_rust project_types
          (ConfigLoader.adjust_java project_types
             (ConfigLoader.adjust_nodejs project_types
                (ConfigLoader.adjust_python project_types config))))).

(** What the scan of one project leaves when it ends: the output file,
    that is its path and its text, and the counters. *)
Definition report (w : world) (p : project)
  : option ((string * string) * ScanStats) :=
  match Driver.configure w p with
  | Some config =>
      match p_output_fails p with
      | Some _ => None
      | None =>
          let scanner :=
            fst (UnifiedScanner.init config (input_dir w +:+ "/" +:+ p_name p)
                   (p_root p) (p_gitignore p)) in
          let '(text, stats) := UnifiedScanner.scan_directory scanner in
          Some ((output_dir w +:+ "/" +:+ p_name p +:+ "_unified_scan.txt", text),
                stats)
      end
  | None => None
  end.




(** The value that an object binds to a key. *)
Definition bound (members : list (string * json)) (key : string) : option json :=
  option_map snd (find (fun kv => String.eqb (fst kv) key) members).

(** A list of strings. *)
Definition strings_of (v : json) : option (list string) :=
  match v with
  | JArr items => mapM ConfigLoader.str_of items
  | _ => None
  end.

(** What the object gives for a key, read at the type of the field. *)
Definition given {A} (typed : json -> option A) (members : list (string * json))
    (key : string) : option A :=
  match bound members key with
  | Some v => typed v
  | None => None
  end.

(** The key is absent or bound to a value of the type of the field. *)
Definition field_ok {A} (typed : json -> option A) (members : list (string * json))
    (key : string) : bool :=
  match bound members key with
  | Some v => match typed v with Some _ => true | None => false end
  | None => true
  end.

(** An object whose bindings have the declared types of the fields. *)
Definition typed_object (members : list (string * json)) : bool :=
  forallb (field_ok strings_of members)
    [ "code_extensions"; "ignore_dirs"; "ignore_files"; "ignore_extensions";
      "target_subdirs" ]
  && field_ok ConfigLoader.int_of members "max_file_size"
  && field_ok ConfigLoader.bool_of members "include_hidden".

(** The strings given for a key, as a set: empty when the key is
    absent. *)
Definition given_set (members : list (string * json)) (key : string) : gset string :=
  match given strings_of members key with
  | Some l => list_to_set l
  | None => ∅
  end.

(** * Properties *)

(** ** The ignore patterns *)

Section Gitignore.
Import GitignoreParser.

Lemma should_ignore_snoc patterns pattern is_negation path :
  should_ignore (patterns ++ [(pattern, is_negation)]) path =
  if pattern_matches path (pattern, is_negation) then negb is_negation
  else should_ignore patterns path.
Proof.
  unfold should_ignore, pattern_matches.
  destruct (patterns ++ [(pattern, is_negation)]) eqn:E.
  { by destruct patterns. }
  rewrite <- E, fold_left_app. simpl.
  by destruct patterns.
Qed.

Lemma should_ignore_last patterns path :
  should_ignore patterns path =
  match last_match path patterns with
  | Some (_, is_negation) => negb is_negation
  | None => false
  end.
Proof.
  induction patterns as [|[pattern is_negation] patterns IH] using rev_ind; [done|].
  rewrite should_ignore_snoc. unfold last_match in *.
  rewrite List.filter_app. simpl.
  destruct (pattern_matches path (pattern, is_negation)).
  - by rewrite last_snoc.
  - by rewrite app_nil_r.
Qed.

Lemma load_snoc lines line failure patterns :
  fst (load (lines ++ [line]) failure patterns) =
  load_line (fst (load lines failure patterns)) line.
Proof. unfold load. simpl. by rewrite fold_left_app. Qed.

End Gitignore.

(** C1.  [should_ignore] goes through the patterns in the order of the
    file: a pattern appended to the list sets the flag to
    [not is_negation] when it matches the path or its base name and
    leaves it as it was otherwise; so the answer is that of the last
    pattern that matches, and [False] when none does.  [load] keeps the
    order of the lines, and with the lines [foo.txt] and [!foo.txt] the
    path [foo.txt] is not ignored. *)
Theorem should_ignore_last_match_wins :
  (forall patterns pattern is_negation path,
      GitignoreParser.should_ignore (patterns ++ [(pattern, is_negation)]) path =
      if pattern_matches path (pattern, is_negation) then negb is_negation
      else GitignoreParser.should_ignore patterns path) /\
  (forall patterns path,
      GitignoreParser.should_ignore patterns path =
      match last_match path patterns with
      | Some (_, is_negation) => negb is_negation
      | None => false
      end) /\
  (forall lines line failure,
      fst (GitignoreParser.load (lines ++ [line]) failure []) =
      GitignoreParser.load_line (fst (GitignoreParser.load lines failure [])) line) /\
  (let gitignore := GiLines ["foo.txt" +:+ Py.nl; "!foo.txt" +:+ Py.nl] None in
   fst (GitignoreParser.init gitignore) = [("foo.txt", false); ("foo.txt", true)] /\
   GitignoreParser.should_ignore (fst (GitignoreParser.init gitignore)) "foo.txt" = false).
Proof.
  split; [|split; [|split]].
  - apply should_ignore_snoc.
  - apply should_ignore_last.
  - intros. apply load_snoc.
  - split; reflexivity.
Qed.

(** ** Binary files *)

Lemma is_binary_nul f :
  existsb UnifiedScanner.is_nul (take 1024 (f_data f)) = true ->
  UnifiedScanner._is_binary f = true.
Proof. unfold UnifiedScanner._is_binary. by destruct (f_io f). Qed.

Lemma is_binary_unopenable f :
  f_io f = Unopenable -> UnifiedScanner._is_binary f = true.
Proof. unfold UnifiedScanner._is_binary. by intros ->. Qed.

Lemma dump_file_binary out st p f :
  UnifiedScanner._is_binary f = true ->
  UnifiedScanner.dump_file (out, st) (p, f) =
  (out +:+ "--- " +:+ UnifiedScanner.rel_str p +:+ " (BINARY - SKIPPED) ---"
       +:+ Py.nl +:+ Py.nl,
   skip_one st).
Proof. unfold UnifiedScanner.dump_file. by intros ->. Qed.

(** C5.  A queued file with a zero byte among its first 1024 bytes, or
    one that cannot be opened for the probe, is binary for [_is_binary];
    the dump then writes the marker [BINARY - SKIPPED] for it and nothing
    else, adds one to [files_skipped] and leaves [files_processed],
    [total_size] and [errors] as they are. *)
Theorem binary_file_skipped (out : string) (st : ScanStats) (p : rel_path) (f : file) :
  existsb UnifiedScanner.is_nul (take 1024 (f_data f)) = true
  \/ f_io f = Unopenable ->
  UnifiedScanner._is_binary f = true /\
  UnifiedScanner.dump_file (out, st) (p, f) =
    (out +:+ "--- " +:+ UnifiedScanner.rel_str p +:+ " (BINARY - SKIPPED) ---"
         +:+ Py.nl +:+ Py.nl,
     skip_one st) /\
  files_skipped (snd (UnifiedScanner.dump_file (out, st) (p, f))) = (files_skipped st + 1)%Z /\
  files_processed (snd (UnifiedScanner.dump_file (out, st) (p, f))) = files_processed st /\
  total_size (snd (UnifiedScanner.dump_file (out, st) (p, f))) = total_size st.
Proof.
  intros H.
  assert (Hb : UnifiedScanner._is_binary f = true).
  { destruct H; [by apply is_binary_nul | by apply is_binary_unopenable]. }
  rewrite (dump_file_binary _ _ _ _ Hb). by repeat split.
Qed.

Lemma binary_file_skipped_witness :
  let f := {| f_name := "a.py"; f_data := [x61; x00; x62];
              f_stat_fails := false; f_io := Readable |} in
  let g := {| f_name := "b.py"; f_data := [x61];
              f_stat_fails := false; f_io := Unopenable |} in
  (UnifiedScanner._is_binary f = true /\
   total_size (snd (UnifiedScanner.dump_file ("", no_stats) (["src"; "a.py"], f))) = 0%Z) /\
  (UnifiedScanner._is_binary g = true /\
   files_skipped (snd (UnifiedScanner.dump_file ("", no_stats) (["b.py"], g))) = 1%Z).
Proof.
  intros f g. split.
  - destruct (binary_file_skipped "" no_stats ["src"; "a.py"] f) as (H1 & _ & _ & _ & H5).
    + left. reflexivity.
    + split; [exact H1 | exact H5].
  - destruct (binary_file_skipped "" no_stats ["b.py"] g) as (H1 & _ & H3 & _ & _).
    + right. reflexivity.
    + split; [exact H1 | exact H3].
Defined.

(** ** The size in the summary *)

Section FormatSize.
Import UnifiedScanner.




End FormatSize.


(** ** The detection of project types *)

Section Detector.
Import ProjectDetector.













End Detector.



(** ** Sorting *)

Section SortFacts.
Context {A : Type} (le : A -> A -> bool).

Lemma insert_sorted_perm x l : insert_sorted le x l ≡ₚ x :: l.
Proof.
  induction l as [|y l IH]; simpl; [done|].
  destruct (le x y); [done|]. rewrite IH. apply Permutation_swap.
Qed.

Lemma py_sorted_perm l : py_sorted le l ≡ₚ l.
Proof.
  induction l as [|x l IH]; simpl; [done|].
  by rewrite insert_sorted_perm, IH.
Qed.

Lemma py_sorted_elem_of x l : x ∈ py_sorted le l <-> x ∈ l.
Proof. by rewrite py_sorted_perm. Qed.

Lemma py_sorted_length l : length (py_sorted le l) = length l.
Proof. by rewrite py_sorted_perm. Qed.

Hypothesis le_total : forall x y, le x y = true \/ le y x = true.

Lemma insert_sorted_Sorted x l :
  Sorted (fun a b => le a b = true) l ->
  Sorted (fun a b => le a b = true) (insert_sorted le x l).
Proof.
  induction 1 as [|y l Hs IH Hhd]; simpl.
  - by repeat constructor.
  - destruct (le x y) eqn:E.
    + constructor; [by constructor|by constructor].
    + constructor; [done|].
      destruct l as [|z l]; simpl.
      * constructor. destruct (le_total x y); congruence.
      * inversion_clear Hhd. destruct (le x z).
        -- constructor. destruct (le_total x y); congruence.
        -- by constructor.
Qed.

Lemma py_sorted_Sorted l : Sorted (fun a b => le a b = true) (py_sorted le l).
Proof.
  induction l as [|x l IH]; simpl; [constructor|].
  by apply insert_sorted_Sorted.
Qed.

(** Sorting what is sorted changes nothing. *)
Lemma py_sorted_id l :
  Sorted (fun a b => le a b = true) l -> py_sorted le l = l.
Proof.
  induction 1 as [|x l Hs IH Hhd]; simpl; [done|].
  rewrite IH. destruct Hhd as [|y l Hxy]; simpl; [done|]. by rewrite Hxy.
Qed.

End SortFacts.

(** Sorting goes through a map that keeps the order. *)
Lemma py_sorted_map {A B} (leA : A -> A -> bool) (leB : B -> B -> bool)
    (g : A -> B) (l : list A) :
  (forall x y, leB (g x) (g y) = leA x y) ->
  py_sorted leB (map g l) = map g (py_sorted leA l).
Proof.
  intros Hg. induction l as [|x l IH]; simpl; [done|].
  rewrite IH. generalize (py_sorted leA l). intros s.
  induction s as [|y s IHs]; simpl; [done|].
  rewrite Hg. destruct (leA x y); simpl; [done|]. by rewrite IHs.
Qed.

(** ** The custom configuration file *)

Section Loader.
Import ConfigLoader.

Lemma load_from_file_open_fails config_file e base :
  load_from_file config_file (OpenFails e) base = Some (base, [warning config_file e]).
Proof. reflexivity. Qed.

Lemma load_from_file_malformed config_file e base :
  load_from_file config_file (Malformed e) base = Some (base, [warning config_file e]).
Proof. reflexivity. Qed.

Lemma load_from_file_raised config_file data base e config :
  merge data base = Raised e config ->
  load_from_file config_file (Parsed data) base = Some (config, [warning config_file e]).
Proof. unfold load_from_file. by intros ->. Qed.

End Loader.

(** C4, as the claim states it, fails.  The document
    [{"code_extensions": [".foo"], "ignore_dirs": 5}] is well-formed JSON;
    the first key is merged, [set(5)] then raises [TypeError], the warning
    is printed and the configuration comes back with [.foo] among its
    extensions: a field was changed on a path that ends in the handler. *)
Lemma load_from_file_not_atomic :
  ConfigLoader.load_from_file "demo/.scanner-config.json" (Parsed half_good_json)
      base_config
    = Some (set_code_extensions (code_extensions base_config ∪ {[".foo"]}) base_config,
            ["Warning: Could not load config file demo/.scanner-config.json: 'int' object is not iterable"])
  /\ (".foo" ∉ code_extensions base_config)
  /\ (set_code_extensions (code_extensions base_config ∪ {[".foo"]}) base_config
      <> base_config)
  /\ ~ (forall config_file source base config warnings,
           ConfigLoader.load_from_file config_file source base = Some (config, warnings) ->
           warnings <> [] -> config = base).
Proof.
  assert (H1 : ConfigLoader.load_from_file "demo/.scanner-config.json"
                 (Parsed half_good_json) base_config
               = Some (set_code_extensions (code_extensions base_config ∪ {[".foo"]})
                         base_config,
                       ["Warning: Could not load config file demo/.scanner-config.json: 'int' object is not iterable"])).
  { unfold ConfigLoader.load_from_file. simpl. reflexivity. }
  assert (H2 : ".foo" ∉ code_extensions base_config).
  { apply (bool_decide_unpack _). by vm_compute. }
  assert (H3 : set_code_extensions (code_extensions base_config ∪ {[".foo"]}) base_config
               <> base_config).
  { intros E. apply H2. pose proof (f_equal code_extensions E) as E'.
    change (code_extensions base_config ∪ {[".foo"]} = code_extensions base_config) in E'.
    rewrite <- E'. apply elem_of_union_r. by apply elem_of_singleton. }
  split; [exact H1|]. split; [exact H2|]. split; [exact H3|].
  intros H. apply H3. eapply H; [exact H1 | discriminate].
Qed.

(** C4, amended.  When [open] or [json.load] raises (I/O failure,
    malformed JSON), [load_from_file] prints one warning and returns the
    configuration as it was given.  Whatever is raised while the document
    is merged is caught too: one warning is printed and the configuration
    object is returned, so no exception leaves [load_from_file]. *)
Theorem load_from_file_failure_keeps_config :
  (forall config_file e base,
      ConfigLoader.load_from_file config_file (OpenFails e) base
      = Some (base, [ConfigLoader.warning config_file e])) /\
  (forall config_file e base,
      ConfigLoader.load_from_file config_file (Malformed e) base
      = Some (base, [ConfigLoader.warning config_file e])) /\
  (forall config_file data base e config,
      ConfigLoader.merge data base = ConfigLoader.Raised e config ->
      ConfigLoader.load_from_file config_file (Parsed data) base
      = Some (config, [ConfigLoader.warning config_file e])).
Proof.
  split; [|split].
  - apply load_from_file_open_fails.
  - apply load_from_file_malformed.
  - apply load_from_file_raised.
Qed.

Lemma load_from_file_failure_keeps_config_witness :
  ConfigLoader.merge (JInt 5) base_config
    = ConfigLoader.Raised (TypeError "argument of type 'int' is not iterable") base_config /\
  ConfigLoader.load_from_file "demo/.scanner-config.json" (Parsed (JInt 5)) base_config
    = Some (base_config,
            [ConfigLoader.warning "demo/.scanner-config.json"
               (TypeError "argument of type 'int' is not iterable")]).
Proof.
  assert (H : ConfigLoader.merge (JInt 5) base_config
              = ConfigLoader.Raised (TypeError "argument of type 'int' is not iterable")
                  base_config) by reflexivity.
  split; [exact H|].
  exact (proj2 (proj2 load_from_file_failure_keeps_config) _ _ _ _ _ H).
Defined.

(** ** The driver *)

Section DriverFacts.
Import Driver.




Lemma filter_nil_iff {A} (f : A -> bool) l :
  List.filter f l = [] <-> forall x, x ∈ l -> f x = false.
Proof.
  induction l as [|a l IH]; simpl.
  - split; [|done]. intros _ x Hx. by apply elem_of_nil in Hx.
  - destruct (f a) eqn:E.
    + split; [done|]. intros H. specialize (H a). rewrite E in H.
      discriminate H. by left.
    + rewrite IH. split.
      * intros H x Hx. apply elem_of_cons in Hx as [->|Hx]; auto.
      * intros H x Hx. apply H. by right.
Qed.



End DriverFacts.



(** ** The walk *)

Section Walk.
Import UnifiedScanner.
Context (sc : scanner).

Lemma visit_files_spec dir es : forall st,
  fold_left (fun st e => match e with
                         | File f => visit_file sc dir st f
                         | Dir _ _ _ => st
                         end) es st
  = {| files_to_process :=
         files_to_process st
         ++ flat_map (fun e => match e with
                               | File f =>
                                   if queued sc dir f then [(dir ++ [f_name f], f)] else []
                               | Dir _ _ _ => []
                               end) es;
       skipped :=
         (skipped st
          + sum_Z (map (fun e => match e with
                                 | File f =>
                                     if fst (should_ignore_file sc dir f) then 1 else 0
                                 | Dir _ _ _ => 0
                                 end) es))%Z |}.
Proof.
  induction es as [|e es IH]; intros st; simpl.
  - destruct st. simpl. by rewrite app_nil_r, Z.add_0_r.
  - rewrite IH. destruct e as [f|d l sub]; [|done].
    unfold visit_file, queued.
    destruct (fst (should_ignore_file sc dir f)); simpl.
    + f_equal. lia.
    + destruct (should_include_file sc f); simpl; [|done].
      by rewrite <- app_assoc.
Qed.

Lemma walk_dirs_spec dir es :
  Forall (fun n => forall dir st,
            walk sc dir n st
            = {| files_to_process := files_to_process st ++ collected sc dir n;
                 skipped := (skipped st + skips sc dir n)%Z |}) es ->
  forall st,
  fold_left (fun st e => match e with
                         | File _ => st
                         | Dir d _ _ =>
                             if fst (should_ignore_dir sc dir d) then st
                             else walk sc (dir ++ [d]) e st
                         end) es st
  = {| files_to_process :=
         files_to_process st
         ++ flat_map (fun e => match e with
                               | File _ => []
                               | Dir d _ _ =>
                                   if fst (should_ignore_dir sc dir d) then []
                                   else collected sc (dir ++ [d]) e
                               end) es;
       skipped :=
         (skipped st
          + sum_Z (map (fun e => match e with
                                 | File _ => 0
                                 | Dir d _ _ =>
                                     if fst (should_ignore_dir sc dir d) then 0
                                     else skips sc (dir ++ [d]) e
                                 end) es))%Z |}.
Proof.
  induction 1 as [|e es He Hes IH]; intros st; simpl.
  - destruct st. simpl. by rewrite app_nil_r, Z.add_0_r.
  - rewrite IH. destruct e as [f|d l sub]; [done|].
    destruct (fst (should_ignore_dir sc dir d)); [done|].
    rewrite He. simpl. rewrite <- app_assoc. f_equal. lia.
Qed.

(** The walk adds [collected] to the queue and [skips] to the counter. *)
Lemma walk_spec n : forall dir st,
  walk sc dir n st
  = {| files_to_process := files_to_process st ++ collected sc dir n;
       skipped := (skipped st + skips sc dir n)%Z |}.
Proof.
  induction n as [f|d l es IH] using node_forall_ind; intros dir st.
  - simpl. destruct st; simpl. by rewrite app_nil_r, Z.add_0_r.
  - destruct l; [|simpl; destruct st; simpl; by rewrite app_nil_r, Z.add_0_r].
    cbn [walk collected skips].
    rewrite visit_files_spec, (walk_dirs_spec dir es IH). simpl.
    rewrite <- app_assoc. f_equal. lia.
Qed.

(** A file of the queue was found in a directory that the walk reached,
    was not ignored and is one whose content is included. *)
Lemma collected_elem n : forall dir p f,
  (p, f) ∈ collected sc dir n ->
  exists ds, p = dir ++ ds ++ [f_name f] /\ kept_below sc dir ds /\
             fst (should_ignore_file sc (dir ++ ds) f) = false /\
             should_include_file sc f = true.
Proof.
  induction n as [f0|d l es IH] using node_forall_ind; intros dir p f.
  - simpl. intros H. by apply elem_of_nil in H.
  - destruct l; [|simpl; intros H; by apply elem_of_nil in H].
    cbn [collected]. rewrite elem_of_app, !list_elem_of_In, !in_flat_map.
    intros [(e & He & Hin)|(e & He & Hin)].
    + destruct e as [g|]; [|done].
      unfold queued in Hin.
      destruct (fst (should_ignore_file sc dir g)) eqn:E1; [done|].
      destruct (should_include_file sc g) eqn:E2; [|done].
      destruct Hin as [[= <- <-]|[]].
      exists []. rewrite app_nil_r. by repeat split.
    + destruct e as [|d' l' sub]; [done|].
      destruct (fst (should_ignore_dir sc dir d')) eqn:E; [done|].
      rewrite Forall_forall in IH.
      apply list_elem_of_In in He, Hin.
      destruct (IH _ He _ _ _ Hin) as (ds & -> & Hk & Hi & Hs).
      exists (d' :: ds). rewrite <- !app_assoc in *. simpl. by repeat split.
Qed.

End Walk.

(** ** What is queued *)

Section Queue.
Import UnifiedScanner.

Lemma queue_collected_eq sc :
  queue sc = py_sorted path_le (collected sc [] (root sc)).
Proof. unfold queue, walked. by rewrite walk_spec. Qed.

Lemma queue_collected sc p f :
  (p, f) ∈ queue sc <-> (p, f) ∈ collected sc [] (root sc).
Proof. by rewrite queue_collected_eq, py_sorted_elem_of. Qed.

Lemma queue_elem sc p f :
  (p, f) ∈ queue sc ->
  exists ds, p = ds ++ [f_name f] /\ kept_below sc [] ds /\
             fst (should_ignore_file sc ds f) = false /\
             should_include_file sc f = true.
Proof. rewrite queue_collected. apply collected_elem. Qed.

Lemma ignored_extension sc dir f :
  ext_of f ∈ ignore_extensions (config sc) ->
  fst (should_ignore_file sc dir f) = true.
Proof.
  intros H. unfold should_ignore_file.
  destruct (negb _ && _); [done|].
  destruct (GitignoreParser.should_ignore _ _); [done|].
  destruct (find _ _); [done|].
  fold (ext_of f). unfold in_set. by rewrite bool_decide_eq_true_2.
Qed.

Lemma hidden_file sc dir f :
  include_hidden (config sc) = false ->
  Py.startswith (f_name f) "." = true ->
  should_ignore_file sc dir f = (true, "hidden file").
Proof. intros H1 H2. unfold should_ignore_file. by rewrite H1, H2. Qed.

End Queue.

(** C3.  A file whose lower-cased extension is in [ignore_extensions] is
    ignored by [should_ignore_file], whatever [code_extensions] and
    [config_files] hold; the walk asks [should_ignore_file] before
    [should_include_file], so such a file is never queued: no file of the
    queue, which is what the dump goes through, has an ignored
    extension. *)
Theorem ignored_extension_never_dumped (sc : UnifiedScanner.scanner) :
  (forall dir f,
      ext_of f ∈ ignore_extensions (UnifiedScanner.config sc) ->
      fst (UnifiedScanner.should_ignore_file sc dir f) = true /\
      queued sc dir f = false /\
      (forall st,
          UnifiedScanner.files_to_process (UnifiedScanner.visit_file sc dir st f)
          = UnifiedScanner.files_to_process st)) /\
  (forall p f,
      (p, f) ∈ UnifiedScanner.queue sc ->
      ext_of f ∉ ignore_extensions (UnifiedScanner.config sc)).
Proof.
  split.
  - intros dir f H. pose proof (ignored_extension sc dir f H) as Hi.
    split; [done|]. split.
    + unfold queued. by rewrite Hi.
    + intros st. unfold UnifiedScanner.visit_file. by rewrite Hi.
  - intros p f Hq Hext.
    apply queue_elem in Hq as (ds & _ & _ & Hi & _).
    by rewrite (ignored_extension sc ds f Hext) in Hi.
Qed.

Lemma ignored_extension_never_dumped_witness :
  ext_of (plain_file "main.py" [x68; x69; x0a])
    ∈ ignore_extensions (UnifiedScanner.config strict_scanner) /\
  ext_of (plain_file "main.py" [x68; x69; x0a])
    ∈ code_extensions (UnifiedScanner.config strict_scanner) /\
  fst (UnifiedScanner.should_ignore_file strict_scanner []
         (plain_file "main.py" [x68; x69; x0a])) = true /\
  UnifiedScanner.queue strict_scanner = [].
Proof.
  assert (H : ext_of (plain_file "main.py" [x68; x69; x0a])
                ∈ ignore_extensions (UnifiedScanner.config strict_scanner)).
  { apply (bool_decide_unpack _). by vm_compute. }
  split; [exact H|]. split.
  { apply (bool_decide_unpack _). by vm_compute. }
  split.
  - exact (proj1 (proj1 (ignored_extension_never_dumped strict_scanner) _ _ H)).
  - by vm_compute.
Defined.

(** ** Hidden files *)

Section Defaults.
Import ConfigLoader.

Ltac adjustments :=
  unfold load_default_config, adjust_python, adjust_nodejs, adjust_java,
    adjust_rust, adjust_go, adjust_flutter;
  cbv zeta;
  repeat match goal with
         | |- context [if ?b then _ else _] =>
             destruct b;
             cbn [include_hidden config_files set_code_extensions
                  set_target_subdirs set_ignore_dirs set_project_type]
         end;
  reflexivity.

Lemma default_include_hidden project_name project_types :
  include_hidden (load_default_config project_name project_types) = false.
Proof. adjustments. Qed.

Lemma default_config_files project_name project_types :
  config_files (load_default_config project_name project_types)
  = config_files (baseline project_name).
Proof. adjustments. Qed.

Lemma base_config_files_dotted project_name :
  ".gitignore" ∈ config_files (baseline project_name)
  /\ ".eslintrc.js" ∈ config_files (baseline project_name).
Proof. split; apply (bool_decide_unpack _); by vm_compute. Qed.

End Defaults.

(** C10.  The default configuration has [include_hidden = False] and
    holds [.gitignore] and [.eslintrc.js] among its [config_files].  With
    [include_hidden = False] a file whose name starts with a dot is
    ignored by [should_ignore_file] for the reason [hidden file],
    whatever the patterns of the [.gitignore] are (a negation pattern for
    the file included) and whatever the other rules would say; so no file
    of the queue has such a name, and its content is not dumped. *)
Theorem hidden_files_never_dumped :
  (forall project_name project_types,
      include_hidden (ConfigLoader.load_default_config project_name project_types) = false /\
      ".gitignore" ∈ config_files (ConfigLoader.load_default_config project_name project_types) /\
      ".eslintrc.js" ∈ config_files (ConfigLoader.load_default_config project_name project_types)) /\
  (forall sc dir f,
      include_hidden (UnifiedScanner.config sc) = false ->
      Py.startswith (f_name f) "." = true ->
      UnifiedScanner.should_ignore_file sc dir f = (true, "hidden file") /\
      (forall patterns,
          UnifiedScanner.should_ignore_file
            (with_gitignore (patterns ++ [(f_name f, true)]) sc) dir f
          = (true, "hidden file"))) /\
  (forall sc p f,
      include_hidden (UnifiedScanner.config sc) = false ->
      (p, f) ∈ UnifiedScanner.queue sc ->
      Py.startswith (f_name f) "." = false).
Proof.
  split; [|split].
  - intros n ts. rewrite default_include_hidden, default_config_files.
    split; [done|]. apply base_config_files_dotted.
  - intros sc dir f H1 H2. split.
    + by apply hidden_file.
    + intros patterns. by apply hidden_file.
  - intros sc p f H1 Hq.
    apply queue_elem in Hq as (ds & _ & _ & Hi & _).
    destruct (Py.startswith (f_name f) ".") eqn:E; [|done].
    by rewrite (hidden_file sc ds f H1 E) in Hi.
Qed.

Lemma hidden_files_never_dumped_witness :
  include_hidden (UnifiedScanner.config demo_scanner) = false /\
  UnifiedScanner.gitignore demo_scanner = [(".gitignore", true)] /\
  UnifiedScanner.should_include_file demo_scanner (plain_file ".gitignore" [x2a; x0a]) = true /\
  UnifiedScanner.should_ignore_file demo_scanner [] (plain_file ".gitignore" [x2a; x0a])
    = (true, "hidden file") /\
  (["main.py"], plain_file "main.py" [x68; x69; x0a]) ∈ UnifiedScanner.queue demo_scanner /\
  Py.startswith (f_name (plain_file "main.py" [x68; x69; x0a])) "." = false.
Proof.
  assert (H1 : include_hidden (UnifiedScanner.config demo_scanner) = false) by reflexivity.
  assert (H2 : Py.startswith (f_name (plain_file ".gitignore" [x2a; x0a])) "." = true)
    by reflexivity.
  assert (H3 : (["main.py"], plain_file "main.py" [x68; x69; x0a])
                 ∈ UnifiedScanner.queue demo_scanner).
  { assert (E : UnifiedScanner.queue demo_scanner
                 = [(["main.py"], plain_file "main.py" [x68; x69; x0a]);
                    (["src"; "util.py"], plain_file "util.py" [x79])])
      by (by vm_compute).
    rewrite E. left. }
  destruct hidden_files_never_dumped as (_ & Hfile & Hqueue).
  split; [exact H1|]. split; [reflexivity|]. split; [by vm_compute|].
  split; [exact (proj1 (Hfile demo_scanner [] _ H1 H2))|].
  split; [exact H3|].
  exact (Hqueue demo_scanner _ _ H1 H3).
Defined.

(** ** The tree *)

Section Tree.
Import UnifiedScanner.
Context (sc : scanner).

Lemma str_app_assoc (a b c : string) : (a +:+ b) +:+ c = a +:+ (b +:+ c).
Proof.
  induction a as [|x a IH]; [done|].
  change (String x ((a +:+ b) +:+ c) = String x (a +:+ (b +:+ c))). by rewrite IH.
Qed.

Lemma concat_str_app l1 l2 :
  concat_str (l1 ++ l2) = concat_str l1 +:+ concat_str l2.
Proof.
  induction l1 as [|x l1 IH]; simpl; [done|].
  by rewrite IH, str_app_assoc.
Qed.

Lemma concat_str_concat {A} (h : A -> string) (ll : list (list A)) :
  concat_str (map h (concat ll)) = concat_str (map (fun l => concat_str (map h l)) ll).
Proof.
  induction ll as [|l ll IH]; simpl; [done|].
  by rewrite map_app, concat_str_app, IH.
Qed.

(** The entries, sorted, with what is written below each. *)
Lemma sorted_items {B} (g : node -> B) (es : list node) :
  py_sorted item_le (map (fun x => (x, g x)) es)
  = map (fun x => (x, g x)) (py_sorted node_le es).
Proof. by apply py_sorted_map. Qed.

Lemma write_item_lines dir prefix count i item
  (below : string -> bool -> string) (lines : string -> list tree_line) :
  (forall p b, below p b = concat_str (map render_line (lines p))) ->
  write_item sc dir prefix count i item below
  = concat_str (map render_line (item_lines sc dir prefix count i item lines)).
Proof.
  intros Hbelow. unfold write_item, item_lines.
  match goal with |- context [if ?b then "" else _] => destruct b end; [done|].
  cbn [map concat_str fold_right]. unfold render_line at 1.
  cbn [tl_prefix tl_last tl_path tl_is_dir].
  rewrite last_snoc. cbn [default].
  fold (concat_str
          (map render_line
             (if is_dir item
              then lines (prefix +:+ (if (i =? count - 1)%nat then "    " else "│   "))
              else []))).
  rewrite !str_app_assoc. do 5 f_equal.
  destruct (is_dir item); [apply Hbelow|done].
Qed.

(** What [_write_tree] writes is the lines of [tree_lines], one after the
    other. *)
Lemma write_tree_lines n : forall dir prefix is_last,
  _write_tree sc dir n prefix is_last
  = concat_str (map render_line (tree_lines sc dir n prefix)).
Proof.
  induction n as [f|d l es IH] using node_forall_ind; intros dir prefix is_last; [done|].
  destruct l; [|done].
  cbn [_write_tree tree_lines].
  rewrite !sorted_items, !imap_fmap, !length_map, concat_str_concat.
  change (map ?h ?l) with (h <$> l). rewrite fmap_imap. f_equal.
  apply imap_ext. intros i x Hx. cbn [compose fst snd].
  apply write_item_lines.
  intros p b. rewrite Forall_forall in IH. apply IH.
  apply py_sorted_elem_of with (le := node_le).
  by apply list_elem_of_lookup_2 in Hx.
Qed.

(** A line of the tree is for an entry of a directory that the tree
    reached; an entry that is a directory was itself not ignored. *)
Lemma tree_lines_elem n : forall dir prefix l,
  l ∈ tree_lines sc dir n prefix ->
  exists ds x, tl_path l = dir ++ ds ++ [x] /\ kept_below sc dir ds /\
               (tl_is_dir l = true ->
                fst (should_ignore_dir sc (dir ++ ds) x) = false).
Proof.
  induction n as [f|d li es IH] using node_forall_ind; intros dir prefix l.
  - simpl. intros H. by apply elem_of_nil in H.
  - destruct li; [|simpl; intros H; by apply elem_of_nil in H].
    cbn [tree_lines]. rewrite sorted_items, imap_fmap, length_map.
    rewrite list_elem_of_In, in_concat. intros (ls & Hls & Hl).
    apply list_elem_of_In, elem_of_lookup_imap in Hls as (i & x & -> & Hx).
    apply list_elem_of_lookup_2, py_sorted_elem_of in Hx.
    cbn [compose fst snd] in Hl. unfold item_lines in Hl.
    match type of Hl with context [if ?b then [] else _] => destruct b eqn:Hig end;
      [done|].
    destruct Hl as [<-|Hl].
    + exists [], (node_name x). rewrite app_nil_r. cbn.
      split; [done|]. split; [done|].
      intros Hd. by destruct x.
    + destruct x as [f|d' l' sub]; [done|]. cbn [is_dir node_name] in *.
      rewrite Forall_forall in IH. apply list_elem_of_In in Hl.
      destruct (IH _ Hx _ _ _ Hl) as (ds & y & Hp & Hk & Hd).
      exists (d' :: ds), y. rewrite <- !app_assoc in *. by repeat split.
Qed.

Lemma kept_below_not_ignored N dir ds :
  N ∈ ignore_dirs (config sc) -> kept_below sc dir ds -> N ∉ ds.
Proof.
  intros HN. revert dir. induction ds as [|d ds IH]; intros dir; simpl.
  - intros _ H. by apply elem_of_nil in H.
  - intros [Hd Hk] Hin. apply elem_of_cons in Hin as [->|Hin]; [|by eapply IH].
    unfold should_ignore_dir in Hd.
    destruct (negb _ && _); [done|].
    destruct (GitignoreParser.should_ignore _ _); [done|].
    unfold in_set in Hd. by rewrite bool_decide_eq_true_2 in Hd.
Qed.

End Tree.

Lemma should_ignore_dir_listed sc dir N :
  N ∈ ignore_dirs (UnifiedScanner.config sc) ->
  fst (UnifiedScanner.should_ignore_dir sc dir N) = true.
Proof.
  intros HN. unfold UnifiedScanner.should_ignore_dir.
  destruct (negb _ && _); [done|].
  destruct (GitignoreParser.should_ignore _ _); [done|].
  unfold in_set. by rewrite bool_decide_eq_true_2.
Qed.

Lemma sum_Z_app (l1 l2 : list Z) : sum_Z (l1 ++ l2) = (sum_Z l1 + sum_Z l2)%Z.
Proof. induction l1 as [|x l1 IH]; simpl; lia. Qed.

(** The walk does not look into a directory whose name is listed: what
    it holds is of no consequence. *)
Lemma walk_prunes sc N dir d es1 l sub es2 st :
  N ∈ ignore_dirs (UnifiedScanner.config sc) ->
  UnifiedScanner.walk sc dir (Dir d true (es1 ++ Dir N l sub :: es2)) st
  = UnifiedScanner.walk sc dir (Dir d true (es1 ++ es2)) st.
Proof.
  intros HN. rewrite !walk_spec. cbn [collected skips].
  rewrite !flat_map_app, !map_app, !sum_Z_app. cbn [flat_map map sum_Z fold_right].
  rewrite (should_ignore_dir_listed sc dir N HN). cbn [app].
  f_equal; lia.
Qed.

Lemma write_item_ignored_dir sc N dir prefix count i l sub below :
  N ∈ ignore_dirs (UnifiedScanner.config sc) ->
  UnifiedScanner.write_item sc dir prefix count i (Dir N l sub) below = "".
Proof.
  intros HN. unfold UnifiedScanner.write_item.
  by rewrite (should_ignore_dir_listed sc dir N HN).
Qed.

(** C2.  Let [N] be in [ignore_dirs].  [should_ignore_dir] is true for a
    subdirectory called [N] wherever it is, so the walk removes it from
    [dirs] and does not go into it: the walk of a directory is the same
    with and without an entry [N], whatever that entry holds, and no file
    of the queue, which is what the dump goes through, has [N] among the
    directories of its path.  [_write_tree] writes nothing for an entry
    [N] that is a directory; what it writes is the lines of [tree_lines],
    and no line is for a directory called [N] or for an entry below
    one. *)
Theorem ignored_dirs_pruned (sc : UnifiedScanner.scanner) (N : string) :
  N ∈ ignore_dirs (UnifiedScanner.config sc) ->
  (forall dir, fst (UnifiedScanner.should_ignore_dir sc dir N) = true) /\
  (forall dir d es1 l sub es2 st,
      UnifiedScanner.walk sc dir (Dir d true (es1 ++ Dir N l sub :: es2)) st
      = UnifiedScanner.walk sc dir (Dir d true (es1 ++ es2)) st) /\
  (forall p f, (p, f) ∈ UnifiedScanner.queue sc -> N ∉ removelast p) /\
  (forall dir prefix count i l sub below,
      UnifiedScanner.write_item sc dir prefix count i (Dir N l sub) below = "") /\
  (forall prefix is_last,
      UnifiedScanner._write_tree sc [] (UnifiedScanner.root sc) prefix is_last
      = UnifiedScanner.concat_str
          (map render_line (tree_lines sc [] (UnifiedScanner.root sc) prefix))) /\
  (forall prefix l,
      l ∈ tree_lines sc [] (UnifiedScanner.root sc) prefix -> N ∉ line_dirs l).
Proof.
  intros HN. split; [|split; [|split; [|split; [|split]]]].
  - intros dir. by apply should_ignore_dir_listed.
  - intros. by apply walk_prunes.
  - intros p f Hq. apply queue_elem in Hq as (ds & -> & Hk & _).
    rewrite removelast_last. by eapply kept_below_not_ignored.
  - intros. by apply write_item_ignored_dir.
  - intros prefix is_last. apply write_tree_lines.
  - intros prefix l Hl.
    apply tree_lines_elem in Hl as (ds & x & Hp & Hk & Hd).
    simpl in Hp. unfold line_dirs. rewrite Hp.
    pose proof (kept_below_not_ignored sc N [] ds HN Hk) as Hds.
    destruct (tl_is_dir l).
    + intros Hin. apply elem_of_app in Hin as [Hin|Hin]; [done|].
      apply list_elem_of_singleton in Hin as ->.
      specialize (Hd eq_refl). simpl in Hd.
      by rewrite (should_ignore_dir_listed sc ds x HN) in Hd.
    + by rewrite removelast_last.
Qed.

Lemma ignored_dirs_pruned_witness :
  "build" ∈ ignore_dirs (UnifiedScanner.config demo_scanner) /\
  UnifiedScanner.queue demo_scanner
    = [(["main.py"], plain_file "main.py" [x68; x69; x0a]);
       (["src"; "util.py"], plain_file "util.py" [x79])] /\
  ("build" ∉ removelast ["src"; "util.py"]) /\
  map tl_path (tree_lines demo_scanner [] demo_tree "")
    = [["src"]; ["src"; "util.py"]; ["main.py"]].
Proof.
  assert (HN : "build" ∈ ignore_dirs (UnifiedScanner.config demo_scanner)).
  { apply (bool_decide_unpack _). by vm_compute. }
  assert (E : UnifiedScanner.queue demo_scanner
              = [(["main.py"], plain_file "main.py" [x68; x69; x0a]);
                 (["src"; "util.py"], plain_file "util.py" [x79])])
    by (by vm_compute).
  split; [exact HN|]. split; [exact E|]. split; [|by vm_compute].
  apply (proj1 (proj2 (proj2 (ignored_dirs_pruned demo_scanner "build" HN)))
           ["src"; "util.py"] (plain_file "util.py" [x79])).
  rewrite E. right. left.
Defined.

(** ** Orders *)

Section Orders.
Context {A : Type} (cmp : A -> A -> comparison) (Hcmp : total_cmp cmp).

Lemma cmp_refl x : cmp x x = Eq.
Proof. by apply (cmp_eq cmp Hcmp). Qed.

Lemma cmp_gt_lt x y : cmp x y = Gt -> cmp y x = Lt.
Proof. intros H. by rewrite (cmp_opp cmp Hcmp x y), H. Qed.

Lemma cmp_lt_gt x y : cmp x y = Lt -> cmp y x = Gt.
Proof. intros H. by rewrite (cmp_opp cmp Hcmp x y), H. Qed.

Lemma leb_of_total x y : leb_of cmp x y = true \/ leb_of cmp y x = true.
Proof.
  unfold leb_of. destruct (cmp x y) eqn:E; auto.
  right. by rewrite (cmp_gt_lt _ _ E).
Qed.

Lemma leb_of_antisym x y :
  leb_of cmp x y = true -> leb_of cmp y x = true -> x = y.
Proof.
  unfold leb_of. destruct (cmp x y) eqn:E; [|rewrite (cmp_lt_gt _ _ E)|]; try done.
  intros _ _. by apply (cmp_eq cmp Hcmp).
Qed.

Lemma leb_of_trans x y z :
  leb_of cmp x y = true -> leb_of cmp y z = true -> leb_of cmp x z = true.
Proof.
  unfold leb_of.
  destruct (cmp x y) eqn:E1; [| |done].
  - apply (cmp_eq cmp Hcmp) in E1 as ->. done.
  - destruct (cmp y z) eqn:E2; [| |done].
    + apply (cmp_eq cmp Hcmp) in E2 as <-. by rewrite E1.
    + by rewrite (cmp_trans cmp Hcmp x y z E1 E2).
Qed.

Lemma lex_total_cmp : total_cmp (lex_compare cmp).
Proof.
  split.
  - intros l1. induction l1 as [|x l1 IH]; intros [|y l2]; simpl; try done.
    destruct (cmp x y) eqn:E.
    + apply (cmp_eq cmp Hcmp) in E as ->. rewrite IH. split; congruence.
    + split; [done|]. intros [= -> _]. by rewrite cmp_refl in E.
    + split; [done|]. intros [= -> _]. by rewrite cmp_refl in E.
  - intros l1. induction l1 as [|x l1 IH]; intros [|y l2]; simpl; try done.
    rewrite (cmp_opp cmp Hcmp x y). destruct (cmp x y); simpl; [apply IH|done..].
  - intros l1. induction l1 as [|x l1 IH]; intros [|y l2] [|z l3]; simpl; try done.
    destruct (cmp x y) eqn:E1; [| |done].
    + apply (cmp_eq cmp Hcmp) in E1 as ->.
      destruct (cmp y z); [apply IH|done..].
    + intros _. destruct (cmp y z) eqn:E2; [| |done].
      * apply (cmp_eq cmp Hcmp) in E2 as <-. by rewrite E1.
      * by rewrite (cmp_trans cmp Hcmp x y z E1 E2).
Qed.

(** The order of the keys of a list, carried to the elements. *)
Lemma total_cmp_inj {B} (g : B -> A) :
  (forall x y, g x = g y -> x = y) -> total_cmp (fun x y => cmp (g x) (g y)).
Proof.
  intros Hg. split.
  - intros x y. rewrite (cmp_eq cmp Hcmp). split; [apply Hg|by intros ->].
  - intros x y. apply (cmp_opp cmp Hcmp).
  - intros x y z. apply (cmp_trans cmp Hcmp).
Qed.

(** Two lists with the same elements, no two of which have the same
    key, are sorted into the same list. *)
Lemma py_sorted_unique {B} (k : B -> A) (l1 l2 : list B) :
  l1 ≡ₚ l2 ->
  (forall x y, x ∈ l1 -> y ∈ l1 -> k x = k y -> x = y) ->
  py_sorted (fun x y => leb_of cmp (k x) (k y)) l1
  = py_sorted (fun x y => leb_of cmp (k x) (k y)) l2.
Proof.
  intros Hperm Hinj.
  set (le := fun x y => leb_of cmp (k x) (k y)).
  assert (Htot : forall x y, le x y = true \/ le y x = true)
    by (intros; apply leb_of_total).
  assert (Htrans : Transitive (fun a b => le a b = true))
    by (intros x y z; apply leb_of_trans).
  apply (Sorted_unique_strong (fun a b => le a b = true)).
  - intros x y Hx Hy Hxy Hyx.
    apply py_sorted_elem_of in Hx. apply py_sorted_elem_of in Hy.
    rewrite <- Hperm in Hy. apply Hinj; [done..|].
    by apply leb_of_antisym.
  - by apply py_sorted_Sorted.
  - by apply py_sorted_Sorted.
  - by rewrite !py_sorted_perm.
Qed.

End Orders.

Lemma char_total_cmp : total_cmp char_compare.
Proof.
  unfold char_compare. split.
  - intros x y. rewrite Nat.compare_eq_iff. split; [|by intros ->].
    intros H. by rewrite <- (ascii_nat_embedding x), <- (ascii_nat_embedding y), H.
  - intros x y. apply Nat.compare_antisym.
  - intros x y z. rewrite !Nat.compare_lt_iff. lia.
Qed.

Lemma str_total_cmp : total_cmp str_compare.
Proof.
  unfold str_compare.
  apply (total_cmp_inj (lex_compare char_compare) (lex_total_cmp _ char_total_cmp)).
  intros x y H.
  by rewrite <- (string_of_list_ascii_of_string x),
             <- (string_of_list_ascii_of_string y), H.
Qed.

Lemma path_total_cmp : total_cmp path_compare.
Proof. apply lex_total_cmp, str_total_cmp. Qed.

Lemma key_total_cmp : total_cmp UnifiedScanner.key_compare.
Proof.
  unfold UnifiedScanner.key_compare. split.
  - intros [a s] [b t]. simpl. destruct a, b; simpl; try (split; congruence).
    + rewrite (cmp_eq _ str_total_cmp). split; congruence.
    + rewrite (cmp_eq _ str_total_cmp). split; congruence.
  - intros [a s] [b t]. simpl. destruct a, b; simpl; try done;
      apply (cmp_opp _ str_total_cmp).
  - intros [a s] [b t] [c u]. simpl. destruct a, b, c; simpl; try done;
      apply (cmp_trans _ str_total_cmp).
Qed.

(** ** The order of the listings *)

Lemma canon_name n : node_name (canon n) = node_name n.
Proof. by destruct n. Qed.

Lemma canon_is_dir n : is_dir (canon n) = is_dir n.
Proof. by destruct n. Qed.

Lemma canon_node_le x y : node_le (canon x) (canon y) = node_le x y.
Proof.
  unfold node_le, UnifiedScanner.item_key.
  by rewrite !canon_name, !canon_is_dir.
Qed.

Lemma node_le_total x y : node_le x y = true \/ node_le y x = true.
Proof. apply (leb_of_total _ key_total_cmp). Qed.

Lemma sorted_canon es :
  py_sorted node_le (map canon es) = map canon (py_sorted node_le es).
Proof. apply py_sorted_map, canon_node_le. Qed.

(** The listing of [canon] is sorted: sorting it again changes nothing. *)
Lemma canon_listing_sorted es :
  py_sorted node_le (py_sorted node_le (map canon es))
  = py_sorted node_le (map canon es).
Proof. apply py_sorted_id, py_sorted_Sorted, node_le_total. Qed.

Lemma flat_map_fmap {A B C} (f : B -> list C) (g : A -> B) (l : list A) :
  flat_map f (map g l) = flat_map (fun x => f (g x)) l.
Proof. induction l as [|x l IH]; simpl; [done|]. by rewrite IH. Qed.

Lemma fmap_flat_map {A B C} (h : B -> C) (f : A -> list B) (l : list A) :
  map h (flat_map f l) = flat_map (fun x => map h (f x)) l.
Proof. induction l as [|x l IH]; simpl; [done|]. by rewrite map_app, IH. Qed.

Lemma flat_map_perm_ext {A B} (f g : A -> list B) (l : list A) :
  Forall (fun x => f x ≡ₚ g x) l -> flat_map f l ≡ₚ flat_map g l.
Proof. induction 1 as [|x l Hx Hl IH]; simpl; [done|]. by rewrite Hx, IH. Qed.

Lemma sum_Z_perm (l1 l2 : list Z) : l1 ≡ₚ l2 -> sum_Z l1 = sum_Z l2.
Proof. induction 1; simpl in *; lia. Qed.

Lemma map_ext_Forall {A B} (f g : A -> B) (l : list A) :
  Forall (fun x => f x = g x) l -> map f l = map g l.
Proof. induction 1 as [|x l Hx Hl IH]; simpl; [done|]. by rewrite Hx, IH. Qed.

Section Listings.
Import UnifiedScanner.
Context (sc1 sc2 : scanner).
Hypothesis same_config : config sc1 = config sc2.
Hypothesis same_gitignore : gitignore sc1 = gitignore sc2.

Lemma should_ignore_file_same dir f :
  should_ignore_file sc1 dir f = should_ignore_file sc2 dir f.
Proof. unfold should_ignore_file. by rewrite same_config, same_gitignore. Qed.

Lemma should_ignore_dir_same dir d :
  should_ignore_dir sc1 dir d = should_ignore_dir sc2 dir d.
Proof. unfold should_ignore_dir. by rewrite same_config, same_gitignore. Qed.

Lemma queued_same dir f : queued sc1 dir f = queued sc2 dir f.
Proof.
  unfold queued, should_include_file.
  by rewrite should_ignore_file_same, same_config.
Qed.

(** The walk queues the same files in any order of the listings. *)
Lemma collected_canon n : forall dir,
  collected sc1 dir (canon n) ≡ₚ collected sc2 dir n.
Proof.
  induction n as [f|d l es IH] using node_forall_ind; intros dir; [done|].
  destruct l; [|done]. cbn [canon collected].
  apply Permutation_app.
  - rewrite (py_sorted_perm node_le (map canon es)), flat_map_fmap.
    apply flat_map_perm_ext, Forall_forall. intros e _.
    destruct e as [f|d' l' sub]; cbn [canon]; [|done].
    by rewrite queued_same.
  - rewrite (py_sorted_perm node_le (map canon es)), flat_map_fmap.
    apply flat_map_perm_ext. eapply Forall_impl; [exact IH|].
    intros e He. destruct e as [f|d' l' sub]; [done|].
    change (canon (Dir d' l' sub)) with (Dir d' l' (py_sorted node_le (map canon sub))).
    cbv beta iota. rewrite should_ignore_dir_same.
    destruct (fst (should_ignore_dir sc2 dir d')); [done|].
    apply (He (dir ++ [d'])).
Qed.

Lemma skips_canon n : forall dir, skips sc1 dir (canon n) = skips sc2 dir n.
Proof.
  induction n as [f|d l es IH] using node_forall_ind; intros dir; [done|].
  destruct l; [|done]. cbn [canon skips]. f_equal.
  - rewrite (sum_Z_perm _ _ (Permutation_map _ (py_sorted_perm node_le (map canon es)))).
    rewrite map_map. f_equal. apply map_ext_Forall, Forall_forall. intros e _.
    destruct e as [f|d' l' sub]; cbn [canon]; [|done].
    by rewrite should_ignore_file_same.
  - rewrite (sum_Z_perm _ _ (Permutation_map _ (py_sorted_perm node_le (map canon es)))).
    rewrite map_map. f_equal. apply map_ext_Forall.
    eapply Forall_impl; [exact IH|].
    intros e He. destruct e as [f|d' l' sub]; [done|].
    change (canon (Dir d' l' sub)) with (Dir d' l' (py_sorted node_le (map canon sub))).
    cbv beta iota. rewrite should_ignore_dir_same.
    destruct (fst (should_ignore_dir sc2 dir d')); [done|].
    apply (He (dir ++ [d'])).
Qed.

Lemma write_item_canon dir prefix count i x (below1 below2 : string -> bool -> string) :
  (forall p b, below1 p b = below2 p b) ->
  write_item sc1 dir prefix count i (canon x) below1
  = write_item sc2 dir prefix count i x below2.
Proof.
  intros Hbelow. unfold write_item.
  rewrite canon_name, canon_is_dir, Hbelow.
  destruct x as [f|d l sub]; cbn [canon].
  - by rewrite should_ignore_file_same.
  - by rewrite should_ignore_dir_same.
Qed.

(** The tree is written the same in any order of the listings. *)
Lemma write_tree_canon n : forall dir prefix is_last,
  _write_tree sc1 dir (canon n) prefix is_last
  = _write_tree sc2 dir n prefix is_last.
Proof.
  induction n as [f|d l es IH] using node_forall_ind; intros dir prefix is_last; [done|].
  destruct l; [|done]. cbn [canon _write_tree].
  rewrite !sorted_items, canon_listing_sorted, sorted_canon.
  rewrite !imap_fmap, !length_map. f_equal.
  apply imap_ext. intros i x Hx. cbn [compose fst snd].
  apply write_item_canon. intros p b. rewrite canon_name.
  rewrite Forall_forall in IH. apply IH.
  apply py_sorted_elem_of with (le := node_le).
  by apply list_elem_of_lookup_2 in Hx.
Qed.

End Listings.

(** ** The paths of the queue *)

Lemma NoDup_fmap_elem_inj {A B} (g : A -> B) (l : list A) x y :
  NoDup (map g l) -> x ∈ l -> y ∈ l -> g x = g y -> x = y.
Proof.
  induction l as [|a l IH]; simpl; intros Hnd Hx Hy Hg.
  - by apply elem_of_nil in Hx.
  - apply NoDup_cons in Hnd as [Ha Hnd].
    apply elem_of_cons in Hx as [->|Hx]; apply elem_of_cons in Hy as [->|Hy].
    + done.
    + exfalso. apply Ha. rewrite Hg. by apply list_elem_of_fmap_2.
    + exfalso. apply Ha. rewrite <- Hg. by apply list_elem_of_fmap_2.
    + by apply IH.
Qed.

Lemma NoDup_flat_map {A B} (f : A -> list B) (l : list A) :
  NoDup l ->
  (forall x, x ∈ l -> NoDup (f x)) ->
  (forall x1 x2 y, x1 ∈ l -> x2 ∈ l -> y ∈ f x1 -> y ∈ f x2 -> x1 = x2) ->
  NoDup (flat_map f l).
Proof.
  induction 1 as [|a l Ha Hl IH]; simpl; intros Hf Hdisj; [constructor|].
  apply NoDup_app. split; [apply Hf; by left|]. split.
  - intros y Hy Hin. apply list_elem_of_In, in_flat_map in Hin as (x & Hx & Hyx).
    apply list_elem_of_In in Hx, Hyx.
    assert (a = x) as -> by (eapply Hdisj; [by left|by right|done..]).
    done.
  - apply IH.
    + intros x Hx. apply Hf. by right.
    + intros x1 x2 y H1 H2. apply Hdisj; by right.
Qed.

Lemma unique_names_dir d l es :
  unique_names (Dir d l es) = true ->
  NoDup (map node_name es) /\ Forall (fun e => unique_names e = true) es.
Proof.
  cbn [unique_names]. intros H. apply andb_true_iff in H as [H1 H2].
  split; [by apply bool_decide_eq_true in H1|].
  apply Forall_forall. intros e He. rewrite forallb_forall in H2.
  by apply H2, list_elem_of_In.
Qed.

Section Paths.
Import UnifiedScanner.
Context (sc : scanner).

(** No path is queued twice when no directory holds a name twice. *)
Lemma collected_NoDup n : forall dir,
  unique_names n = true -> NoDup (map fst (collected sc dir n)).
Proof.
  induction n as [f|d l es IH] using node_forall_ind; intros dir Hu;
    [constructor|].
  destruct l; [|constructor].
  apply unique_names_dir in Hu as [Hnames Hsub].
  assert (Hes : NoDup es) by (by apply (NoDup_fmap_1 node_name)).
  cbn [collected]. rewrite map_app, !fmap_flat_map.
  apply NoDup_app. split; [|split].
  - apply NoDup_flat_map; [done|..].
    + intros [f|] _; [|constructor]. destruct (queued sc dir f); simpl; [|constructor].
      apply NoDup_singleton.
    + intros x1 x2 y H1 H2 Hy1 Hy2.
      destruct x1 as [f1|]; [|by apply elem_of_nil in Hy1].
      destruct x2 as [f2|]; [|by apply elem_of_nil in Hy2].
      destruct (queued sc dir f1); [|by apply elem_of_nil in Hy1].
      destruct (queued sc dir f2); [|by apply elem_of_nil in Hy2].
      apply list_elem_of_singleton in Hy1, Hy2. simpl in *. subst y.
      apply app_inv_head in Hy2. injection Hy2 as Hn.
      by apply (NoDup_fmap_elem_inj node_name es).
  - intros y Hy1 Hy2.
    apply list_elem_of_In, in_flat_map in Hy1 as (x1 & _ & Hy1).
    apply list_elem_of_In, in_flat_map in Hy2 as (x2 & _ & Hy2).
    destruct x1 as [f1|]; [|done]. destruct x2 as [|d2 l2 sub2]; [done|].
    destruct (queued sc dir f1); [|done]. destruct Hy1 as [<-|[]].
    destruct (fst (should_ignore_dir sc dir d2)); [done|].
    apply in_map_iff in Hy2 as ([p f] & Hp & Hin). simpl in Hp.
    apply list_elem_of_In, collected_elem in Hin as (ds & -> & _).
    rewrite <- app_assoc in Hp. apply app_inv_head in Hp. simpl in Hp.
    injection Hp as _ Hp. by destruct ds.
  - apply NoDup_flat_map; [done|..].
    + intros x Hx. destruct x as [|d' l' sub]; [constructor|].
      destruct (fst (should_ignore_dir sc dir d')); [constructor|].
      rewrite Forall_forall in IH, Hsub. apply IH; [done|]. by apply Hsub.
    + intros x1 x2 y H1 H2 Hy1 Hy2.
      destruct x1 as [|d1 l1 sub1]; [by apply elem_of_nil in Hy1|].
      destruct x2 as [|d2 l2 sub2]; [by apply elem_of_nil in Hy2|].
      destruct (fst (should_ignore_dir sc dir d1)); [by apply elem_of_nil in Hy1|].
      destruct (fst (should_ignore_dir sc dir d2)); [by apply elem_of_nil in Hy2|].
      apply list_elem_of_In, in_map_iff in Hy1 as ([p1 f1] & Hp1 & Hin1).
      apply list_elem_of_In, in_map_iff in Hy2 as ([p2 f2] & Hp2 & Hin2).
      apply list_elem_of_In, collected_elem in Hin1 as (ds1 & -> & _).
      apply list_elem_of_In, collected_elem in Hin2 as (ds2 & -> & _).
      simpl in Hp1, Hp2. subst y. rewrite <- !app_assoc in Hp2.
      apply app_inv_head in Hp2. simpl in Hp2. injection Hp2 as Hd _.
      by apply (NoDup_fmap_elem_inj node_name es).
Qed.

End Paths.

(** ** The same output for the same project *)

Section Determinism.
Import UnifiedScanner.

Lemma path_le_total (x y : rel_path * file) : path_le x y = true \/ path_le y x = true.
Proof. apply (leb_of_total _ path_total_cmp). Qed.

Lemma node_le_kinds x y :
  node_le x y =
  match is_dir x, is_dir y with
  | true, false => true
  | false, true => false
  | _, _ => leb_of str_compare (node_name x) (node_name y)
  end.
Proof.
  unfold node_le, leb_of, key_compare, item_key. simpl.
  by destruct (is_dir x), (is_dir y).
Qed.

(** A listing in another order has the same [canon]. *)
Lemma canon_reorder d l es1 es2 :
  es1 ≡ₚ es2 -> NoDup (map node_name es1) ->
  canon (Dir d l es1) = canon (Dir d l es2).
Proof.
  intros Hperm Hnd. cbn [canon]. f_equal.
  apply (py_sorted_unique key_compare key_total_cmp item_key).
  - by apply Permutation_map.
  - intros x y Hx Hy Hk.
    apply (NoDup_fmap_elem_inj node_name (map canon es1)); [|done..|].
    + rewrite map_map. erewrite map_ext; [exact Hnd|]. apply canon_name.
    + unfold item_key in Hk. congruence.
Qed.

Lemma find_existsb {A} (p : A -> bool) (l : list A) :
  match find p l with Some _ => true | None => false end = existsb p l.
Proof.
  induction l as [|x l IH]; simpl; [done|]. by destruct (p x).
Qed.

(** [should_ignore_file] answers by a disjunction of its rules: the
    order in which the set [ignore_files] is gone through decides the
    reason given, not the answer. *)
Lemma should_ignore_file_or sc dir f :
  fst (should_ignore_file sc dir f)
  = (negb (include_hidden (config sc)) && Py.startswith (f_name f) ".")
    || GitignoreParser.should_ignore (gitignore sc) (rel_str (dir ++ [f_name f]))
    || existsb (Fnmatch.fnmatch (f_name f)) (elements (ignore_files (config sc)))
    || in_set (ext_of f) (ignore_extensions (config sc))
    || f_stat_fails f
    || (size_of f >? max_file_size (config sc))%Z.
Proof.
  unfold should_ignore_file. fold (ext_of f). rewrite <- find_existsb.
  destruct (negb _ && _); [done|].
  destruct (GitignoreParser.should_ignore _ _); [done|].
  destruct (find _ _); [done|].
  destruct (in_set _ _); [done|].
  destruct (f_stat_fails f); [done|].
  by destruct (_ >? _)%Z.
Qed.

Lemma should_ignore_file_iff sc dir f :
  fst (should_ignore_file sc dir f) = true <->
  (include_hidden (config sc) = false /\ Py.startswith (f_name f) "." = true)
  \/ GitignoreParser.should_ignore (gitignore sc) (rel_str (dir ++ [f_name f])) = true
  \/ (exists pattern, pattern ∈ ignore_files (config sc)
                      /\ Fnmatch.fnmatch (f_name f) pattern = true)
  \/ ext_of f ∈ ignore_extensions (config sc)
  \/ f_stat_fails f = true
  \/ (size_of f > max_file_size (config sc))%Z.
Proof.
  rewrite should_ignore_file_or, !orb_true_iff, andb_true_iff, negb_true_iff.
  rewrite existsb_exists, <- Z.gtb_gt. unfold in_set. rewrite bool_decide_eq_true.
  assert (Hex : (exists x, In x (elements (ignore_files (config sc)))
                           /\ Fnmatch.fnmatch (f_name f) x = true)
                <-> (exists pattern, pattern ∈ ignore_files (config sc)
                                     /\ Fnmatch.fnmatch (f_name f) pattern = true)).
  { split; intros (x & Hx & Hm); exists x; split; try done.
    - by apply elem_of_elements, list_elem_of_In.
    - by apply list_elem_of_In, elem_of_elements. }
  rewrite Hex. tauto.
Qed.

(** The order of the paths is that of their components, not that of
    their text. *)
Remark path_order_by_components :
  path_compare ["a"; "b"] ["a.b"] = Lt /\ str_compare "a/b" "a.b" = Gt.
Proof. by split. Qed.

Lemma scan_directory_canon sc t1 t2 :
  unique_names t1 = true -> canon t1 = canon t2 ->
  scan_directory (with_root t1 sc) = scan_directory (with_root t2 sc).
Proof.
  intros Hu Hc.
  assert (Hperm : collected (with_root t1 sc) [] t1 ≡ₚ collected (with_root t2 sc) [] t2).
  { rewrite <- (collected_canon sc (with_root t1 sc) eq_refl eq_refl t1 []).
    rewrite <- (collected_canon sc (with_root t2 sc) eq_refl eq_refl t2 []).
    by rewrite Hc. }
  assert (Hq : queue (with_root t1 sc) = queue (with_root t2 sc)).
  { rewrite !queue_collected_eq. cbn [root with_root].
    apply (py_sorted_unique path_compare path_total_cmp fst); [done|].
    intros x y Hx Hy Hxy.
    by apply (NoDup_fmap_elem_inj fst (collected (with_root t1 sc) [] t1));
      [apply collected_NoDup|..]. }
  assert (Hs : skipped (walked (with_root t1 sc)) = skipped (walked (with_root t2 sc))).
  { unfold walked. rewrite !walk_spec. cbn [skipped root with_root stats].
    rewrite <- (skips_canon sc (with_root t1 sc) eq_refl eq_refl t1 []).
    rewrite <- (skips_canon sc (with_root t2 sc) eq_refl eq_refl t2 []).
    by rewrite Hc. }
  assert (Hw : forall p b,
             _write_tree (with_root t1 sc) [] t1 p b
             = _write_tree (with_root t2 sc) [] t2 p b).
  { intros p b.
    rewrite <- (write_tree_canon sc (with_root t1 sc) eq_refl eq_refl t1 [] p b).
    rewrite <- (write_tree_canon sc (with_root t2 sc) eq_refl eq_refl t2 [] p b).
    by rewrite Hc. }
  unfold scan_directory. rewrite Hq, Hs.
  cbn [root config project_dir stats with_root]. by rewrite Hw.
Qed.

End Determinism.

(** C9.  The files are dumped in the order of their paths (a path is
    compared component by component), the queue being the sorted walk;
    the entries of a directory are written in the tree with the
    directories first and then by name.  Whether a file is ignored is a
    disjunction of the rules, whatever the order in which the set
    [ignore_files] is gone through.  The output of [scan_directory]
    and the counters are the same for two states of the project directory
    that differ only in the order in which the directories list their
    entries, as long as no directory holds a name twice: nothing else than
    the tree, the configuration and the patterns goes into the output. *)
Theorem scan_deterministic (sc : UnifiedScanner.scanner) :
  Sorted (fun x y => UnifiedScanner.path_le x y = true) (UnifiedScanner.queue sc) /\
  UnifiedScanner.queue sc
    ≡ₚ UnifiedScanner.files_to_process (UnifiedScanner.walked sc) /\
  (forall x y, UnifiedScanner.path_le x y = leb_of path_compare (fst x) (fst y)) /\
  (forall d es dir prefix is_last,
      UnifiedScanner._write_tree sc dir (Dir d true es) prefix is_last
      = UnifiedScanner.concat_str
          (imap (fun i x =>
                   UnifiedScanner.write_item sc dir prefix (length es) i x
                     (UnifiedScanner._write_tree sc (dir ++ [node_name x]) x))
                (py_sorted node_le es))) /\
  (forall es, Sorted (fun x y => node_le x y = true) (py_sorted node_le es)
              /\ py_sorted node_le es ≡ₚ es) /\
  (forall x y,
      node_le x y =
      match is_dir x, is_dir y with
      | true, false => true
      | false, true => false
      | _, _ => leb_of str_compare (node_name x) (node_name y)
      end) /\
  (forall dir f,
      fst (UnifiedScanner.should_ignore_file sc dir f) = true <->
      (include_hidden (UnifiedScanner.config sc) = false
       /\ Py.startswith (f_name f) "." = true)
      \/ GitignoreParser.should_ignore (UnifiedScanner.gitignore sc)
           (UnifiedScanner.rel_str (dir ++ [f_name f])) = true
      \/ (exists pattern, pattern ∈ ignore_files (UnifiedScanner.config sc)
                          /\ Fnmatch.fnmatch (f_name f) pattern = true)
      \/ ext_of f ∈ ignore_extensions (UnifiedScanner.config sc)
      \/ f_stat_fails f = true
      \/ (UnifiedScanner.size_of f > max_file_size (UnifiedScanner.config sc))%Z) /\
  (forall d l es1 es2,
      es1 ≡ₚ es2 -> NoDup (map node_name es1) ->
      canon (Dir d l es1) = canon (Dir d l es2)) /\
  (forall t1 t2,
      unique_names t1 = true -> canon t1 = canon t2 ->
      UnifiedScanner.scan_directory (with_root t1 sc)
      = UnifiedScanner.scan_directory (with_root t2 sc)).
Proof.
  split; [apply py_sorted_Sorted, path_le_total|].
  split; [apply py_sorted_perm|].
  split; [done|].
  split.
  { intros d es dir prefix is_last. cbn [UnifiedScanner._write_tree].
    by rewrite sorted_items, imap_fmap, length_map, py_sorted_length. }
  split.
  { intros es. split; [apply py_sorted_Sorted, node_le_total|apply py_sorted_perm]. }
  split; [apply node_le_kinds|].
  split; [apply should_ignore_file_iff|].
  split; [apply canon_reorder|].
  apply scan_directory_canon.
Qed.

Lemma scan_deterministic_witness :
  unique_names demo_tree = true /\
  canon demo_tree = canon demo_tree_reordered /\
  demo_tree <> demo_tree_reordered /\
  UnifiedScanner.scan_directory (with_root demo_tree demo_scanner)
  = UnifiedScanner.scan_directory (with_root demo_tree_reordered demo_scanner).
Proof.
  assert (Hu : unique_names demo_tree = true) by (by vm_compute).
  assert (Hc : canon demo_tree = canon demo_tree_reordered) by (by vm_compute).
  split; [exact Hu|]. split; [exact Hc|]. split; [discriminate|].
  destruct (scan_deterministic demo_scanner) as (_ & _ & _ & _ & _ & _ & _ & _ & H).
  exact (H demo_tree demo_tree_reordered Hu Hc).
Defined.
(** * Further properties *)

(** ** Patterns of [fnmatch] *)

Section FnmatchFacts.
Import Fnmatch.

Lemma translate_aux_nil fuel : translate_aux fuel [] = [].
Proof. by destruct fuel. Qed.

Lemma contains_char_existsb c s :
  Py.contains_char c s = existsb (fun a => Ascii.eqb a c) (list_ascii_of_string s).
Proof. induction s as [|a s IH]; simpl; [done|]. by rewrite IH. Qed.

Lemma translate_aux_plain l : forall fuel,
  length l <= fuel ->
  existsb (fun a => Ascii.eqb a "*") l = false ->
  existsb (fun a => Ascii.eqb a "?") l = false ->
  existsb (fun a => Ascii.eqb a "[") l = false ->
  translate_aux fuel l = map Lit l.
Proof.
  induction l as [|c l IH]; intros fuel Hf H1 H2 H3.
  - apply translate_aux_nil.
  - destruct fuel as [|fuel]; [simpl in Hf; lia|].
    simpl in *. unfold ch_eqb.
    apply orb_false_iff in H1 as [E1 H1'].
    apply orb_false_iff in H2 as [E2 H2'].
    apply orb_false_iff in H3 as [E3 H3'].
    rewrite E1, E2, E3, IH; [done|lia|done..].
Qed.

Lemma translate_plain pat :
  plain pat = true -> translate pat = map Lit (list_ascii_of_string pat).
Proof.
  unfold plain, translate. rewrite !contains_char_existsb, negb_true_iff.
  intros H. apply orb_false_iff in H as [H H3]. apply orb_false_iff in H as [H1 H2].
  by apply translate_aux_plain.
Qed.

Lemma match_lits l : forall s, match_toks (map Lit l) s = true <-> s = l.
Proof.
  induction l as [|c l IH]; intros s; simpl.
  - by destruct s.
  - destruct s as [|x s]; [done|]. unfold ch_eqb.
    rewrite andb_true_iff, IH, Ascii.eqb_eq.
    split; [by intros [-> ->]|by intros [= -> ->]].
Qed.

(** A pattern without special characters matches its own text and
    nothing else. *)
Lemma fnmatch_plain name pat :
  plain pat = true -> (fnmatch name pat = true <-> name = pat).
Proof.
  intros Hp. unfold fnmatch, fnmatchcase. rewrite (translate_plain _ Hp), match_lits.
  split; [|by intros ->].
  intros H. by rewrite <- (string_of_list_ascii_of_string name), H,
    string_of_list_ascii_of_string.
Qed.

Lemma until_close_split l s r :
  until_close l = Some (s, r) -> l = s ++ "]"%char :: r.
Proof.
  revert s r. induction l as [|c l IH]; intros s r; simpl; [done|].
  unfold ch_eqb. destruct (Ascii.eqb c "]") eqn:E.
  - apply Ascii.eqb_eq in E as ->. by intros [= <- <-].
  - destruct (until_close l) as [[s' r']|]; [|done].
    intros [= <- <-]. simpl. f_equal. by apply IH.
Qed.

Lemma find_close_split l s r :
  find_close l = Some (s, r) -> exists pre, l = pre ++ "]"%char :: r.
Proof.
  unfold find_close.
  destruct (match l with
            | c :: l' => if ch_eqb c "!" then ([c], l') else ([], l)
            | [] => ([], l)
            end) as [p1 l1] eqn:E1.
  destruct (match l1 with
            | c :: l' => if ch_eqb c "]" then ([c], l') else ([], l1)
            | [] => ([], l1)
            end) as [p2 l2] eqn:E2.
  destruct (until_close l2) as [[s' r']|] eqn:E3; [|done].
  intros [= <- <-]. apply until_close_split in E3.
  assert (H1 : l = p1 ++ l1).
  { destruct l as [|c l']; [by injection E1 as <- <-|].
    destruct (ch_eqb c "!"); by injection E1 as <- <-. }
  assert (H2 : l1 = p2 ++ l2).
  { destruct l1 as [|c l']; [by injection E2 as <- <-|].
    destruct (ch_eqb c "]"); by injection E2 as <- <-. }
  exists (p1 ++ p2 ++ s'). rewrite H1, H2, E3. by rewrite <- !app_assoc.
Qed.

(** The pattern ends with a character that stands for itself: so does
    its translation. *)
Lemma translate_aux_last c fuel : forall pat,
  length pat <= fuel ->
  last pat = Some c ->
  c <> "*"%char -> c <> "?"%char -> c <> "["%char -> c <> "]"%char ->
  last (translate_aux fuel pat) = Some (Lit c).
Proof.
  intros pat Hf Hl H1 H2 H3 H4. revert pat Hf Hl.
  induction fuel as [|fuel IH]; intros pat Hf Hl.
  { destruct pat; [done|simpl in Hf; lia]. }
  destruct pat as [|a rest]; [done|]. simpl in Hf.
  destruct rest as [|b rest'] eqn:Erest.
  - injection Hl as ->. simpl. unfold ch_eqb.
    rewrite !(proj2 (Ascii.eqb_neq _ _)) by done.
    by rewrite translate_aux_nil.
  - rewrite <- Erest in *.
    assert (Hl' : last rest = Some c) by (by rewrite Erest in *).
    assert (Hrec : forall t, last (t :: translate_aux fuel rest) = Some (Lit c)).
    { intros t. specialize (IH rest ltac:(lia) Hl').
      destruct (translate_aux fuel rest); [done|]. by rewrite last_cons, IH. }
    simpl. destruct (ch_eqb a "*"); [apply Hrec|].
    destruct (ch_eqb a "?"); [apply Hrec|].
    destruct (ch_eqb a "["); [|apply Hrec].
    destruct (find_close rest) as [[stuff r]|] eqn:Efc; [|apply Hrec].
    apply find_close_split in Efc as [pre Hpre].
    assert (Hr : last r = Some c).
    { rewrite Hpre, last_app in Hl'. rewrite last_cons in Hl'.
      destruct (last r) eqn:Er; [done|]. congruence. }
    assert (Hlen : length r <= fuel).
    { rewrite Hpre, length_app in Hf. simpl in Hf. lia. }
    specialize (IH r Hlen Hr).
    destruct (translate_aux fuel r); [done|]. by rewrite last_cons, IH.
Qed.

Lemma match_toks_last c ts : forall s,
  last ts = Some (Lit c) -> match_toks ts s = true -> last s = Some c.
Proof.
  induction ts as [|t ts IH]; intros s Hl; [done|].
  destruct ts as [|t' ts'] eqn:Ets.
  - injection Hl as ->. simpl. destruct s as [|x [|y s]]; try done.
    + unfold ch_eqb. rewrite andb_true_r, Ascii.eqb_eq. by intros ->.
    + by rewrite andb_false_r.
  - rewrite <- Ets in *.
    assert (Hl' : last ts = Some (Lit c)) by (by rewrite Ets in *).
    assert (Hcons : forall x s', match_toks ts s' = true -> last (x :: s') = Some c).
    { intros x s' Hm. apply IH in Hm; [|done].
      destruct s'; [done|]. by rewrite last_cons, Hm. }
    destruct t; cbn [match_toks];
      try (destruct s as [|x s]; [done|];
           intros [_ Hm]%andb_true_iff; by apply Hcons).
    induction s as [|x s IHs].
    + rewrite orb_false_r. by apply IH.
    + rewrite orb_true_iff. intros [Hm|Hm]; [by apply IH|].
      apply IHs in Hm. destruct s; [done|]. by rewrite last_cons, Hm.
Qed.

(** A pattern that ends with [/] matches only names that end with [/]. *)
Lemma fnmatch_trailing_slash name pat :
  last_char pat = Some "/"%char -> fnmatch name pat = true ->
  last_char name = Some "/"%char.
Proof.
  unfold fnmatch, fnmatchcase, translate, last_char. intros Hl Hm.
  eapply match_toks_last; [|exact Hm].
  by apply translate_aux_last.
Qed.

End FnmatchFacts.

(** ** The text of a path *)

Section PathText.
Import UnifiedScanner.

Lemma str_app_cons a s t : String a s +:+ t = String a (s +:+ t).
Proof. reflexivity. Qed.

Lemma str_app_nil t : "" +:+ t = t.
Proof. reflexivity. Qed.

Lemma str_app_nil_r s : s +:+ "" = s.
Proof. induction s as [|a s IH]; [done|]. by rewrite str_app_cons, IH. Qed.

Lemma str_app_chars s t :
  list_ascii_of_string (s +:+ t) = list_ascii_of_string s ++ list_ascii_of_string t.
Proof. induction s as [|a s IH]; [done|]. rewrite str_app_cons. simpl. by rewrite IH. Qed.

Lemma str_app_length s t : String.length (s +:+ t) = String.length s + String.length t.
Proof. induction s as [|a s IH]; [done|]. rewrite str_app_cons. simpl. by rewrite IH. Qed.

Lemma rfind_none c s : Py.contains_char c s = false -> Py.rfind c s = None.
Proof.
  induction s as [|a s IH]; simpl; [done|].
  intros [Ha Hs]%orb_false_iff. by rewrite IH, Ha.
Qed.

Lemma rfind_app c s t :
  Py.contains_char c t = false ->
  Py.rfind c (s +:+ String c t) = Some (String.length s).
Proof.
  intros Ht. induction s as [|a s IH].
  - rewrite str_app_nil. simpl. by rewrite (rfind_none _ _ Ht), Ascii.eqb_refl.
  - rewrite str_app_cons. simpl. by rewrite IH.
Qed.

Lemma drop_str_app s t : Py.drop_str (String.length s) (s +:+ t) = t.
Proof. induction s as [|a s IH]; [by destruct t|]. by rewrite str_app_cons. Qed.

Lemma basename_plain x : Py.contains_char "/" x = false -> Py.basename x = x.
Proof. intros H. unfold Py.basename. by rewrite (rfind_none _ _ H). Qed.

Lemma basename_app s x :
  Py.contains_char "/" x = false -> Py.basename (s +:+ "/" +:+ x) = x.
Proof.
  intros H. unfold Py.basename.
  change ("/" +:+ x) with (String "/" x). rewrite (rfind_app _ _ _ H).
  change (S (String.length s)) with (String.length (String "/" "") + String.length s).
  rewrite Nat.add_comm, <- str_app_length.
  change (String "/" x) with (String "/" "" +:+ x).
  by rewrite <- str_app_assoc, drop_str_app.
Qed.

Lemma join_snoc sep l x :
  l <> [] -> Py.join sep (l ++ [x]) = Py.join sep l +:+ sep +:+ x.
Proof.
  induction l as [|a l IH]; [done|]. intros _.
  destruct l as [|b l]; [done|].
  change (Py.join sep ((a :: b :: l) ++ [x]))
    with (a +:+ sep +:+ Py.join sep ((b :: l) ++ [x])).
  rewrite IH by done.
  change (Py.join sep (a :: b :: l)) with (a +:+ sep +:+ Py.join sep (b :: l)).
  by rewrite !str_app_assoc.
Qed.

(** The base name of the path of an entry is the name of the entry. *)
Lemma basename_rel_str dir x :
  Py.contains_char "/" x = false -> Py.basename (rel_str (dir ++ [x])) = x.
Proof.
  intros H. unfold rel_str. destruct dir as [|d dir].
  - by apply basename_plain.
  - rewrite join_snoc by done. by apply basename_app.
Qed.

Lemma last_char_app s t : t <> "" -> last_char (s +:+ t) = last_char t.
Proof.
  intros Ht. unfold last_char. rewrite str_app_chars, last_app.
  destruct t as [|a t]; [done|].
  change (list_ascii_of_string (String a t)) with (a :: list_ascii_of_string t).
  destruct (last (a :: list_ascii_of_string t)) eqn:E; [done|].
  by apply last_None in E.
Qed.

Lemma last_char_rel_str dir x :
  x <> "" -> last_char (rel_str (dir ++ [x])) = last_char x.
Proof.
  intros Hx. unfold rel_str. destruct dir as [|d dir]; [done|].
  rewrite join_snoc by done. by rewrite !last_char_app.
Qed.

Lemma last_char_contains c x : last_char x = Some c -> Py.contains_char c x = true.
Proof.
  unfold last_char. induction x as [|a x IH]; [done|]. simpl.
  destruct x as [|b x].
  - intros [= ->]. by rewrite Ascii.eqb_refl.
  - intros H. rewrite IH; [by rewrite orb_true_r|done].
Qed.

End PathText.

(** ** Further properties of the ignore patterns *)

Section Patterns.
Import GitignoreParser UnifiedScanner.

Lemma should_ignore_positive patterns path :
  should_ignore patterns path = true ->
  exists pattern,
    (pattern, false) ∈ patterns /\ pattern_matches path (pattern, false) = true.
Proof.
  rewrite should_ignore_last. unfold last_match.
  destruct (last (List.filter _ _)) as [[pattern neg]|] eqn:E; [|done].
  destruct neg; [done|]. intros _.
  apply last_Some_elem_of, list_elem_of_In, filter_In in E as [Hin Hm].
  exists pattern. by rewrite list_elem_of_In.
Qed.

Lemma should_ignore_plain_list patterns path :
  Forall (fun e => snd e = false) patterns ->
  should_ignore patterns path = existsb (pattern_matches path) patterns.
Proof.
  induction patterns as [|[pattern neg] patterns IH] using rev_ind; [done|].
  intros [Hps Hp]%Forall_app. rewrite Forall_singleton in Hp. cbn [snd] in Hp.
  rewrite Hp in *. clear Hp.
  rewrite should_ignore_snoc, existsb_app, IH by done. simpl.
  destruct (pattern_matches path (pattern, false)); [by rewrite orb_true_r|].
  by rewrite !orb_false_r.
Qed.

Lemma should_ignore_negations patterns path :
  Forall (fun e => snd e = true) patterns -> should_ignore patterns path = false.
Proof.
  intros Hall. destruct (should_ignore patterns path) eqn:E; [|done].
  apply should_ignore_positive in E as (pattern & Hin & _).
  rewrite Forall_forall in Hall. by apply Hall in Hin.
Qed.

Lemma kept_below_avoids sc N ds : forall dir,
  (forall dir, fst (should_ignore_dir sc dir N) = true) ->
  kept_below sc dir ds -> N ∉ ds.
Proof.
  induction ds as [|d ds IH]; intros dir HN; simpl.
  - intros _ H. by apply elem_of_nil in H.
  - intros [Hd Hk] Hin. apply elem_of_cons in Hin as [->|Hin]; [|by eapply IH].
    by rewrite HN in Hd.
Qed.

Lemma plain_name_matches dir N :
  plain N = true -> Py.contains_char "/" N = false ->
  pattern_matches (rel_str (dir ++ [N])) (N, false) = true.
Proof.
  intros Hp Hs. unfold pattern_matches. cbn [fst].
  rewrite (basename_rel_str _ _ Hs).
  rewrite (proj2 (fnmatch_plain N N Hp) eq_refl). by rewrite orb_true_r.
Qed.

Lemma trailing_slash_no_match pattern neg dir x :
  last_char pattern = Some "/"%char ->
  x <> "" -> Py.contains_char "/" x = false ->
  pattern_matches (rel_str (dir ++ [x])) (pattern, neg) = false.
Proof.
  intros Hl Hx Hs. unfold pattern_matches. cbn [fst].
  rewrite (basename_rel_str _ _ Hs). apply orb_false_iff. split.
  - destruct (Fnmatch.fnmatch _ _) eqn:E; [|done].
    apply (fnmatch_trailing_slash _ _ Hl) in E.
    rewrite (last_char_rel_str _ _ Hx) in E.
    apply last_char_contains in E. congruence.
  - destruct (Fnmatch.fnmatch _ _) eqn:E; [|done].
    apply (fnmatch_trailing_slash _ _ Hl), last_char_contains in E. congruence.
Qed.

Lemma should_ignore_no_match patterns path :
  Forall (fun e => pattern_matches path e = false) patterns ->
  should_ignore patterns path = false.
Proof.
  intros Hall. rewrite should_ignore_last. unfold last_match.
  replace (List.filter (pattern_matches path) patterns) with (@nil (string * bool)); [done|].
  symmetry. apply filter_nil_iff. intros e He.
  rewrite Forall_forall in Hall. by apply Hall.
Qed.

End Patterns.

(** X1.  [should_ignore] answers [True] only when a pattern that is no
    negation matches the path or its base name: a list of negations
    alone ignores nothing, and in a list without negations a path is
    ignored exactly when one of the patterns matches. *)
Theorem should_ignore_needs_plain_match :
  (forall patterns path,
      GitignoreParser.should_ignore patterns path = true ->
      exists pattern,
        (pattern, false) ∈ patterns /\ pattern_matches path (pattern, false) = true) /\
  (forall patterns path,
      Forall (fun e => snd e = true) patterns ->
      GitignoreParser.should_ignore patterns path = false) /\
  (forall patterns path,
      Forall (fun e => snd e = false) patterns ->
      GitignoreParser.should_ignore patterns path
      = existsb (pattern_matches path) patterns).
Proof.
  split; [exact should_ignore_positive|].
  split; [exact should_ignore_negations|exact should_ignore_plain_list].
Qed.

Lemma should_ignore_needs_plain_match_witness :
  GitignoreParser.should_ignore [("*.log", false); ("keep.txt", true)] "a/b.log" = true /\
  exists pattern,
    (pattern, false) ∈ [("*.log", false); ("keep.txt", true)]
    /\ pattern_matches "a/b.log" (pattern, false) = true.
Proof.
  split; [reflexivity|].
  apply (proj1 should_ignore_needs_plain_match). reflexivity.
Defined.

(** X2.  In a [.gitignore] without negations, a line that is a plain
    name (no [*], [?], [[] and no [/]) ignores the directories and the
    files of that name at any depth, so that no queued path has the name
    among its components. *)
Theorem plain_name_ignored_at_any_depth (sc : UnifiedScanner.scanner) (N : string) :
  (N, false) ∈ UnifiedScanner.gitignore sc ->
  Forall (fun e => snd e = false) (UnifiedScanner.gitignore sc) ->
  plain N = true ->
  Py.contains_char "/" N = false ->
  (forall dir,
      GitignoreParser.should_ignore (UnifiedScanner.gitignore sc)
        (UnifiedScanner.rel_str (dir ++ [N])) = true) /\
  (forall dir, fst (UnifiedScanner.should_ignore_dir sc dir N) = true) /\
  (forall dir f, f_name f = N -> fst (UnifiedScanner.should_ignore_file sc dir f) = true) /\
  (forall p f, (p, f) ∈ UnifiedScanner.queue sc -> N ∉ p).
Proof.
  intros Hin Hall Hp Hs.
  assert (Hgi : forall dir,
             GitignoreParser.should_ignore (UnifiedScanner.gitignore sc)
               (UnifiedScanner.rel_str (dir ++ [N])) = true).
  { intros dir. rewrite should_ignore_plain_list by done.
    apply existsb_exists. exists (N, false).
    split; [by apply list_elem_of_In|by apply plain_name_matches]. }
  assert (Hdir : forall dir, fst (UnifiedScanner.should_ignore_dir sc dir N) = true).
  { intros dir. unfold UnifiedScanner.should_ignore_dir.
    destruct (negb _ && _); [done|]. by rewrite Hgi. }
  assert (Hfile : forall dir f, f_name f = N ->
                    fst (UnifiedScanner.should_ignore_file sc dir f) = true).
  { intros dir f Hf. unfold UnifiedScanner.should_ignore_file.
    destruct (negb _ && _); [done|]. by rewrite Hf, Hgi. }
  split; [exact Hgi|]. split; [exact Hdir|]. split; [exact Hfile|].
  intros p f Hq Hmem.
  apply queue_elem in Hq as (ds & -> & Hk & Hi & _).
  apply elem_of_app in Hmem as [Hmem|Hmem].
  - by apply (kept_below_avoids sc N ds [] Hdir Hk).
  - apply list_elem_of_singleton in Hmem. by rewrite (Hfile ds f) in Hi.
Qed.

(** X3.  A pattern that ends with [/] matches no path of the walk and no
    name: with only such lines the [.gitignore] ignores nothing, and the
    two tests answer as they do without a [.gitignore]. *)
Theorem trailing_slash_patterns_ignore_nothing (sc : UnifiedScanner.scanner) :
  Forall (fun e => last_char (fst e) = Some "/"%char) (UnifiedScanner.gitignore sc) ->
  forall dir x,
    x <> "" -> Py.contains_char "/" x = false ->
    GitignoreParser.should_ignore (UnifiedScanner.gitignore sc)
      (UnifiedScanner.rel_str (dir ++ [x])) = false /\
    UnifiedScanner.should_ignore_dir sc dir x
    = UnifiedScanner.should_ignore_dir (with_gitignore [] sc) dir x /\
    (forall f, f_name f = x ->
               UnifiedScanner.should_ignore_file sc dir f
               = UnifiedScanner.should_ignore_file (with_gitignore [] sc) dir f).
Proof.
  intros Hall dir x Hx Hs.
  assert (Hgi : GitignoreParser.should_ignore (UnifiedScanner.gitignore sc)
                  (UnifiedScanner.rel_str (dir ++ [x])) = false).
  { apply should_ignore_no_match. eapply Forall_impl; [exact Hall|].
    intros [pattern neg] Hl. by apply trailing_slash_no_match. }
  split; [exact Hgi|]. split.
  - unfold UnifiedScanner.should_ignore_dir. by rewrite Hgi.
  - intros f Hf. unfold UnifiedScanner.should_ignore_file. by rewrite Hf, Hgi.
Qed.

Lemma plain_name_ignored_at_any_depth_witness :
  fst (UnifiedScanner.should_ignore_dir src_ignoring_scanner ["lib"] "src") = true /\
  forall p f, (p, f) ∈ UnifiedScanner.queue src_ignoring_scanner -> "src" ∉ p.
Proof.
  destruct (plain_name_ignored_at_any_depth src_ignoring_scanner "src")
    as (_ & Hdir & _ & Hq).
  - right. left.
  - repeat constructor.
  - reflexivity.
  - reflexivity.
  - split; [apply Hdir|apply Hq].
Defined.

Lemma trailing_slash_patterns_ignore_nothing_witness :
  GitignoreParser.should_ignore (UnifiedScanner.gitignore slash_scanner)
    (UnifiedScanner.rel_str ([] ++ ["src"])) = false /\
  fst (UnifiedScanner.should_ignore_dir slash_scanner [] "src") = false.
Proof.
  destruct (trailing_slash_patterns_ignore_nothing slash_scanner) with (dir := @nil string)
    (x := "src") as (Hgi & Hdir & _).
  - repeat constructor.
  - discriminate.
  - reflexivity.
  - split; [exact Hgi|]. rewrite Hdir. reflexivity.
Defined.

(** ** Reading the patterns back *)

Section Lines.
Import GitignoreParser.






End Lines.



(** ** What the walk reaches *)

Section Reach.
Import UnifiedScanner.
Context (sc : scanner).



Lemma reached_path dir n p f :
  reached sc dir n p f -> exists ds, p = dir ++ ds ++ [f_name f].
Proof.
  induction 1 as [dir d es f Hin|dir d es d' l' es' p f Hin Hd Hr (ds & ->)].
  - by exists [].
  - exists (d' :: ds). by rewrite <- app_assoc.
Qed.

(** A line of the tree is for an entry that was not ignored, in a
    directory that the tree reached. *)
Lemma tree_lines_entry n : forall dir prefix l,
  l ∈ tree_lines sc dir n prefix ->
  exists ds x, tl_path l = dir ++ ds ++ [x] /\ kept_below sc dir ds /\
    if tl_is_dir l then fst (should_ignore_dir sc (dir ++ ds) x) = false
    else exists f, f_name f = x /\ fst (should_ignore_file sc (dir ++ ds) f) = false.
Proof.
  induction n as [f|d li es IH] using node_forall_ind; intros dir prefix l.
  - simpl. intros H. by apply elem_of_nil in H.
  - destruct li; [|simpl; intros H; by apply elem_of_nil in H].
    cbn [tree_lines]. rewrite sorted_items, imap_fmap, length_map.
    rewrite list_elem_of_In, in_concat. intros (ls & Hls & Hl).
    apply list_elem_of_In, elem_of_lookup_imap in Hls as (i & x & -> & Hx).
    apply list_elem_of_lookup_2, py_sorted_elem_of in Hx.
    cbn [compose fst snd] in Hl. unfold item_lines in Hl.
    match type of Hl with context [if ?b then [] else _] => destruct b eqn:Hig end;
      [done|].
    destruct Hl as [<-|Hl].
    + exists [], (node_name x). rewrite app_nil_r. cbn.
      split; [done|]. split; [done|].
      destruct x as [f|d' l' sub]; cbn; [by exists f|done].
    + destruct x as [f|d' l' sub]; [done|]. cbn [is_dir node_name] in *.
      rewrite Forall_forall in IH. apply list_elem_of_In in Hl.
      destruct (IH _ Hx _ _ _ Hl) as (ds & y & Hp & Hk & Hd).
      exists (d' :: ds), y. rewrite <- !app_assoc in *. by repeat split.
Qed.

Lemma kept_below_Forall (P : string -> Prop) ds : forall dir,
  (forall dir d, fst (should_ignore_dir sc dir d) = false -> P d) ->
  kept_below sc dir ds -> Forall P ds.
Proof.
  induction ds as [|d ds IH]; intros dir HP; simpl; [constructor|].
  intros [Hd Hk]. constructor; [by eapply HP|by eapply IH].
Qed.

Lemma kept_dir_not_hidden dir d :
  include_hidden (config sc) = false ->
  fst (should_ignore_dir sc dir d) = false -> Py.startswith d "." = false.
Proof.
  intros Hh. unfold should_ignore_dir. rewrite Hh. cbn [negb andb].
  by destruct (Py.startswith d ".").
Qed.

Lemma kept_file_not_hidden dir f :
  include_hidden (config sc) = false ->
  fst (should_ignore_file sc dir f) = false -> Py.startswith (f_name f) "." = false.
Proof.
  intros Hh. unfold should_ignore_file. rewrite Hh. cbn [negb andb].
  by destruct (Py.startswith (f_name f) ".").
Qed.

End Reach.

(** X5.  Without [include_hidden], a directory whose name starts with a
    dot is ignored as a hidden directory, and nothing below it is reached:
    no component of a queued path starts with a dot, and neither does a
    component of the path of a line that [_write_tree] writes. *)
Theorem hidden_dirs_pruned (sc : UnifiedScanner.scanner) :
  include_hidden (UnifiedScanner.config sc) = false ->
  (forall dir d,
      Py.startswith d "." = true ->
      UnifiedScanner.should_ignore_dir sc dir d = (true, "hidden directory")) /\
  (forall p f,
      (p, f) ∈ UnifiedScanner.queue sc ->
      Forall (fun x => Py.startswith x "." = false) p) /\
  (forall prefix is_last,
      UnifiedScanner._write_tree sc [] (UnifiedScanner.root sc) prefix is_last
      = UnifiedScanner.concat_str
          (map render_line (tree_lines sc [] (UnifiedScanner.root sc) prefix))) /\
  (forall prefix l,
      l ∈ tree_lines sc [] (UnifiedScanner.root sc) prefix ->
      Forall (fun x => Py.startswith x "." = false) (tl_path l)).
Proof.
  intros Hh. split; [|split; [|split]].
  - intros dir d Hd. unfold UnifiedScanner.should_ignore_dir. by rewrite Hh, Hd.
  - intros p f Hq. apply queue_elem in Hq as (ds & -> & Hk & Hi & _).
    apply Forall_app. split.
    + eapply kept_below_Forall; [|exact Hk].
      intros dir d. by apply kept_dir_not_hidden.
    + apply Forall_singleton. by eapply kept_file_not_hidden.
  - intros prefix is_last. apply write_tree_lines.
  - intros prefix l Hl.
    apply tree_lines_entry in Hl as (ds & x & -> & Hk & Hx). cbn [app].
    apply Forall_app. split.
    + eapply kept_below_Forall; [|exact Hk].
      intros dir d. by apply kept_dir_not_hidden.
    + apply Forall_singleton. destruct (tl_is_dir l).
      * by eapply kept_dir_not_hidden.
      * destruct Hx as (f & <- & Hf). by eapply kept_file_not_hidden.
Qed.

Lemma hidden_dirs_pruned_witness :
  UnifiedScanner.should_ignore_dir demo_scanner ["src"] ".git" = (true, "hidden directory") /\
  forall p f,
    (p, f) ∈ UnifiedScanner.queue demo_scanner ->
    Forall (fun x => Py.startswith x "." = false) p.
Proof.
  destruct (hidden_dirs_pruned demo_scanner) as (Hd & Hq & _ & _).
  - reflexivity.
  - split; [by apply Hd|exact Hq].
Defined.


(** X7.  When no directory holds two entries of the same name, no path
    is queued twice: every file is dumped once. *)
Theorem queue_paths_unique (sc : UnifiedScanner.scanner) :
  unique_names (UnifiedScanner.root sc) = true ->
  NoDup (map fst (UnifiedScanner.queue sc)).
Proof.
  intros Hu. rewrite queue_collected_eq.
  assert (map fst (py_sorted UnifiedScanner.path_le
                     (collected sc [] (UnifiedScanner.root sc)))
          ≡ₚ map fst (collected sc [] (UnifiedScanner.root sc))) as ->
    by apply Permutation_map, py_sorted_perm.
  by apply collected_NoDup.
Qed.

Lemma queue_paths_unique_witness :
  NoDup (map fst (UnifiedScanner.queue demo_scanner)).
Proof. apply (queue_paths_unique demo_scanner). reflexivity. Defined.

(** X8.  Every queued file could be measured and is not larger than
    [max_file_size]: a file of exactly that size is kept, and with a
    negative [max_file_size] nothing is queued. *)
Theorem queue_within_size_limit (sc : UnifiedScanner.scanner) :
  (forall p f,
      (p, f) ∈ UnifiedScanner.queue sc ->
      f_stat_fails f = false
      /\ (UnifiedScanner.size_of f <= max_file_size (UnifiedScanner.config sc))%Z) /\
  (forall dir f,
      UnifiedScanner.should_ignore_file sc dir f
      = (true, "file too large (>" +:+ pretty (max_file_size (UnifiedScanner.config sc))
               +:+ " bytes)") ->
      (UnifiedScanner.size_of f > max_file_size (UnifiedScanner.config sc))%Z) /\
  ((max_file_size (UnifiedScanner.config sc) < 0)%Z -> UnifiedScanner.queue sc = []).
Proof.
  assert (Hlim : forall dir f,
             fst (UnifiedScanner.should_ignore_file sc dir f) = false ->
             f_stat_fails f = false
             /\ (UnifiedScanner.size_of f <= max_file_size (UnifiedScanner.config sc))%Z).
  { intros dir f Hi.
    destruct (f_stat_fails f) eqn:E1.
    { assert (fst (UnifiedScanner.should_ignore_file sc dir f) = true); [|congruence].
      apply should_ignore_file_iff. tauto. }
    split; [done|].
    destruct (Z_le_gt_dec (UnifiedScanner.size_of f)
                (max_file_size (UnifiedScanner.config sc))) as [|Hgt]; [done|].
    assert (fst (UnifiedScanner.should_ignore_file sc dir f) = true); [|congruence].
    apply should_ignore_file_iff. tauto. }
  split; [|split].
  - intros p f Hq. apply queue_elem in Hq as (ds & -> & _ & Hi & _). by eapply Hlim.
  - intros dir f. unfold UnifiedScanner.should_ignore_file.
    destruct (negb _ && _); [intros [=]|].
    destruct (GitignoreParser.should_ignore _ _); [intros [=]|].
    destruct (find _ _); [intros [=]|].
    destruct (in_set _ _); [intros [=]|].
    destruct (f_stat_fails f); [intros [=]|].
    destruct (UnifiedScanner.size_of f >? _)%Z eqn:E; [|intros [=]].
    intros _. lia.
  - intros Hneg.
    destruct (UnifiedScanner.queue sc) as [|[p f] q] eqn:E; [done|].
    assert (Hq : (p, f) ∈ UnifiedScanner.queue sc) by (rewrite E; left).
    apply queue_elem in Hq as (ds & -> & _ & Hi & _).
    apply Hlim in Hi as [_ Hle]. unfold UnifiedScanner.size_of in Hle. lia.
Qed.


Lemma queue_within_size_limit_witness :
  UnifiedScanner.queue
    (with_config (set_max_file_size (-1) (UnifiedScanner.config demo_scanner))
       demo_scanner) = [].
Proof.
  apply (proj2 (proj2 (queue_within_size_limit
                         (with_config
                            (set_max_file_size (-1) (UnifiedScanner.config demo_scanner))
                            demo_scanner)))).
  reflexivity.
Defined.

(** ** Extensions and binary files *)

Section Extensions.
Import UnifiedScanner.

Lemma lower_char_idem a : Py.lower_char (Py.lower_char a) = Py.lower_char a.
Proof. by destruct a as [[] [] [] [] [] [] [] []]. Qed.

Lemma lower_idem s : Py.lower (Py.lower s) = Py.lower s.
Proof. induction s as [|a s IH]; simpl; [done|]. by rewrite lower_char_idem, IH. Qed.

Lemma ext_of_lower f : Py.lower (ext_of f) = ext_of f.
Proof. apply lower_idem. Qed.

Lemma in_set_union_other x e (s : gset string) :
  x <> e -> in_set x (s ∪ {[e]}) = in_set x s.
Proof.
  intros H. unfold in_set. apply bool_decide_ext.
  rewrite elem_of_union, elem_of_singleton.
  split; [intros [?|?]; [done|contradiction]|by left].
Qed.

End Extensions.

(** X9.  Extensions are compared in lower case: the extension that the
    tests look up has no upper-case letter, so an entry of
    [code_extensions] or [ignore_extensions] that has one matches no
    file, and adding it changes neither test. *)
Theorem mixed_case_extension_matches_nothing (sc : UnifiedScanner.scanner) (e : string) :
  Py.lower e <> e ->
  (forall f, ext_of f <> e) /\
  (forall f,
      UnifiedScanner.should_include_file
        (with_config
           (set_code_extensions (code_extensions (UnifiedScanner.config sc) ∪ {[e]})
              (UnifiedScanner.config sc)) sc) f
      = UnifiedScanner.should_include_file sc f) /\
  (forall dir f,
      UnifiedScanner.should_ignore_file
        (with_config
           (set_ignore_extensions (ignore_extensions (UnifiedScanner.config sc) ∪ {[e]})
              (UnifiedScanner.config sc)) sc) dir f
      = UnifiedScanner.should_ignore_file sc dir f).
Proof.
  intros He.
  assert (Hext : forall f, ext_of f <> e).
  { intros f Hf. apply He. by rewrite <- Hf, ext_of_lower. }
  split; [exact Hext|]. split.
  - intros f. unfold UnifiedScanner.should_include_file.
    cbn [with_config UnifiedScanner.config set_code_extensions config_files
         code_extensions].
    fold (ext_of f). by rewrite (in_set_union_other _ _ _ (Hext f)).
  - intros dir f. unfold UnifiedScanner.should_ignore_file.
    cbn [with_config UnifiedScanner.config UnifiedScanner.gitignore
         set_ignore_extensions include_hidden ignore_files ignore_extensions
         max_file_size].
    fold (ext_of f). by rewrite (in_set_union_other _ _ _ (Hext f)).
Qed.

Lemma mixed_case_extension_matches_nothing_witness :
  ext_of (plain_file "MAIN.PY" [x68; x69; x0a]) = ".py" /\
  ext_of (plain_file "MAIN.PY" [x68; x69; x0a]) <> ".PY".
Proof.
  split; [reflexivity|].
  apply (proj1 (mixed_case_extension_matches_nothing demo_scanner ".PY" ltac:(discriminate))).
Defined.

(** X10.  [_is_binary] is true exactly for a file that cannot be opened
    and for a file with a zero byte at one of its first 1024 positions:
    a zero byte further on goes unnoticed. *)
Theorem is_binary_first_kilobyte (f : file) :
  UnifiedScanner._is_binary f = true <->
  f_io f = Unopenable \/ exists i, i < 1024 /\ f_data f !! i = Some x00.
Proof.
  unfold UnifiedScanner._is_binary.
  assert (Hnul : existsb UnifiedScanner.is_nul (take 1024 (f_data f)) = true <->
                 exists i, i < 1024 /\ f_data f !! i = Some x00).
  { rewrite existsb_exists. split.
    - intros (b & Hin & Hb). apply byte_dec_bl in Hb as ->.
      apply list_elem_of_In, elem_of_take in Hin as (i & Hi & Hlt). by exists i.
    - intros (i & Hlt & Hi). exists x00. split; [|done].
      apply list_elem_of_In, elem_of_take. by exists i. }
  destruct (f_io f) eqn:E.
  - rewrite Hnul. split; [by right|]. by intros [|].
  - split; [by left|done].
  - rewrite Hnul. split; [by right|]. by intros [|].
Qed.

Lemma is_binary_first_kilobyte_witness :
  UnifiedScanner._is_binary (plain_file "a.dat" (repeat x41 1024 ++ [x00])) = false /\
  UnifiedScanner._is_binary (plain_file "b.dat" (repeat x41 1023 ++ [x00])) = true.
Proof.
  split; [by vm_compute|].
  apply (proj2 (is_binary_first_kilobyte (plain_file "b.dat" (repeat x41 1023 ++ [x00])))).
  right. exists 1023. split; [lia|by vm_compute].
Defined.

(** ** What the scan depends on *)

Section Agree.
Import UnifiedScanner.
Context (sc1 sc2 : scanner).
Hypothesis same_file : forall dir f,
  should_ignore_file sc1 dir f = should_ignore_file sc2 dir f.
Hypothesis same_dir : forall dir d,
  should_ignore_dir sc1 dir d = should_ignore_dir sc2 dir d.
Hypothesis same_include : forall f,
  should_include_file sc1 f = should_include_file sc2 f.

Lemma collected_agree n : forall dir, collected sc1 dir n = collected sc2 dir n.
Proof.
  induction n as [f|d l es IH] using node_forall_ind; intros dir; [done|].
  destruct l; [|done]. cbn [collected]. f_equal.
  - apply flat_map_ext. intros [f|] ; [|done].
    unfold queued. by rewrite same_file, same_include.
  - induction IH as [|e es He Hes IHes]; [done|]. simpl. f_equal; [|exact IHes].
    destruct e as [|d' l' sub]; [done|]. by rewrite same_dir, He.
Qed.

Lemma skips_agree n : forall dir, skips sc1 dir n = skips sc2 dir n.
Proof.
  induction n as [f|d l es IH] using node_forall_ind; intros dir; [done|].
  destruct l; [|done]. cbn [skips]. f_equal.
  - f_equal. apply map_ext. intros [f|]; [|done]. by rewrite same_file.
  - f_equal. induction IH as [|e es He Hes IHes]; [done|]. simpl. f_equal; [|exact IHes].
    destruct e as [|d' l' sub]; [done|]. by rewrite same_dir, He.
Qed.

Lemma write_tree_agree n : forall dir prefix is_last,
  _write_tree sc1 dir n prefix is_last = _write_tree sc2 dir n prefix is_last.
Proof.
  induction n as [f|d l es IH] using node_forall_ind; intros dir prefix is_last; [done|].
  destruct l; [|done]. cbn [_write_tree].
  rewrite !sorted_items, !imap_fmap, !length_map. f_equal.
  apply imap_ext. intros i x Hx. cbn [compose fst snd].
  unfold write_item.
  assert (Hbelow : forall p b,
             _write_tree sc1 (dir ++ [node_name x]) x p b
             = _write_tree sc2 (dir ++ [node_name x]) x p b).
  { intros p b. rewrite Forall_forall in IH. apply IH.
    apply py_sorted_elem_of with (le := node_le).
    by apply list_elem_of_lookup_2 in Hx. }
  rewrite Hbelow. destruct x as [f|d' l' sub].
  - by rewrite same_file.
  - by rewrite same_dir.
Qed.

Lemma scan_directory_agree :
  name (config sc1) = name (config sc2) ->
  project_type (config sc1) = project_type (config sc2) ->
  project_dir sc1 = project_dir sc2 ->
  root sc1 = root sc2 ->
  stats sc1 = stats sc2 ->
  scan_directory sc1 = scan_directory sc2.
Proof.
  intros Hn Ht Hp Hr Hs.
  assert (Hw : walked sc1 = walked sc2).
  { unfold walked. rewrite !walk_spec, Hr, Hs. by rewrite collected_agree, skips_agree. }
  unfold scan_directory, queue. rewrite Hw, Hn, Ht, Hp, Hr, Hs.
  by rewrite write_tree_agree.
Qed.

End Agree.

(** X11.  The scan reads nine fields of the configuration: two
    configurations that differ only in [target_subdirs] and
    [ignore_patterns] give the same output and the same counters. *)
Theorem scan_ignores_target_subdirs (sc : UnifiedScanner.scanner) (c : ProjectConfig) :
  name c = name (UnifiedScanner.config sc) ->
  project_type c = project_type (UnifiedScanner.config sc) ->
  code_extensions c = code_extensions (UnifiedScanner.config sc) ->
  config_files c = config_files (UnifiedScanner.config sc) ->
  ignore_dirs c = ignore_dirs (UnifiedScanner.config sc) ->
  ignore_files c = ignore_files (UnifiedScanner.config sc) ->
  ignore_extensions c = ignore_extensions (UnifiedScanner.config sc) ->
  max_file_size c = max_file_size (UnifiedScanner.config sc) ->
  include_hidden c = include_hidden (UnifiedScanner.config sc) ->
  UnifiedScanner.scan_directory (with_config c sc) = UnifiedScanner.scan_directory sc.
Proof.
  intros H1 H2 H3 H4 H5 H6 H7 H8 H9.
  apply scan_directory_agree; try done.
  - intros dir f. unfold UnifiedScanner.should_ignore_file.
    cbn [with_config UnifiedScanner.config UnifiedScanner.gitignore].
    by rewrite H6, H7, H8, H9.
  - intros dir d. unfold UnifiedScanner.should_ignore_dir.
    cbn [with_config UnifiedScanner.config UnifiedScanner.gitignore].
    by rewrite H5, H9.
  - intros f. unfold UnifiedScanner.should_include_file.
    cbn [with_config UnifiedScanner.config]. by rewrite H3, H4.
Qed.

Lemma scan_ignores_target_subdirs_witness :
  UnifiedScanner.scan_directory
    (with_config (set_target_subdirs {["lib"]} (UnifiedScanner.config tiny_scanner))
       tiny_scanner)
  = UnifiedScanner.scan_directory tiny_scanner.
Proof.
  apply (scan_ignores_target_subdirs tiny_scanner
           (set_target_subdirs {["lib"]} (UnifiedScanner.config tiny_scanner)));
    reflexivity.
Defined.

(** ** The counters *)

Section Counters.
Import UnifiedScanner.

Lemma dump_fold_stats files : forall out st,
  let st' := snd (fold_left dump_file files (out, st)) in
  files_processed st' = (files_processed st + count_where is_dumped files)%Z /\
  files_skipped st' = (files_skipped st + count_where _is_binary files)%Z /\
  errors st' = (errors st + count_where is_error files)%Z /\
  total_size st'
  = (total_size st
     + sum_Z (map (fun x => text_size (snd x))
                (List.filter (fun x => is_dumped (snd x)) files)))%Z.
Proof.
  unfold count_where.
  induction files as [|[p f] files IH]; intros out st; cbn zeta.
  - simpl. lia.
  - cbn [fold_left]. destruct (dump_file (out, st) (p, f)) as [out1 st1] eqn:E.
    specialize (IH out1 st1). cbn zeta in IH. destruct IH as (I1 & I2 & I3 & I4).
    rewrite I1, I2, I3, I4. clear I1 I2 I3 I4.
    cbn [List.filter snd]. unfold is_dumped, is_error, text_size.
    unfold dump_file in E.
    destruct (_is_binary f) eqn:Eb; cbn [negb andb].
    + injection E as <- <-. unfold sum_Z.
      cbn [files_processed files_skipped errors total_size length map fold_right snd].
      lia.
    + unfold sum_Z.
      destruct (f_io f) eqn:Eio; injection E as <- <-;
        cbn [files_processed files_skipped errors total_size length map fold_right snd];
        lia.
Qed.

Lemma count_where_split files :
  (count_where is_dumped files + count_where _is_binary files
   + count_where is_error files)%Z = Z.of_nat (length files).
Proof.
  unfold count_where. induction files as [|[p f] files IH]; [done|].
  cbn [List.filter snd length]. unfold is_dumped, is_error in *.
  destruct (_is_binary f); cbn [negb andb]; [cbn [length]; lia|].
  destruct (f_io f); cbn [length]; lia.
Qed.

Lemma scan_directory_stats sc :
  snd (scan_directory sc)
  = snd (fold_left dump_file (queue sc)
           ("", {| files_processed := files_processed (stats sc);
                   files_skipped := skipped (walked sc);
                   total_size := total_size (stats sc);
                   errors := errors (stats sc) |})).
Proof.
  unfold scan_directory.
  match goal with
  | |- context [fold_left dump_file ?q (?o, ?s)] =>
      generalize o; intros out0
  end.
  match goal with
  | |- snd (let '(_, _) := ?a in _) = snd ?b =>
      assert (H : snd a = snd b); [|destruct a, b; exact H]
  end.
  generalize (queue sc). intros files.
  match goal with |- context [(out0, ?s)] => generalize s end.
  generalize out0 "". clear.
  induction files as [|[p f] files IH]; intros o1 o2 st; [done|].
  cbn [fold_left].
  assert (E : snd (dump_file (o1, st) (p, f)) = snd (dump_file (o2, st) (p, f))).
  { unfold dump_file. destruct (_is_binary f); [done|]. by destruct (f_io f). }
  destruct (dump_file (o1, st) (p, f)) as [o1' st1].
  destruct (dump_file (o2, st) (p, f)) as [o2' st2].
  cbn [snd] in E. subst st2. apply IH.
Qed.

End Counters.

Lemma sum_Z_nonneg (l : list Z) : Forall (fun z => (0 <= z)%Z) l -> (0 <= sum_Z l)%Z.
Proof. induction 1; simpl; lia. Qed.

Lemma sum_Z_bound {A} (g : A -> Z) (M : Z) (l : list A) :
  Forall (fun x => (g x <= M)%Z) l -> (sum_Z (map g l) <= Z.of_nat (length l) * M)%Z.
Proof. induction 1; simpl; lia. Qed.

Lemma skips_nonneg sc n : forall dir, (0 <= skips sc dir n)%Z.
Proof.
  induction n as [f|d l es IH] using node_forall_ind; intros dir; [done|].
  destruct l; [|done]. cbn [skips].
  assert (0 <= sum_Z (map (fun e => match e with
                                    | File f =>
                                        if fst (UnifiedScanner.should_ignore_file sc dir f)
                                        then 1 else 0
                                    | Dir _ _ _ => 0
                                    end) es))%Z.
  { apply sum_Z_nonneg, Forall_fmap, Forall_forall. intros [f|] _; simpl; [|done].
    destruct (fst _); lia. }
  assert (0 <= sum_Z (map (fun e => match e with
                                    | File _ => 0
                                    | Dir d _ _ =>
                                        if fst (UnifiedScanner.should_ignore_dir sc dir d)
                                        then 0 else skips sc (dir ++ [d]) e
                                    end) es))%Z.
  { apply sum_Z_nonneg, Forall_fmap. eapply Forall_impl; [exact IH|].
    intros [f|d' l' sub] He; simpl; [done|]. destruct (fst _); [done|apply He]. }
  lia.
Qed.

(** X12.  The counters after a scan: every queued file is counted once,
    as processed, as skipped (binary) or as an error; [files_skipped]
    also holds the files that the walk ignored; no counter goes down. *)
Theorem scan_counters (sc : UnifiedScanner.scanner) :
  let st := snd (UnifiedScanner.scan_directory sc) in
  let q := UnifiedScanner.queue sc in
  let walk_skipped := UnifiedScanner.skipped (UnifiedScanner.walked sc) in
  files_processed st
  = (files_processed (UnifiedScanner.stats sc) + count_where is_dumped q)%Z /\
  files_skipped st = (walk_skipped + count_where UnifiedScanner._is_binary q)%Z /\
  errors st = (errors (UnifiedScanner.stats sc) + count_where is_error q)%Z /\
  ((files_processed st - files_processed (UnifiedScanner.stats sc))
   + (files_skipped st - walk_skipped)
   + (errors st - errors (UnifiedScanner.stats sc)))%Z = Z.of_nat (length q) /\
  (files_skipped (UnifiedScanner.stats sc) <= walk_skipped)%Z.
Proof.
  cbn zeta. rewrite scan_directory_stats.
  destruct (dump_fold_stats (UnifiedScanner.queue sc) ""
              {| files_processed := files_processed (UnifiedScanner.stats sc);
                 files_skipped := UnifiedScanner.skipped (UnifiedScanner.walked sc);
                 total_size := total_size (UnifiedScanner.stats sc);
                 errors := errors (UnifiedScanner.stats sc) |}) as (H1 & H2 & H3 & _).
  cbn [files_processed files_skipped errors] in H1, H2, H3.
  pose proof (count_where_split (UnifiedScanner.queue sc)) as Hs.
  split; [exact H1|]. split; [exact H2|]. split; [exact H3|].
  split; [lia|].
  unfold UnifiedScanner.walked. rewrite walk_spec. cbn [UnifiedScanner.skipped].
  pose proof (skips_nonneg sc (UnifiedScanner.root sc) []). lia.
Qed.

(** ** Reading text *)

Section Text.
Import Codec.

Lemma decode_ignore_length n : forall bs,
  length bs <= n -> length (decode_ignore bs) <= length bs.
Proof.
  induction n as [|n IH]; intros bs Hn.
  - destruct bs; [simpl; lia|simpl in Hn; lia].
  - destruct bs as [|b0 r0]; [simpl; lia|].
    cbn [decode_ignore].
    repeat match goal with
           | |- context [if ?b then _ else _] => destruct b
           | |- context [match ?l with [] => _ | _ :: _ => _ end] => destruct l
           end;
      cbn [length] in *;
      try match goal with
          | |- context [length (decode_ignore ?r)] =>
              specialize (IH r ltac:(cbn [length] in *; lia)); cbn [length] in IH
          end;
      lia.
Qed.

Lemma newlines_length n : forall bs,
  length bs <= n -> length (newlines bs) <= length bs.
Proof.
  induction n as [|n IH]; intros bs Hn.
  - destruct bs; [simpl; lia|simpl in Hn; lia].
  - destruct bs as [|b r]; [simpl; lia|].
    cbn [newlines].
    repeat match goal with
           | |- context [if ?b then _ else _] => destruct b
           | |- context [match ?l with [] => _ | _ :: _ => _ end] => destruct l
           end;
      cbn [length] in *;
      try match goal with
          | |- context [length (newlines ?r)] =>
              specialize (IH r ltac:(cbn [length] in *; lia)); cbn [length] in IH
          end;
      lia.
Qed.

Lemma len_to_string bs : (0 <= len (to_string bs) <= Z.of_nat (length bs))%Z.
Proof.
  unfold to_string. induction bs as [|b bs IH]; [done|].
  cbn [map string_of_list_ascii len length].
  destruct (cont _); lia.
Qed.

Lemma text_size_bounds f : (0 <= text_size f <= UnifiedScanner.size_of f)%Z.
Proof.
  unfold text_size, read_text, UnifiedScanner.size_of.
  pose proof (len_to_string (newlines (decode_ignore (map Byte.to_nat (f_data f))))) as H1.
  pose proof (newlines_length _ (decode_ignore (map Byte.to_nat (f_data f))) (le_n _)) as H2.
  pose proof (decode_ignore_length _ (map Byte.to_nat (f_data f)) (le_n _)) as H3.
  rewrite length_map in H3. lia.
Qed.

Lemma decode_ignore_ascii bs :
  Forall (fun b => b < 128) bs -> decode_ignore bs = bs.
Proof.
  induction 1 as [|b bs Hb Hbs IH]; [done|]. cbn [decode_ignore].
  rewrite (proj2 (Nat.ltb_lt _ _) Hb). by rewrite IH.
Qed.

Lemma newlines_no_cr bs : Forall (fun b => b <> 13) bs -> newlines bs = bs.
Proof.
  induction 1 as [|b bs Hb Hbs IH]; [done|]. cbn [newlines].
  rewrite (proj2 (Nat.eqb_neq _ _) Hb). by rewrite IH.
Qed.

Lemma ascii_of_byte_nat b : ascii_of_nat (Byte.to_nat b) = ascii_of_byte b.
Proof. by destruct b. Qed.

Lemma to_string_bytes data : to_string (map Byte.to_nat data) = string_of_list_byte data.
Proof.
  unfold to_string, string_of_list_byte. f_equal.
  rewrite map_map. apply map_ext. intros b. apply ascii_of_byte_nat.
Qed.

Lemma len_ascii bs :
  Forall (fun b => b < 128) bs -> len (to_string bs) = Z.of_nat (length bs).
Proof.
  unfold to_string. induction 1 as [|b bs Hb Hbs IH]; [done|].
  cbn [map string_of_list_ascii len length].
  rewrite nat_ascii_embedding by lia.
  unfold cont. rewrite (proj2 (Nat.leb_gt 128 b)) by lia. cbn [andb]. lia.
Qed.

Lemma ascii_text_Forall data :
  ascii_text data = true ->
  Forall (fun b => 0 < b /\ b < 128 /\ b <> 13) (map Byte.to_nat data).
Proof.
  unfold ascii_text. rewrite forallb_forall. intros H.
  apply Forall_fmap, Forall_forall. intros b Hb%list_elem_of_In.
  specialize (H b Hb). cbn zeta in H.
  apply andb_true_iff in H as [[H1 H2]%andb_true_iff H3].
  apply Nat.ltb_lt in H1, H2. apply negb_true_iff, Nat.eqb_neq in H3. done.
Qed.

Lemma read_text_ascii data :
  ascii_text data = true ->
  read_text data = string_of_list_byte data
  /\ len (read_text data) = Z.of_nat (length data).
Proof.
  intros H%ascii_text_Forall. unfold read_text.
  rewrite decode_ignore_ascii, newlines_no_cr.
  - split; [apply to_string_bytes|].
    rewrite len_ascii, length_map; [done|].
    eapply Forall_impl; [exact H|]. by intros b (_ & Hb & _).
  - eapply Forall_impl; [exact H|]. by intros b (_ & _ & Hb).
  - eapply Forall_impl; [exact H|]. by intros b (_ & Hb & _).
Qed.

Lemma ascii_text_not_binary f :
  f_io f = Readable -> ascii_text (f_data f) = true ->
  UnifiedScanner._is_binary f = false.
Proof.
  intros Hio H. unfold UnifiedScanner._is_binary. rewrite Hio.
  destruct (existsb _ _) eqn:E; [|done].
  apply existsb_exists in E as (b & Hin & Hb).
  apply byte_dec_bl in Hb as ->.
  apply list_elem_of_In, elem_of_take in Hin as (i & Hin & _).
  apply list_elem_of_lookup_2, list_elem_of_In in Hin.
  unfold ascii_text in H. rewrite forallb_forall in H.
  by specialize (H _ Hin).
Qed.

End Text.

(** X13.  [total_size] grows by the characters read, which are never
    more than the bytes of the file: after a scan it has grown by at most
    [max_file_size] for each file processed. *)
Theorem total_size_bounded (sc : UnifiedScanner.scanner) :
  let st := snd (UnifiedScanner.scan_directory sc) in
  total_size st
  = (total_size (UnifiedScanner.stats sc)
     + sum_Z (map (fun x => text_size (snd x))
                (List.filter (fun x => is_dumped (snd x)) (UnifiedScanner.queue sc))))%Z /\
  (forall f, 0 <= text_size f <= UnifiedScanner.size_of f)%Z /\
  (total_size (UnifiedScanner.stats sc) <= total_size st)%Z /\
  (total_size st - total_size (UnifiedScanner.stats sc)
   <= (files_processed st - files_processed (UnifiedScanner.stats sc))
      * max_file_size (UnifiedScanner.config sc))%Z.
Proof.
  cbn zeta. rewrite scan_directory_stats.
  destruct (dump_fold_stats (UnifiedScanner.queue sc) ""
              {| files_processed := files_processed (UnifiedScanner.stats sc);
                 files_skipped := UnifiedScanner.skipped (UnifiedScanner.walked sc);
                 total_size := total_size (UnifiedScanner.stats sc);
                 errors := errors (UnifiedScanner.stats sc) |}) as (H1 & _ & _ & H4).
  cbn [files_processed total_size] in H1, H4.
  split; [exact H4|]. split; [exact text_size_bounds|].
  rewrite H1, H4. unfold count_where.
  set (l := List.filter (fun x => is_dumped (snd x)) (UnifiedScanner.queue sc)).
  assert (Hlow : (0 <= sum_Z (map (fun x : rel_path * file => text_size (snd x)) l))%Z).
  { apply sum_Z_nonneg, Forall_fmap, Forall_forall. intros x _. apply text_size_bounds. }
  assert (Hup : (sum_Z (map (fun x : rel_path * file => text_size (snd x)) l)
                 <= Z.of_nat (length l) * max_file_size (UnifiedScanner.config sc))%Z).
  { apply sum_Z_bound, Forall_forall. intros [p f] Hx.
    apply list_elem_of_In, filter_In in Hx as [Hq _]. apply list_elem_of_In in Hq.
    apply queue_elem in Hq as (ds & -> & _ & Hi & _).
    cbn [snd]. pose proof (text_size_bounds f) as Hb.
    destruct (Z_le_gt_dec (UnifiedScanner.size_of f)
                (max_file_size (UnifiedScanner.config sc))) as [|Hgt]; [lia|].
    assert (fst (UnifiedScanner.should_ignore_file sc ds f) = true); [|congruence].
    apply should_ignore_file_iff. tauto. }
  split; lia.
Qed.

(** X14.  A readable file of ASCII text without zero bytes and carriage
    returns is dumped as it is, between its header and its end marker,
    with a line feed added when the text does not end with one;
    [total_size] grows by the size of the file. *)
Theorem ascii_file_dumped_as_it_is (out : string) (st : ScanStats) (p : rel_path)
    (f : file) :
  f_io f = Readable ->
  ascii_text (f_data f) = true ->
  let text := string_of_list_byte (f_data f) in
  let rel := UnifiedScanner.rel_str p in
  UnifiedScanner._is_binary f = false /\
  UnifiedScanner.dump_file (out, st) (p, f)
  = (out +:+ "--- " +:+ rel +:+ " ---" +:+ Py.nl +:+ Py.nl
         +:+ text
         +:+ (if Py.endswith text Py.nl then "" else Py.nl)
         +:+ Py.nl +:+ Py.repeat_str "=" 40 +:+ " End of " +:+ rel +:+ " "
         +:+ Py.repeat_str "=" 40 +:+ Py.nl +:+ Py.nl,
     {| files_processed := files_processed st + 1;
        files_skipped := files_skipped st;
        total_size := total_size st + UnifiedScanner.size_of f;
        errors := errors st |}).
Proof.
  intros Hio Ha. cbn zeta.
  pose proof (ascii_text_not_binary f Hio Ha) as Hb.
  split; [exact Hb|].
  unfold UnifiedScanner.dump_file. rewrite Hb, Hio.
  destruct (read_text_ascii _ Ha) as [-> ->]. done.
Qed.

Lemma ascii_file_dumped_as_it_is_witness :
  UnifiedScanner.dump_file ("", no_stats) (["main.py"], plain_file "main.py" [x68; x69; x0a])
  = ("--- main.py ---" +:+ Py.nl +:+ Py.nl +:+ "hi" +:+ Py.nl +:+ Py.nl
     +:+ Py.repeat_str "=" 40 +:+ " End of main.py " +:+ Py.repeat_str "=" 40
     +:+ Py.nl +:+ Py.nl,
     {| files_processed := 1; files_skipped := 0; total_size := 3; errors := 0 |}).
Proof.
  exact (proj2 (ascii_file_dumped_as_it_is "" no_stats ["main.py"]
                  (plain_file "main.py" [x68; x69; x0a]) eq_refl eq_refl)).
Defined.

(** ** The lines of the tree *)

Section TreeLines.
Import UnifiedScanner.
Context (sc : scanner).

Lemma tree_lines_dir dir d es prefix l :
  l ∈ tree_lines sc dir (Dir d true es) prefix <->
  exists i x,
    py_sorted node_le es !! i = Some x
    /\ l ∈ item_lines sc dir prefix (length es) i x
             (tree_lines sc (dir ++ [node_name x]) x).
Proof.
  cbn [tree_lines]. rewrite sorted_items, imap_fmap, length_map, py_sorted_length.
  rewrite list_elem_of_In, in_concat. split.
  - intros (ls & Hls & Hl).
    apply list_elem_of_In, elem_of_lookup_imap in Hls as (i & x & -> & Hx).
    exists i, x. split; [done|]. by apply list_elem_of_In.
  - intros (i & x & Hx & Hl). eexists. split; [|apply list_elem_of_In, Hl].
    apply list_elem_of_In, elem_of_lookup_imap. by exists i, x.
Qed.

Lemma collected_in_tree n : forall dir prefix p f,
  (p, f) ∈ collected sc dir n ->
  exists l, l ∈ tree_lines sc dir n prefix /\ tl_path l = p /\ tl_is_dir l = false.
Proof.
  induction n as [f0|d li es IH] using node_forall_ind; intros dir prefix p f.
  - simpl. intros H. by apply elem_of_nil in H.
  - destruct li; [|simpl; intros H; by apply elem_of_nil in H].
    cbn [collected]. rewrite elem_of_app, !list_elem_of_In, !in_flat_map.
    intros [(e & He & Hin)|(e & He & Hin)].
    + destruct e as [g|]; [|done].
      unfold queued in Hin.
      destruct (fst (should_ignore_file sc dir g)) eqn:E1; [done|].
      destruct (should_include_file sc g) eqn:E2; [|done].
      destruct Hin as [[= <- <-]|[]].
      apply list_elem_of_In, (py_sorted_elem_of node_le), list_elem_of_lookup_1 in He
        as [i Hi].
      eexists. split.
      * apply tree_lines_dir. exists i, (File g). split; [done|].
        unfold item_lines. rewrite E1. left.
      * done.
    + destruct e as [|d' l' sub]; [done|].
      destruct (fst (should_ignore_dir sc dir d')) eqn:E; [done|].
      rewrite Forall_forall in IH.
      apply list_elem_of_In in He, Hin.
      pose proof He as He'.
      apply (py_sorted_elem_of node_le), list_elem_of_lookup_1 in He' as [i Hi].
      destruct (IH _ He (dir ++ [d'])
                  (prefix +:+ (if (i =? length es - 1)%nat then "    " else "│   "))
                  _ _ Hin) as (l & Hl & Hp & Hd).
      exists l. split; [|done].
      apply tree_lines_dir. exists i, (Dir d' l' sub). split; [done|].
      unfold item_lines. rewrite E. right. exact Hl.
Qed.

Lemma concat_str_elem (h : tree_line -> string) (l : tree_line) (ls : list tree_line) :
  l ∈ ls -> exists before after, concat_str (map h ls) = before +:+ h l +:+ after.
Proof.
  intros (l1 & l2 & ->)%list_elem_of_split.
  exists (concat_str (map h l1)), (concat_str (map h l2)).
  by rewrite map_app, concat_str_app.
Qed.

(** The prefix of a line: one piece of four columns for each directory
    between the top and the entry. *)
Lemma tree_lines_prefix n : forall dir prefix l,
  l ∈ tree_lines sc dir n prefix ->
  exists pieces,
    tl_prefix l = prefix +:+ concat_str pieces
    /\ length (tl_path l) = length dir + length pieces + 1
    /\ Forall (fun s => s = "    " \/ s = "│   ") pieces.
Proof.
  induction n as [f|d li es IH] using node_forall_ind; intros dir prefix l.
  - simpl. intros H. by apply elem_of_nil in H.
  - destruct li; [|simpl; intros H; by apply elem_of_nil in H].
    rewrite tree_lines_dir. intros (i & x & Hx & Hl).
    apply list_elem_of_lookup_2, py_sorted_elem_of in Hx.
    unfold item_lines in Hl.
    match type of Hl with context [if ?b then [] else _] => destruct b eqn:Hig end;
      [by apply elem_of_nil in Hl|].
    apply elem_of_cons in Hl as [->|Hl].
    + exists []. cbn. rewrite str_app_nil_r, length_app. cbn.
      split; [done|]. split; [lia|constructor].
    + destruct x as [f|d' l' sub]; [by apply elem_of_nil in Hl|].
      cbn [is_dir node_name] in *.
      rewrite Forall_forall in IH.
      destruct (IH _ Hx _ _ _ Hl) as (pieces & Hp & Hlen & Hall).
      exists ((if (i =? length es - 1)%nat then "    " else "│   ") :: pieces).
      split; [|split].
      * rewrite Hp. cbn [concat_str fold_right]. by rewrite str_app_assoc.
      * rewrite Hlen, length_app. cbn. lia.
      * constructor; [|done]. destruct (i =? length es - 1)%nat; tauto.
Qed.

Lemma len_app a b : Codec.len (a +:+ b) = (Codec.len a + Codec.len b)%Z.
Proof.
  induction a as [|x a IH]; [done|]. rewrite str_app_cons. cbn [Codec.len].
  rewrite IH. lia.
Qed.

Lemma len_pieces pieces :
  Forall (fun s => s = "    " \/ s = "│   ") pieces ->
  Codec.len (concat_str pieces) = (4 * Z.of_nat (length pieces))%Z.
Proof.
  induction 1 as [|s pieces Hs Hall IH]; [done|].
  cbn [concat_str fold_right length]. fold (concat_str pieces).
  rewrite len_app, IH. destruct Hs as [->| ->]; vm_compute Codec.len at 1; lia.
Qed.

End TreeLines.

(** X15.  Every queued file is shown in the tree: [_write_tree] writes a
    line for it, made of a prefix, a connector and the name of the
    file. *)
Theorem queued_files_are_in_the_tree (sc : UnifiedScanner.scanner) (p : rel_path)
    (f : file) :
  (p, f) ∈ UnifiedScanner.queue sc ->
  exists l,
    l ∈ tree_lines sc [] (UnifiedScanner.root sc) ""
    /\ tl_path l = p /\ tl_is_dir l = false
    /\ exists before after,
         UnifiedScanner._write_tree sc [] (UnifiedScanner.root sc) "" true
         = before
           +:+ (tl_prefix l +:+ (if tl_last l then "└── " else "├── ")
                +:+ f_name f +:+ Py.nl)
           +:+ after.
Proof.
  intros Hq. pose proof Hq as Hq'.
  apply queue_elem in Hq' as (ds & Hp & _).
  apply queue_collected, (collected_in_tree sc _ [] "") in Hq as (l & Hl & Hpath & Hd).
  exists l. split; [done|]. split; [done|]. split; [done|].
  rewrite write_tree_lines.
  destruct (concat_str_elem render_line l _ Hl) as (before & after & ->).
  exists before, after. unfold render_line.
  by rewrite Hpath, Hp, last_snoc, Hd.
Qed.

Lemma queued_files_are_in_the_tree_witness :
  exists l,
    l ∈ tree_lines demo_scanner [] (UnifiedScanner.root demo_scanner) ""
    /\ tl_path l = ["src"; "util.py"] /\ tl_is_dir l = false.
Proof.
  destruct (queued_files_are_in_the_tree demo_scanner ["src"; "util.py"]
              (plain_file "util.py" [x79])) as (l & Hl & Hp & Hd & _).
  - assert (E : UnifiedScanner.queue demo_scanner
                 = [(["main.py"], plain_file "main.py" [x68; x69; x0a]);
                    (["src"; "util.py"], plain_file "util.py" [x79])])
      by (by vm_compute).
    rewrite E. right. left.
  - by exists l.
Defined.

(** X16.  What [_write_tree] writes is made of lines, each indented by
    four columns for each directory above its entry: the prefix of a
    line is made of one piece, four blanks or a bar and three blanks, for
    each of them. *)
Theorem tree_indentation (sc : UnifiedScanner.scanner) :
  UnifiedScanner._write_tree sc [] (UnifiedScanner.root sc) "" true
  = UnifiedScanner.concat_str
      (map render_line (tree_lines sc [] (UnifiedScanner.root sc) "")) /\
  forall l,
    l ∈ tree_lines sc [] (UnifiedScanner.root sc) "" ->
    exists pieces,
      tl_prefix l = UnifiedScanner.concat_str pieces
      /\ length (tl_path l) = S (length pieces)
      /\ Forall (fun s => s = "    " \/ s = "│   ") pieces
      /\ Codec.len (tl_prefix l) = (4 * (Z.of_nat (length (tl_path l)) - 1))%Z.
Proof.
  split; [apply write_tree_lines|].
  intros l Hl. apply tree_lines_prefix in Hl as (pieces & Hp & Hlen & Hall).
  rewrite str_app_nil in Hp. cbn [length] in Hlen.
  exists pieces. split; [done|]. split; [lia|]. split; [done|].
  rewrite Hp, len_pieces by done. lia.
Qed.

(** X17.  The closing connector is for the entry that is last among all
    the entries of the directory, the ignored ones included: a line of an
    entry of the directory has it only when that entry is the last of
    the sorted listing; when the last entry is ignored, no line of the
    directory has it. *)
Theorem last_connector_is_for_last_entry (sc : UnifiedScanner.scanner) (dir : rel_path)
    (d : string) (es : list node) (prefix : string) :
  (forall is_last,
      UnifiedScanner._write_tree sc dir (Dir d true es) prefix is_last
      = UnifiedScanner.concat_str
          (map render_line (tree_lines sc dir (Dir d true es) prefix))) /\
  forall l,
    l ∈ tree_lines sc dir (Dir d true es) prefix ->
    length (tl_path l) = S (length dir) ->
    tl_last l = true ->
    exists e,
      last (py_sorted node_le es) = Some e
      /\ tl_path l = dir ++ [node_name e]
      /\ match e with
         | File f => fst (UnifiedScanner.should_ignore_file sc dir f) = false
         | Dir d' _ _ => fst (UnifiedScanner.should_ignore_dir sc dir d') = false
         end.
Proof.
  split; [intros is_last; apply write_tree_lines|].
  intros l. rewrite tree_lines_dir. intros (i & x & Hx & Hl) Hlen Hlast.
  unfold item_lines in Hl.
  match type of Hl with context [if ?b then [] else _] => destruct b eqn:Hig end;
    [by apply elem_of_nil in Hl|].
  apply elem_of_cons in Hl as [->|Hl].
  - cbn [tl_last] in Hlast. apply Nat.eqb_eq in Hlast.
    exists x. split; [|split].
    + rewrite last_lookup, py_sorted_length.
      replace (Init.Nat.pred (length es)) with i by lia. done.
    + done.
    + by destruct x.
  - destruct x as [f|d' l' sub]; [by apply elem_of_nil in Hl|].
    cbn [is_dir node_name] in Hl.
    apply tree_lines_prefix in Hl as (pieces & _ & Hlen' & _).
    rewrite length_app in Hlen'. cbn in Hlen'. lia.
Qed.

Lemma tree_indentation_witness :
  Codec.len (tl_prefix {| tl_prefix := "│   "; tl_last := true;
                          tl_path := ["src"; "util.py"]; tl_is_dir := false |}) = 4%Z.
Proof.
  destruct (proj2 (tree_indentation demo_scanner)
              {| tl_prefix := "│   "; tl_last := true;
                 tl_path := ["src"; "util.py"]; tl_is_dir := false |})
    as (pieces & _ & _ & _ & Hlen).
  - assert (E : tree_lines demo_scanner [] (UnifiedScanner.root demo_scanner) ""
                = [ {| tl_prefix := ""; tl_last := false;
                       tl_path := ["src"]; tl_is_dir := true |};
                    {| tl_prefix := "│   "; tl_last := true;
                       tl_path := ["src"; "util.py"]; tl_is_dir := false |};
                    {| tl_prefix := ""; tl_last := true;
                       tl_path := ["main.py"]; tl_is_dir := false |} ])
      by (by vm_compute).
    rewrite E. right. left.
  - exact Hlen.
Defined.

Lemma last_connector_is_for_last_entry_witness :
  exists e,
    last (py_sorted node_le
            [Dir "build" true [File (plain_file "deep.py" [x7a])];
             File (plain_file "util.py" [x79])]) = Some e
    /\ node_name e = "util.py".
Proof.
  destruct (proj2 (last_connector_is_for_last_entry demo_scanner ["src"] "src"
                     [Dir "build" true [File (plain_file "deep.py" [x7a])];
                      File (plain_file "util.py" [x79])]
                     "│   ")
              {| tl_prefix := "│   "; tl_last := true;
                 tl_path := ["src"; "util.py"]; tl_is_dir := false |})
    as (e & He & Hp & _).
  - assert (E : tree_lines demo_scanner ["src"]
                  (Dir "src" true
                     [Dir "build" true [File (plain_file "deep.py" [x7a])];
                      File (plain_file "util.py" [x79])]) "│   "
                = [ {| tl_prefix := "│   "; tl_last := true;
                       tl_path := ["src"; "util.py"]; tl_is_dir := false |} ])
      by (by vm_compute).
    rewrite E. left.
  - reflexivity.
  - reflexivity.
  - exists e. split; [exact He|]. cbn [tl_path] in Hp. by injection Hp as <-.
Defined.

(** ** Merging a custom configuration *)

Section Merge.
Import ConfigLoader.















Lemma keeping_bind (m k : M unit) :
  keeping m -> keeping k -> keeping (bind m (fun _ => k)).
Proof.
  intros Hm Hk c. unfold bind.
  destruct (Hm c) as [->|[e ->]]; [apply Hk|right; by exists e].
Qed.

Lemma keeping_step (key : string) (data : json) (rest : json -> M unit) :
  is_object data = false ->
  keeping (bind (has_key key data)
             (fun b => if b : bool then bind (get_item key data) rest else ret tt)).
Proof.
  intros Hd c. unfold bind.
  destruct data; try done; cbn; try (right; by eexists).
  - destruct (contains key s); [right; by eexists|by left].
  - destruct (existsb (is_str key) items); [right; by eexists|by left].
Qed.

Lemma keeping_merge data : is_object data = false -> keeping (merge data).
Proof.
  intros Hd. unfold merge.
  repeat apply keeping_bind;
    first [ apply (keeping_step _ _ (fun v => bind (to_set v) _) Hd)
          | apply (keeping_step _ _ _ Hd) ].
Qed.

Lemma merge_no_keys members c :
  forallb (fun key => negb (has_member members key)) CONFIG_KEYS = true ->
  merge (JObj members) c = Done tt c.
Proof.
  cbn [forallb CONFIG_KEYS]. unfold has_member.
  intros H. repeat (apply andb_true_iff in H as [?%negb_true_iff H]).
  unfold merge, merge_set, replace_set, replace_field, mbind, M_bind, bind, has_key, ret.
  by repeat match goal with H : existsb _ _ = false |- _ => rewrite H; clear H end.
Qed.

End Merge.



(** X19.  A document that is no object (a list, a string, a number,
    [true], [false], [null]) changes nothing: the configuration comes
    back as it was, with one warning at most.  So does an object that
    binds none of the seven keys, and without a warning. *)
Theorem load_from_file_without_keys (config_file : string) (base : ProjectConfig) :
  (forall data,
      is_object data = false ->
      exists warnings,
        ConfigLoader.load_from_file config_file (Parsed data) base
        = Some (base, warnings) /\ length warnings <= 1) /\
  (forall members,
      forallb (fun key => negb (has_member members key)) CONFIG_KEYS = true ->
      ConfigLoader.load_from_file config_file (Parsed (JObj members)) base
      = Some (base, [])).
Proof.
  split.
  - intros data Hd. unfold ConfigLoader.load_from_file.
    destruct (keeping_merge data Hd base) as [->|[e ->]].
    + exists []. split; [done|simpl; lia].
    + eexists. split; [done|simpl; lia].
  - intros members H. unfold ConfigLoader.load_from_file.
    by rewrite merge_no_keys.
Qed.

Lemma load_from_file_without_keys_witness :
  ConfigLoader.load_from_file "demo/.scanner-config.json"
    (Parsed (JObj [("extensions", JArr [JStr ".foo"])])) base_config
  = Some (base_config, []).
Proof.
  apply (proj2 (load_from_file_without_keys "demo/.scanner-config.json" base_config)).
  reflexivity.
Defined.

(** ** The default configuration *)

Section DefaultConfig.
Import ConfigLoader.

Lemma load_default_config_adjusted project_name project_types :
  load_default_config project_name project_types
  = adjusted project_types
      (set_project_type (List.hd "generic" project_types) (baseline project_name)).
Proof. by destruct project_types. Qed.

Ltac by_cases :=
  unfold adjusted, adjust_python, adjust_nodejs, adjust_java,
    adjust_rust, adjust_go, adjust_flutter;
  repeat match goal with
         | |- context [if ?b then _ else _] =>
             destruct b;
             cbn [name project_type code_extensions config_files ignore_dirs
                  ignore_files ignore_extensions ignore_patterns target_subdirs
                  max_file_size include_hidden
                  set_code_extensions set_target_subdirs set_ignore_dirs]
         end.

Lemma adjusted_untouched project_types c :
  let c' := adjusted project_types c in
  name c' = name c /\ project_type c' = project_type c
  /\ config_files c' = config_files c
  /\ ignore_files c' = ignore_files c /\ ignore_extensions c' = ignore_extensions c
  /\ ignore_patterns c' = ignore_patterns c /\ max_file_size c' = max_file_size c
  /\ include_hidden c' = include_hidden c.
Proof. cbv zeta. by_cases; repeat split; reflexivity. Qed.

Lemma adjusted_target_subdirs project_types c :
  let has t := in_list t project_types in
  target_subdirs (adjusted project_types c)
  = if has "flutter" then list_to_set ["lib"]
    else if has "go" then list_to_set ["pkg"; "cmd"; "internal"]
    else if has "rust" then list_to_set ["src"]
    else if has "java" || has "spring"
         then list_to_set ["src/main/java"; "src/main/resources"; "src"]
    else if has "nodejs" || has "react" || has "vue"
         then list_to_set ["src"; "lib"; "components"; "pages"]
    else if has "python" || has "django"
         then list_to_set ["src"; "app"; "backend"; "back"]
    else target_subdirs c.
Proof. cbv zeta. by_cases; reflexivity. Qed.

Lemma adjusted_code_extensions project_types c :
  let has t := in_list t project_types in
  code_extensions (adjusted project_types c)
  = code_extensions c
    ∪ (if has "python" || has "django" then list_to_set [".pyx"; ".pyi"] else ∅)
    ∪ (if has "nodejs" || has "react" || has "vue"
       then list_to_set [".mjs"; ".cjs"; ".vue"] else ∅).
Proof. cbv zeta. by_cases; rewrite ?(right_id_L ∅ (∪)); reflexivity. Qed.

Lemma adjusted_ignore_dirs project_types c :
  Forall (fun d => d ∈ ignore_dirs c)
    ["target"; ".gradle"; ".mvn"; ".dart_tool"; "build"] ->
  ignore_dirs (adjusted project_types c)
  = ignore_dirs c
    ∪ (if in_list "flutter" project_types then list_to_set ["android"; "ios"] else ∅).
Proof.
  rewrite !Forall_cons. intros (H1 & H2 & H3 & H4 & H5 & _).
  assert (Hin : forall l : list string,
             Forall (fun d => d ∈ ignore_dirs c) l ->
             ignore_dirs c ∪ list_to_set l = ignore_dirs c).
  { intros l Hl. rewrite (comm_L (∪)). apply subseteq_union_1_L.
    intros x Hx%elem_of_list_to_set. rewrite Forall_forall in Hl. by apply Hl. }
  assert (HJ := Hin ["target"; ".gradle"; ".mvn"] ltac:(by repeat constructor)).
  assert (HT : ignore_dirs c ∪ {["target"]} = ignore_dirs c).
  { rewrite <- (Hin ["target"] ltac:(by repeat constructor)) at 2.
    cbn [list_to_set foldr]. by rewrite (right_id_L ∅ (∪)). }
  assert (HF : ignore_dirs c ∪ list_to_set [".dart_tool"; "build"; "android"; "ios"]
               = ignore_dirs c ∪ list_to_set ["android"; "ios"]).
  { change [".dart_tool"; "build"; "android"; "ios"]
      with ([".dart_tool"; "build"] ++ ["android"; "ios"]).
    rewrite list_to_set_app_L, (assoc_L (∪)).
    by rewrite (Hin [".dart_tool"; "build"]) by (by repeat constructor). }
  by_cases; rewrite ?HJ, ?HT, ?HF, ?(right_id_L ∅ (∪)); reflexivity.
Qed.

Lemma baseline_ignore_dirs project_name :
  Forall (fun d => d ∈ ignore_dirs (baseline project_name))
    ["target"; ".gradle"; ".mvn"; ".dart_tool"; "build"].
Proof.
  repeat constructor; apply (bool_decide_unpack _); by vm_compute.
Qed.

Lemma baseline_fields project_name :
  name (baseline project_name) = project_name
  /\ target_subdirs (baseline project_name) = ∅
  /\ ignore_patterns (baseline project_name) = []
  /\ max_file_size (baseline project_name) = DEFAULT_MAX_FILE_SIZE
  /\ include_hidden (baseline project_name) = false.
Proof. repeat split; reflexivity. Qed.

End DefaultConfig.

(** X20.  The default configuration by detected types: the project type
    is the first type of the list; [target_subdirs] is set by the last
    adjustment that applies (flutter, then go, rust, java or spring, the
    node family, python or django); [code_extensions] gains the python
    and the node extensions; of all the directories that the adjustments
    add to [ignore_dirs] only [android] and [ios] were not there
    already; nothing else depends on the types. *)
Theorem default_config_by_types (project_name : string) (project_types : list string) :
  let c := ConfigLoader.load_default_config project_name project_types in
  let b := ConfigLoader.baseline project_name in
  let has t := in_list t project_types in
  project_type c = List.hd "generic" project_types /\
  target_subdirs c
  = (if has "flutter" then list_to_set ["lib"]
     else if has "go" then list_to_set ["pkg"; "cmd"; "internal"]
     else if has "rust" then list_to_set ["src"]
     else if has "java" || has "spring"
          then list_to_set ["src/main/java"; "src/main/resources"; "src"]
     else if has "nodejs" || has "react" || has "vue"
          then list_to_set ["src"; "lib"; "components"; "pages"]
     else if has "python" || has "django"
          then list_to_set ["src"; "app"; "backend"; "back"]
     else ∅) /\
  code_extensions c
  = code_extensions b
    ∪ (if has "python" || has "django" then list_to_set [".pyx"; ".pyi"] else ∅)
    ∪ (if has "nodejs" || has "react" || has "vue"
       then list_to_set [".mjs"; ".cjs"; ".vue"] else ∅) /\
  ignore_dirs c
  = ignore_dirs b ∪ (if has "flutter" then list_to_set ["android"; "ios"] else ∅) /\
  name c = project_name /\
  config_files c = config_files b /\
  ignore_files c = ignore_files b /\
  ignore_extensions c = ignore_extensions b /\
  ignore_patterns c = [] /\
  max_file_size c = DEFAULT_MAX_FILE_SIZE /\
  include_hidden c = false.
Proof.
  cbv zeta. rewrite load_default_config_adjusted.
  pose proof (baseline_fields project_name) as (B1 & B2 & B3 & B4 & B5).
  pose proof (baseline_ignore_dirs project_name) as Hd.
  revert B1 B2 B3 B4 B5 Hd.
  generalize (ConfigLoader.baseline project_name). intros b B1 B2 B3 B4 B5 Hd.
  destruct (adjusted_untouched project_types
              (set_project_type (List.hd "generic" project_types) b))
    as (H1 & H2 & H3 & H4 & H5 & H6 & H7 & H8).
  rewrite H1, H2, H3, H4, H5, H6, H7, H8.
  rewrite adjusted_target_subdirs, adjusted_code_extensions.
  rewrite adjusted_ignore_dirs by exact Hd.
  cbn [name project_type code_extensions config_files ignore_dirs ignore_files
       ignore_extensions ignore_patterns target_subdirs max_file_size
       include_hidden set_project_type].
  rewrite B1, B2, B3, B4, B5.
  repeat split; reflexivity.
Qed.

(** ** Detection by names *)

Section Names.
Import ProjectDetector.








End Names.



(** ** What a run leaves *)

Section Reports.
Import Driver.




Lemma report_name w p x :
  report w p = Some x ->
  fst (fst x) = output_dir w +:+ "/" +:+ p_name p +:+ "_unified_scan.txt"
  /\ scan_ok p = true.
Proof.
  unfold report, scan_ok. destruct (configure w p); [|done].
  destruct (p_output_fails p); [done|].
  destruct (UnifiedScanner.scan_directory _). by intros [= <-].
Qed.







End Reports.



(** ** Projects whose scan fails *)

Section Isolation.
Import Driver.







End Isolation.



(** ** Names and patterns of the configuration *)

Section NamePatterns.
Import Fnmatch UnifiedScanner.

Lemma match_star_suffix ts pre l :
  match_toks ts l = true -> match_toks (Star :: ts) (pre ++ l) = true.
Proof.
  intros H. induction pre as [|a pre IH].
  - destruct l; simpl; by rewrite H.
  - simpl. apply orb_true_iff. right. exact IH.
Qed.

(** A star and then plain text matches every name that ends with the
    text. *)
Lemma fnmatch_star_suffix stem suffix :
  plain suffix = true -> fnmatch (stem +:+ suffix) ("*" +:+ suffix) = true.
Proof.
  intros Hp. unfold fnmatch, fnmatchcase, translate.
  change ("*" +:+ suffix) with (String "*" suffix).
  cbn [list_ascii_of_string length translate_aux]. unfold ch_eqb at 1. cbn [Ascii.eqb].
  change (Ascii.eqb "*" "*") with true. cbv iota.
  pose proof (translate_plain suffix Hp) as Ht. unfold translate in Ht. rewrite Ht.
  rewrite str_app_chars. apply match_star_suffix. by apply match_lits.
Qed.

Lemma suffix_without_dot x : Py.contains_char "." x = false -> Py.suffix x = "".
Proof. intros H. unfold Py.suffix. by rewrite (rfind_none _ _ H). Qed.

Lemma suffix_of_dot_name rest :
  Py.contains_char "." rest = false -> Py.suffix (String "." rest) = "".
Proof.
  intros H. unfold Py.suffix. cbn [Py.rfind]. by rewrite (rfind_none _ _ H).
Qed.

Lemma default_ignore_files project_name project_types :
  Forall (fun pattern =>
            pattern ∈ ignore_files
                        (ConfigLoader.load_default_config project_name project_types))
    ["*.log"; "*.pid"; "*.seed"; "*.lock"].
Proof.
  rewrite load_default_config_adjusted.
  destruct (adjusted_untouched project_types
              (set_project_type (List.hd "generic" project_types)
                 (ConfigLoader.baseline project_name)))
    as (_ & _ & _ & -> & _).
  repeat constructor; apply (bool_decide_unpack _); by vm_compute.
Qed.

End NamePatterns.

(** X24.  An entry of [ignore_files] made of a star and plain text
    ignores every file whose name ends with the text, in any directory,
    and no such file is queued; [*.log], [*.pid], [*.seed] and [*.lock]
    are such entries of every default configuration. *)
Theorem star_patterns_ignore_by_ending (sc : UnifiedScanner.scanner) (ending : string) :
  plain ending = true ->
  ("*" +:+ ending) ∈ ignore_files (UnifiedScanner.config sc) ->
  (forall dir f stem,
      f_name f = stem +:+ ending ->
      fst (UnifiedScanner.should_ignore_file sc dir f) = true) /\
  (forall p f stem,
      (p, f) ∈ UnifiedScanner.queue sc -> f_name f <> stem +:+ ending) /\
  (forall project_name project_types,
      Forall (fun pattern =>
                pattern ∈ ignore_files
                            (ConfigLoader.load_default_config project_name project_types))
        ["*.log"; "*.pid"; "*.seed"; "*.lock"]).
Proof.
  intros Hp Hin.
  assert (Hfile : forall dir f stem,
             f_name f = stem +:+ ending ->
             fst (UnifiedScanner.should_ignore_file sc dir f) = true).
  { intros dir f stem Hf. apply should_ignore_file_iff.
    right. right. left. exists ("*" +:+ ending). split; [done|].
    rewrite Hf. by apply fnmatch_star_suffix. }
  split; [exact Hfile|]. split; [|exact default_ignore_files].
  intros p f stem Hq Hf.
  apply queue_elem in Hq as (ds & -> & _ & Hi & _).
  by rewrite (Hfile ds f stem Hf) in Hi.
Qed.

Lemma star_patterns_ignore_by_ending_witness :
  fst (UnifiedScanner.should_ignore_file demo_scanner ["src"]
         (plain_file "debug.log" [x61])) = true.
Proof.
  apply (proj1 (star_patterns_ignore_by_ending demo_scanner ".log" eq_refl
                  ltac:(apply (bool_decide_unpack _); by vm_compute))
           ["src"] (plain_file "debug.log" [x61]) "debug").
  reflexivity.
Defined.

(** X25.  A file whose name has no dot passes [should_include_file]
    whatever the configuration holds ([Makefile], but also a program
    without extension).  A name that is a dot and then text without a
    dot has no extension either, and passes only as a configuration
    file or with the empty extension among [code_extensions]. *)
Theorem files_without_extension (sc : UnifiedScanner.scanner) (f : file) :
  (Py.contains_char "." (f_name f) = false ->
   ext_of f = "" /\ UnifiedScanner.should_include_file sc f = true) /\
  (forall rest,
      f_name f = String "." rest ->
      Py.contains_char "." rest = false ->
      ext_of f = ""
      /\ UnifiedScanner.should_include_file sc f
         = in_set (f_name f) (config_files (UnifiedScanner.config sc))
           || in_set "" (code_extensions (UnifiedScanner.config sc))).
Proof.
  split.
  - intros H.
    assert (He : ext_of f = "") by (unfold ext_of; by rewrite suffix_without_dot).
    split; [exact He|].
    assert (Hs : Py.startswith (f_name f) "." = false).
    { destruct (f_name f) as [|a s]; [done|].
      cbn in H. apply orb_false_iff in H as [Ha%Ascii.eqb_neq _].
      unfold Py.startswith. cbn [String.prefix].
      by destruct (ascii_dec "." a) as [<-|]. }
    unfold UnifiedScanner.should_include_file. fold (ext_of f). rewrite He, Hs.
    destruct (in_set (f_name f) _); [done|]. by destruct (in_set "" _).
  - intros rest Hn Hr.
    assert (He : ext_of f = "")
      by (unfold ext_of; by rewrite Hn, suffix_of_dot_name).
    split; [exact He|].
    unfold UnifiedScanner.should_include_file. fold (ext_of f). rewrite He.
    assert (Hs : Py.startswith (f_name f) "." = true).
    { rewrite Hn. unfold Py.startswith. cbn [String.prefix].
      destruct (ascii_dec "." "."); [by destruct rest|done]. }
    rewrite Hs.
    destruct (in_set (f_name f) _); [done|]. by destruct (in_set "" _).
Qed.

Lemma files_without_extension_witness :
  UnifiedScanner.should_include_file tiny_scanner (plain_file "Makefile" [x61; x0a])
  = true.
Proof.
  apply (proj1 (files_without_extension tiny_scanner
                  (plain_file "Makefile" [x61; x0a]))).
  reflexivity.
Defined.

(** ** A custom configuration of the declared types *)

Section TypedObject.
Import ConfigLoader.

Lemma has_key_object key members c :
  has_key key (JObj members) c
  = Done (match bound members key with Some _ => true | None => false end) c.
Proof.
  unfold has_key, ret, bound. rewrite <- find_existsb.
  by destruct (find _ members).
Qed.

Lemma get_item_object key members v c :
  bound members key = Some v -> get_item key (JObj members) c = Done v c.
Proof.
  unfold get_item, bound. destruct (find _ members) as [kv|]; [|done].
  by intros [= <-].
Qed.

Lemma to_set_strings v l c :
  strings_of v = Some l -> to_set v c = Done (list_to_set l) c.
Proof.
  destruct v as [| | | | |items|]; try done. cbn [strings_of to_set]. intros H.
  assert (Hc : find is_container items = None).
  { clear c. revert l H. induction items as [|x items IH]; intros l H; [done|].
    simpl in H. destruct (str_of x) as [s|] eqn:Ex; simpl in H; [|done].
    destruct (mapM str_of items) as [l'|] eqn:El; simpl in H; [|done].
    cbn [find]. destruct x; try done. cbn. by eapply IH. }
  by rewrite Hc, H.
Qed.

Lemma merge_set_typed key members get set c :
  field_ok strings_of members key = true ->
  merge_set key (JObj members) get set c
  = Done tt (match given strings_of members key with
             | Some l => set (get c ∪ list_to_set l) c
             | None => c
             end).
Proof.
  unfold field_ok, given, merge_set, mbind, M_bind, bind.
  rewrite has_key_object.
  destruct (bound members key) as [v|] eqn:Eb; [|done].
  destruct (strings_of v) as [l|] eqn:Es; [|done]. intros _.
  by rewrite (get_item_object _ _ _ _ Eb), (to_set_strings _ _ _ Es).
Qed.

Lemma replace_set_typed key members set c :
  field_ok strings_of members key = true ->
  replace_set key (JObj members) set c
  = Done tt (match given strings_of members key with
             | Some l => set (list_to_set l) c
             | None => c
             end).
Proof.
  unfold field_ok, given, replace_set, mbind, M_bind, bind.
  rewrite has_key_object.
  destruct (bound members key) as [v|] eqn:Eb; [|done].
  destruct (strings_of v) as [l|] eqn:Es; [|done]. intros _.
  by rewrite (get_item_object _ _ _ _ Eb), (to_set_strings _ _ _ Es).
Qed.

Lemma replace_field_typed {A} key members (typed : json -> option A) set c :
  field_ok typed members key = true ->
  replace_field key (JObj members) typed set c
  = Done tt (match given typed members key with
             | Some a => set a c
             | None => c
             end).
Proof.
  unfold field_ok, given, replace_field, mbind, M_bind, bind.
  rewrite has_key_object.
  destruct (bound members key) as [v|] eqn:Eb; [|done].
  destruct (typed v) as [a|] eqn:Es; [|done]. intros _.
  by rewrite (get_item_object _ _ _ _ Eb), Es.
Qed.

End TypedObject.

(** X26.  A custom object whose bindings have the declared types is
    merged without a warning: the lists given for [code_extensions],
    [ignore_dirs], [ignore_files] and [ignore_extensions] are added to
    the sets of the configuration; the list given for [target_subdirs]
    takes the place of the set; [max_file_size] and [include_hidden]
    take the values given; a key that is absent leaves its field. *)
Theorem typed_object_is_merged (config_file : string)
    (members : list (string * json)) (base : ProjectConfig) :
  typed_object members = true ->
  exists config,
    ConfigLoader.load_from_file config_file (Parsed (JObj members)) base
    = Some (config, []) /\
    code_extensions config
    = code_extensions base ∪ given_set members "code_extensions" /\
    ignore_dirs config = ignore_dirs base ∪ given_set members "ignore_dirs" /\
    ignore_files config = ignore_files base ∪ given_set members "ignore_files" /\
    ignore_extensions config
    = ignore_extensions base ∪ given_set members "ignore_extensions" /\
    target_subdirs config
    = match given strings_of members "target_subdirs" with
      | Some l => list_to_set l
      | None => target_subdirs base
      end /\
    max_file_size config
    = default (max_file_size base) (given ConfigLoader.int_of members "max_file_size") /\
    include_hidden config
    = default (include_hidden base)
        (given ConfigLoader.bool_of members "include_hidden") /\
    name config = name base /\
    project_type config = project_type base /\
    config_files config = config_files base /\
    ignore_patterns config = ignore_patterns base.
Proof.
  unfold typed_object. cbn [forallb].
  intros [[(H1 & (H2 & (H3 & (H4 & (H5 & _)%andb_true_iff)%andb_true_iff)%andb_true_iff)
              %andb_true_iff)%andb_true_iff H6]%andb_true_iff H7]%andb_true_iff.
  unfold ConfigLoader.load_from_file, ConfigLoader.merge, mbind,
    ConfigLoader.M_bind, ConfigLoader.bind.
  rewrite (merge_set_typed _ _ _ _ _ H1), (merge_set_typed _ _ _ _ _ H2),
    (merge_set_typed _ _ _ _ _ H3), (merge_set_typed _ _ _ _ _ H4),
    (replace_set_typed _ _ _ _ H5), (replace_field_typed _ _ _ _ _ H6),
    (replace_field_typed _ _ _ _ _ H7).
  eexists. split; [reflexivity|]. unfold given_set.
  destruct (given strings_of members "code_extensions");
    destruct (given strings_of members "ignore_dirs");
    destruct (given strings_of members "ignore_files");
    destruct (given strings_of members "ignore_extensions");
    destruct (given strings_of members "target_subdirs");
    destruct (given ConfigLoader.int_of members "max_file_size");
    destruct (given ConfigLoader.bool_of members "include_hidden");
    cbn; rewrite ?(right_id_L ∅ (∪)); repeat split; reflexivity.
Qed.

Lemma typed_object_is_merged_witness :
  exists config,
    ConfigLoader.load_from_file "tiny/.scanner-config.json"
      (Parsed (JObj [("ignore_dirs", JArr [JStr "gen"]); ("include_hidden", JBool true)]))
      (new_config "tiny")
    = Some (config, [])
    /\ ignore_dirs config = ignore_dirs (new_config "tiny") ∪ {["gen"]}
    /\ include_hidden config = true.
Proof.
  destruct (typed_object_is_merged "tiny/.scanner-config.json"
              [("ignore_dirs", JArr [JStr "gen"]); ("include_hidden", JBool true)]
              (new_config "tiny") eq_refl)
    as (config & Hc & _ & Hd & _ & _ & _ & _ & Hh & _).
  exists config. split; [exact Hc|]. split; [|exact Hh].
  rewrite Hd. unfold given_set. cbn. by rewrite (right_id_L ∅ (∪)).
Defined.
